(** * kohya_ss launcher: a shallow embedding of [launcher.py]

    The launcher is orchestration code: it merges configuration files,
    parses a verbosity option, fetches the application with git or from a
    release archive, repairs file permissions and library links, installs
    the Python requirements and starts the GUI.  Each routine is embedded
    as a function over an explicit description of what the routine observes
    (file contents, directory listings, answers of child processes) and
    returns what the routine returns together with the actions it performed.

    Python strings are [string]s whose characters stand for the code points
    0..255.  Python integers are [Z].  Exceptions are values of [exn]; a
    routine that may raise returns a [res]. *)

From Stdlib Require Import ZArith List String Ascii Bool Lia DecimalString.
From stdpp Require Import base option gmap strings list fin_maps.

Local Open Scope string_scope.
Local Open Scope Z_scope.

(** ** Exceptions and results *)

Inductive exn : Type :=
| KeyboardInterrupt
| SystemExit (code : Z)
| TypeError
| ValueError (msg : string)
| IndexError
| UnboundLocalError
| EOFError
| FileNotFoundError
| PermissionError
| CalledProcessError
| GitCommandError (msg : string)
| UpdateSkippedException
| UncommittedChangesException
| OtherException (msg : string).

(** [except Exception] catches everything but the [BaseException]s the
    launcher meets: [KeyboardInterrupt] and [SystemExit]. *)
Definition is_Exception (e : exn) : bool :=
  match e with
  | KeyboardInterrupt | SystemExit _ => false
  | _ => true
  end.

Inductive res (A : Type) : Type :=
| Ret (a : A)
| Raise (e : exn).
Arguments Ret {A} a.
Arguments Raise {A} e.

#[global] Instance res_ret : MRet res := @Ret.
#[global] Instance res_bind : MBind res := fun A B f m =>
  match m with
  | Ret a => f a
  | Raise e => Raise e
  end.

(** [exit(n)] and [sys.exit(n)] *)
Definition py_exit {A} (code : Z) : res A := Raise (SystemExit code).

(** ** The Python string operations the launcher uses *)

Module Py.

Definition code (c : ascii) : Z := Z.of_nat (nat_of_ascii c).

Definition ascii_eqb (a b : ascii) : bool := Ascii.eqb a b.

(** [c in chars] for a one-character [c] *)
Fixpoint char_in (c : ascii) (chars : string) : bool :=
  match chars with
  | EmptyString => false
  | String d chars' => ascii_eqb c d || char_in c chars'
  end.

(** [s.startswith(p)] *)
Fixpoint startswith (s p : string) : bool :=
  match p, s with
  | EmptyString, _ => true
  | String _ _, EmptyString => false
  | String b p', String a s' => ascii_eqb a b && startswith s' p'
  end.

(** [sub in s] *)
Fixpoint contains (sub s : string) : bool :=
  startswith s sub ||
  match s with
  | EmptyString => false
  | String _ s' => contains sub s'
  end.

(** [s.endswith(p)] *)
Fixpoint endswith (s p : string) : bool :=
  String.eqb s p ||
  match s with
  | EmptyString => false
  | String _ s' => endswith s' p
  end.

(** [s.endswith((p1, p2, ...))] *)
Definition endswith_any (s : string) (ps : list string) : bool :=
  existsb (endswith s) ps.

(** [s.rstrip(chars)]: drops the longest suffix made of characters of
    [chars]. *)
Fixpoint rstrip (chars s : string) : string :=
  match s with
  | EmptyString => EmptyString
  | String c s' =>
      match rstrip chars s' with
      | EmptyString => if char_in c chars then EmptyString else String c EmptyString
      | r => String c r
      end
  end.

(** [s.lstrip(chars)] *)
Fixpoint lstrip (chars s : string) : string :=
  match s with
  | EmptyString => EmptyString
  | String c s' => if char_in c chars then lstrip chars s' else s
  end.

(** [s.split(sep)] for a one-character separator: never empty. *)
Fixpoint split (sep : ascii) (s : string) : list string :=
  match s with
  | EmptyString => [EmptyString]
  | String c s' =>
      if ascii_eqb c sep then EmptyString :: split sep s'
      else match split sep s' with
           | [] => [String c EmptyString]
           | w :: ws => String c w :: ws
           end
  end.

(** [l[-1]] and [l[-2]] *)
Definition index_m1 {A} (l : list A) : res A :=
  match rev l with
  | x :: _ => Ret x
  | _ => Raise IndexError
  end.

Definition index_m2 {A} (l : list A) : res A :=
  match rev l with
  | _ :: x :: _ => Ret x
  | _ => Raise IndexError
  end.

(** [s.count(c)] for a one-character [c] *)
Fixpoint count (c : ascii) (s : string) : Z :=
  match s with
  | EmptyString => 0
  | String d s' => (if ascii_eqb d c then 1 else 0) + count c s'
  end.

(** [s.lower()] on the code points below 128 *)
Definition lower_char (c : ascii) : ascii :=
  let n := nat_of_ascii c in
  if (65 <=? n)%nat && (n <=? 90)%nat then ascii_of_nat (n + 32) else c.

Fixpoint lower (s : string) : string :=
  match s with
  | EmptyString => EmptyString
  | String c s' => String (lower_char c) (lower s')
  end.

(** [s.replace(old, new)] for a one-character [old] *)
Fixpoint replace (old : ascii) (new s : string) : string :=
  match s with
  | EmptyString => EmptyString
  | String c s' =>
      if ascii_eqb c old then new ++ replace old new s'
      else String c (replace old new s')
  end.

(** The characters [str.strip()] removes, among the code points 0..255:
    [\t \n \v \f \r], the separators 28..31, the space, NEL and the
    no-break space. *)
Definition is_unicode_space (c : ascii) : bool :=
  let n := code c in
  ((9 <=? n) && (n <=? 13)) || ((28 <=? n) && (n <=? 32))
  || (n =? 133) || (n =? 160).

Fixpoint lstrip_ws (s : string) : string :=
  match s with
  | EmptyString => EmptyString
  | String c s' => if is_unicode_space c then lstrip_ws s' else s
  end.

Fixpoint rstrip_ws (s : string) : string :=
  match s with
  | EmptyString => EmptyString
  | String c s' =>
      match rstrip_ws s' with
      | EmptyString => if is_unicode_space c then EmptyString else String c EmptyString
      | r => String c r
      end
  end.

(** [s.strip()] *)
Definition strip (s : string) : string := rstrip_ws (lstrip_ws s).

(** *** [int(s)] in base 10

    CPython first maps the string to ASCII: code points below 127 are
    kept, other white space becomes a space, other decimal digits become
    ASCII digits (there are none among 127..255), anything else makes the
    literal invalid.  The ASCII text is then read as: C white space, an
    optional sign, digits with single underscores between them, C white
    space.  The interpreter's configurable limit on the number of digits
    is not part of the model. *)

Definition is_c_space (c : ascii) : bool :=
  let n := code c in ((9 <=? n) && (n <=? 13)) || (n =? 32).

Definition to_ascii_char (c : ascii) : option ascii :=
  let n := code c in
  if n <? 127 then Some c
  else if is_unicode_space c then Some " "%char
  else None.

Fixpoint to_ascii (s : string) : option (list ascii) :=
  match s with
  | EmptyString => Some []
  | String c s' =>
      match to_ascii_char c, to_ascii s' with
      | Some d, Some l => Some (d :: l)
      | _, _ => None
      end
  end.

Definition digit_value (c : ascii) : option Z :=
  let n := code c in
  if (48 <=? n) && (n <=? 57) then Some (n - 48) else None.

Fixpoint skip_c_space (l : list ascii) : list ascii :=
  match l with
  | c :: l' => if is_c_space c then skip_c_space l' else l
  | [] => []
  end.

(** The scanning loop: [acc] is the value read so far, [ndigits] the
    number of digits read, [prev_us] whether the previous character was
    an underscore.  Returns the value and the unread rest, or [None] for
    a doubled or trailing underscore. *)
Fixpoint scan_digits (l : list ascii) (acc : Z) (ndigits : nat) (prev_us : bool)
  : option (Z * nat * list ascii) :=
  match l with
  | [] => if prev_us then None else Some (acc, ndigits, [])
  | c :: l' =>
      if ascii_eqb c "_" then
        if prev_us then None else scan_digits l' acc ndigits true
      else
        match digit_value c with
        | Some d => scan_digits l' (10 * acc + d) (S ndigits) false
        | None => if prev_us then None else Some (acc, ndigits, l)
        end
  end.

Definition long_from_string (l : list ascii) : option Z :=
  let l1 := skip_c_space l in
  let '(sign, l2) :=
    match l1 with
    | c :: l' =>
        if ascii_eqb c "+" then (1, l')
        else if ascii_eqb c "-" then (-1, l')
        else (1, l1)
    | [] => (1, l1)
    end in
  match l2 with
  | c :: _ => if ascii_eqb c "_" then None else
      match scan_digits l2 0 0 false with
      | Some (v, S _, rest) =>
          match skip_c_space rest with
          | [] => Some (sign * v)
          | _ :: _ => None
          end
      | _ => None
      end
  | [] => None
  end.

(** [int(s)]: [Raise (ValueError _)] when the literal is invalid. *)
Definition int (s : string) : res Z :=
  match to_ascii s with
  | Some l =>
      match long_from_string l with
      | Some z => Ret z
      | None => Raise (ValueError "invalid literal for int() with base 10")
      end
  | None => Raise (ValueError "invalid literal for int() with base 10")
  end.

(** [re.search(pattern, s)] for the patterns made of literal characters
    and of the dot, which stands for any character but the newline. *)
Fixpoint re_match_here (pattern s : string) : bool :=
  match pattern, s with
  | EmptyString, _ => true
  | String _ _, EmptyString => false
  | String p pattern', String c s' =>
      (if ascii_eqb p "." then negb (code c =? 10) else ascii_eqb c p)
      && re_match_here pattern' s'
  end.

Fixpoint re_search (pattern s : string) : bool :=
  re_match_here pattern s ||
  match s with
  | EmptyString => false
  | String _ s' => re_search pattern s'
  end.

(** [s[n:]] *)
Fixpoint skip (n : nat) (s : string) : string :=
  match n, s with
  | S n', String _ s' => skip n' s'
  | _, _ => s
  end.

(** [.*lit] read from the head of [s]: the text after the first [lit]
    that no newline precedes. *)
Fixpoint dotstar_lit (lit s : string) : option string :=
  if startswith s lit then Some (skip (String.length lit) s)
  else match s with
       | EmptyString => None
       | String c s' => if code c =? 10 then None else dotstar_lit lit s'
       end.

(** The lines of a text, each with its newline, as iterating over a file
    gives them. *)
Fixpoint lines_of (content : string) : list string :=
  match content with
  | EmptyString => []
  | String c rest =>
      if code c =? 10 then String c EmptyString :: lines_of rest
      else match lines_of rest with
           | [] => [String c EmptyString]
           | l :: ls =>
               (* [rest] begins inside a line unless it is empty *)
               String c l :: ls
           end
  end.

(** [str(n)] *)
Definition str_of_Z (n : Z) : string := NilZero.string_of_int (Z.to_int n).

(** Truth value of a string *)
Definition truthy (s : string) : bool := negb (String.eqb s EmptyString).

(** *** [os.path]: the platform's path module

    The launcher only joins and splits paths.  [posixpath] is the module
    of every platform but Windows. *)

Record os_path : Type := {
  path_join : string -> string -> string;
  path_split : string -> string * string
}.

Definition posix_join (a b : string) : string :=
  if startswith b "/" then b
  else if negb (truthy a) || endswith a "/" then a ++ b
  else a ++ "/" ++ b.

(** [(p[:i], p[i:])] for [i = p.rfind('/') + 1], when [p] has a slash *)
Fixpoint cut_last_sep (p : string) : option (string * string) :=
  match p with
  | EmptyString => None
  | String c p' =>
      match cut_last_sep p' with
      | Some (h, t) => Some (String c h, t)
      | None => if ascii_eqb c "/" then Some ("/", p') else None
      end
  end.

Definition posix_split (p : string) : string * string :=
  let '(head, tail) :=
    match cut_last_sep p with
    | Some ht => ht
    | None => (EmptyString, p)
    end in
  (* head and head != sep*len(head) *)
  if truthy head && truthy (rstrip "/" head) then (rstrip "/" head, tail)
  else (head, tail).

Definition posixpath : os_path :=
  {| path_join := posix_join; path_split := posix_split |}.

(** [os.path.join(a, b, c, ...)] *)
Definition join_all (osp : os_path) (a : string) (ps : list string) : string :=
  fold_left (path_join osp) ps a.

End Py.

(** ** Verbosity option: [CountOccurrencesAction.__call__]

    [values] is the option's argument as argparse hands it over ([None]
    when the option is given without one, [nargs='?']).  The action stores
    the count in the namespace ([setattr]) or leaves with [exit(1)]. *)

Module Verbosity.

(** [re.search('[^v]', values)] finds a character other than [v]. *)
Fixpoint re_search_not_v (values : string) : bool :=
  match values with
  | EmptyString => false
  | String c s' => negb (Py.ascii_eqb c "v") || re_search_not_v s'
  end.

(** The first part of the action: the value stored by [setattr]. *)
Definition parse_count (values : option string) : res Z :=
  match values with
  | None => Raise TypeError
  | Some values =>
      match Py.int values with
      | Ret count => Ret count
      | Raise (ValueError _) =>
          if negb (re_search_not_v values) then
            (* We add a single v ... *)
            let count := Py.count "v" (values ++ "v") in
            Ret count
          else
            (* logging.error('Invalid verbosity level') *)
            py_exit 1
      | Raise e => Raise e
      end
  end.

Definition CountOccurrencesAction_call (values : option string) : res Z :=
  count ← parse_count values;
  (* Check if verbosity level is a non-negative integer *)
  if count <? 0 then py_exit 1 else Ret count.

End Verbosity.

(** ** Configuration files: [load_config] and the defaults of [parse_args] *)

Module Config.

(** Scalar values of a YAML document *)
Inductive scalar : Type :=
| VNone
| VBool (b : bool)
| VInt (z : Z)
| VStr (s : string).

(** One record of [setup_arguments] or [kohya_gui_arguments] *)
Record setting : Type := {
  name : string;
  value : scalar;
  description : string
}.

(** What [yaml.safe_load] returns: [None] for an empty document, a
    mapping from section names to lists of records, or something that is
    no mapping (a scalar or a list, with its truth value). *)
Inductive document : Type :=
| DocNone
| DocMap (m : gmap string (list setting))
| DocOther (truth : bool).

Definition doc_truthy (d : document) : bool :=
  match d with
  | DocNone => false
  | DocMap m => negb (bool_decide (m = ∅))
  | DocOther t => t
  end.

(** [{**file_config_data, **_config_data}]: the entries of the first
    operand, then those of the second, which replace the first's on equal
    keys.  Unpacking something that is no mapping is a [TypeError]. *)
Definition dict_unpack2 (file_config_data : document)
    (_config_data : gmap string (list setting))
  : res (gmap string (list setting)) :=
  match file_config_data with
  | DocMap m => Ret (_config_data ∪ m)
  | _ => Raise TypeError
  end.

Section load.
(** The platform: [sys.platform], the path module, the directory of the
    script, the environment and the files as [open] and
    [yaml.safe_load] see them. *)
Variable platform : string.
Variable osp : Py.os_path.
Variable script_dir : string.
Variable environ : gmap string string.
Variable read_yaml : string -> res document.

Definition environ_get (key default : string) : string :=
  from_option id default (environ !! key).

Definition config_file_locations : list string :=
  if String.eqb platform "win32" then
    [ Py.join_all osp script_dir ["config_files"; "installation"; "install_config.yml"];
      Py.join_all osp (environ_get "USERPROFILE" EmptyString) [".kohya_ss"; "install_config.yml"];
      Py.join_all osp script_dir ["install_config.yml"] ]
  else
    [ Py.join_all osp script_dir ["config_files"; "installation"; "install_config.yml"];
      Py.join_all osp (environ_get "HOME" EmptyString) [".kohya_ss"; "install_config.yml"];
      Py.join_all osp script_dir ["install_config.yml"] ].

(** The body shared by the loop and by the user-specified file:
    [try: ... except FileNotFoundError: pass] *)
Definition merge_file (location : string)
    (_config_data : gmap string (list setting))
  : res (gmap string (list setting)) :=
  match read_yaml location with
  | Ret file_config_data =>
      if doc_truthy file_config_data
      then dict_unpack2 file_config_data _config_data
      else Ret _config_data
  | Raise FileNotFoundError => Ret _config_data
  | Raise e => Raise e
  end.

Fixpoint merge_files (locations : list string)
    (_config_data : gmap string (list setting))
  : res (gmap string (list setting)) :=
  match locations with
  | [] => Ret _config_data
  | location :: rest =>
      _config_data ← merge_file location _config_data;
      merge_files rest _config_data
  end.

Definition load_config (_config_file : option string)
  : res (option (gmap string (list setting))) :=
  (* Load and merge default config files *)
  _config_data ← merge_files config_file_locations ∅;
  (* Load and merge user-specified config file *)
  _config_data ←
    match _config_file with
    | Some f => merge_file f _config_data
    | None => Ret _config_data
    end;
  Ret (if bool_decide (_config_data = ∅) then None else Some _config_data).
End load.

(** *** The defaults of [parse_args] *)

Record default_arg : Type := {
  short : option string;
  long : string;
  default : scalar;
  help : string;
  is_path : bool
}.

Definition default_args (script_dir : string) : list default_arg :=
  [ {| short := Some "-b"; long := "--branch"; default := VStr "master";
       help := "Select which branch of kohya to check out on new installs.";
       is_path := false |};
    {| short := Some "-d"; long := "--dir"; default := VStr script_dir;
       help := "The full path you want kohya_ss installed to."; is_path := true |};
    {| short := Some "-f"; long := "--file"; default := VStr "install_config.yml";
       help := "Configuration file with installation options."; is_path := true |};
    {| short := Some "-g"; long := "--git-repo";
       default := VStr "https://github.com/bmaltais/kohya_ss.git";
       help := "You can optionally provide a git repo to check out. Useful for custom forks.";
       is_path := false |};
    {| short := Some "-i"; long := "--interactive"; default := VBool false;
       help := "Interactively configure accelerate instead of using value config file.";
       is_path := false |};
    {| short := Some "-l"; long := "--log-dir"; default := VNone;
       help := "Override the default log directory."; is_path := true |};
    {| short := Some "-n"; long := "--no-setup"; default := VBool false;
       help := "Skip setup operations and launch the GUI."; is_path := false |};
    {| short := Some "-p"; long := "--public"; default := VBool false;
       help := "Expose public URL in runpod mode. Won't have an effect in other modes.";
       is_path := false |};
    {| short := Some "-r"; long := "--repair"; default := VBool false;
       help := "This runs the installation repair operations. These could take a few minutes to run.";
       is_path := false |};
    {| short := Some EmptyString; long := "--runpod"; default := VBool false;
       help := "Forces a runpod installation. Useful if detection fails for any reason.";
       is_path := false |};
    {| short := None; long := "--setup-only"; default := VBool false;
       help := "Do not launch GUI. Only conduct setup operations."; is_path := false |};
    {| short := Some "-s"; long := "--skip-space-check"; default := VBool false;
       help := "Skip the 10Gb minimum storage space check."; is_path := false |};
    {| short := Some "-u"; long := "--update"; default := VBool false;
       help := "Update kohya_ss with specified branch, repo, or latest stable if git's unavailable.";
       is_path := false |};
    {| short := Some "-v"; long := "--verbosity"; default := VStr "0";
       help := "Increase verbosity levels. Use multiple times (e.g., -vvv) or specify number (e.g., -v 4).";
       is_path := false |};
    {| short := None; long := "--listen"; default := VStr "127.0.0.1";
       help := "IP to listen on for connections to Gradio."; is_path := false |};
    {| short := Some EmptyString; long := "--username"; default := VStr EmptyString;
       help := "Username for authentication."; is_path := false |};
    {| short := Some EmptyString; long := "--password"; default := VStr EmptyString;
       help := "Password for authentication."; is_path := false |};
    {| short := Some EmptyString; long := "--server-port"; default := VInt 0;
       help := "The port number the GUI server should use."; is_path := false |};
    {| short := Some EmptyString; long := "--inbrowser"; default := VBool false;
       help := "Open in browser."; is_path := false |};
    {| short := Some EmptyString; long := "--share"; default := VBool false;
       help := "Share the gradio UI."; is_path := false |} ].

(** [for default_arg in default_args: if f'--{name.lower()}' ==
    default_arg["long"]: ...] *)
Definition apply_setting (arg : setting) (table : list default_arg)
  : list default_arg :=
  map (fun default_arg =>
         if String.eqb ("--" ++ Py.lower (name arg)) (long default_arg)
         then {| short := short default_arg; long := long default_arg;
                 default := value arg; help := description arg;
                 is_path := is_path default_arg |}
         else default_arg) table.

Definition apply_section (section : string)
    (_config_data : gmap string (list setting)) (table : list default_arg)
  : list default_arg :=
  match _config_data !! section with
  | Some args => fold_left (fun t arg => apply_setting arg t) args table
  | None => table
  end.

(** Update the default arguments with values from the config file *)
Definition update_defaults (_config_data : option (gmap string (list setting)))
    (table : list default_arg) : list default_arg :=
  match _config_data with
  | Some d =>
      apply_section "kohya_gui_arguments" d
        (apply_section "setup_arguments" d table)
  | None => table
  end.

(** The default an option ends with, the value it has when the command
    line does not give it. *)
Definition default_of (long_opt : string) (table : list default_arg)
  : option scalar :=
  default <$> find (fun a => String.eqb (long a) long_opt) table.

End Config.

(** ** File permissions: [check_permissions]

    The file system is a map from paths to [st_mode] values.  [os.stat] of
    a path that is not there raises [FileNotFoundError]; [os.chmod] raises
    [PermissionError] on the paths the operating system refuses, and
    otherwise replaces the twelve permission bits of the mode. *)

Module Perms.

(** The constants of the [stat] module *)
Definition S_IRUSR : Z := 256.  (* 0o400 *)
Definition S_IWUSR : Z := 128.  (* 0o200 *)
Definition S_IXUSR : Z := 64.   (* 0o100 *)
Definition S_IRGRP : Z := 32.   (* 0o040 *)
Definition S_IWGRP : Z := 16.   (* 0o020 *)
Definition S_IXGRP : Z := 8.    (* 0o010 *)
Definition S_IROTH : Z := 4.    (* 0o004 *)
Definition S_IWOTH : Z := 2.    (* 0o002 *)
Definition S_IXOTH : Z := 1.    (* 0o001 *)

(** The bits [chmod] sets: 0o7777 *)
Definition S_IMODE_MASK : Z := 4095.

Definition extensions_to_check : list string := [".py"; ".exe"; ".elf"].

(** How a loop body ends: it falls through to the next iteration or
    returns from the function. *)
Inductive flow : Type :=
| Next
| Return (b : bool).

Section walk.
Variable osp : Py.os_path.
(** [mimetypes.guess_type(path)[0]] *)
Variable guess_type : string -> option string.
(** The paths whose [chmod] the operating system denies *)
Variable chmod_denied : string -> bool.
(** [os.walk(top)]: the [(root, dirs, files)] triples in order *)
Variable os_walk : string -> list (string * list string * list string).

Definition os_stat (fs : gmap string Z) (path : string) : res Z :=
  match fs !! path with
  | Some st_mode => Ret st_mode
  | None => Raise FileNotFoundError
  end.

Definition os_chmod (fs : gmap string Z) (path : string) (mode : Z)
  : res (gmap string Z) :=
  match fs !! path with
  | None => Raise FileNotFoundError
  | Some old =>
      if chmod_denied path then Raise PermissionError
      else Ret (<[path := Z.lor (Z.land old (Z.lnot S_IMODE_MASK))
                                 (Z.land mode S_IMODE_MASK)]> fs)
  end.

Definition is_executable (file_path file : string) : bool :=
  bool_decide (guess_type file_path = Some "application/x-executable")
  || Py.endswith_any file extensions_to_check.

Definition required_permissions (file_path file : string) : Z :=
  if is_executable file_path file then
    Z.lor S_IRUSR (Z.lor S_IWUSR (Z.lor S_IXUSR
    (Z.lor S_IRGRP (Z.lor S_IWGRP (Z.lor S_IXGRP
    (Z.lor S_IROTH (Z.lor S_IWOTH S_IXOTH)))))))
  else
    Z.lor S_IRUSR (Z.lor S_IWUSR
    (Z.lor S_IRGRP (Z.lor S_IWGRP
    (Z.lor S_IROTH S_IWOTH)))).

(** The test of the [except PermissionError] handler: the file is
    neither in a folder whose path has [bin] in it nor has [python] in
    its name. *)
Definition outside_interpreter (file_path : string) : bool :=
  let '(folder_name, file_name) := Py.path_split osp file_path in
  negb (Py.contains "bin" folder_name) && negb (Py.contains "python" file_name).

(** The body of [for file in files] *)
Definition visit_file (root file : string) (fs : gmap string Z)
  : res flow * gmap string Z :=
  let file_path := Py.path_join osp root file in
  match os_stat fs file_path with
  | Raise e => (Raise e, fs)
  | Ret current_permissions =>
      let required_permissions := required_permissions file_path file in
      let missing_permissions :=
        Z.land required_permissions (Z.lnot current_permissions) in
      if negb (missing_permissions =? 0) then
        match os_chmod fs file_path
                (Z.lor current_permissions missing_permissions) with
        | Ret fs' => (Ret Next, fs')
        | Raise PermissionError =>
            if outside_interpreter file_path
            then (Ret (Return false), fs)
            else (Ret Next, fs)
        | Raise e => (Raise e, fs)
        end
      else (Ret Next, fs)
  end.

Fixpoint visit_files (root : string) (files : list string)
    (fs : gmap string Z) : res flow * gmap string Z :=
  match files with
  | [] => (Ret Next, fs)
  | file :: rest =>
      match visit_file root file fs with
      | (Ret Next, fs') => visit_files root rest fs'
      | stop => stop
      end
  end.

(** The two [continue]s at the head of the outer loop *)
Definition skipped_root (venv_directory root : string) : bool :=
  Py.startswith root (Py.join_all osp venv_directory ["Lib"; "site-packages"])
  || Py.startswith root (Py.join_all osp venv_directory ["share"; "doc"]).

Fixpoint visit_roots (venv_directory : string)
    (triples : list (string * list string * list string))
    (fs : gmap string Z) : res flow * gmap string Z :=
  match triples with
  | [] => (Ret Next, fs)
  | (root, dirs, files) :: rest =>
      if skipped_root venv_directory root
      then visit_roots venv_directory rest fs
      else
        match visit_files root files fs with
        | (Ret Next, fs') => visit_roots venv_directory rest fs'
        | stop => stop
        end
  end.

Definition check_permissions (_dir : string) (fs : gmap string Z)
  : res bool * gmap string Z :=
  let venv_directory := Py.path_join osp _dir "venv" in
  match visit_roots venv_directory (os_walk venv_directory) fs with
  | (Ret Next, fs') => (Ret true, fs')
  | (Ret (Return b), fs') => (Ret b, fs')
  | (Raise e, fs') => (Raise e, fs')
  end.

(** The files the walk looks at, as [(path, name)] pairs: those of the
    roots that are not skipped. *)
Definition walked (venv_directory : string) : list (string * string) :=
  '(root, dirs, files) ← os_walk venv_directory;
  if skipped_root venv_directory root then []
  else (fun file => (Py.path_join osp root file, file)) <$> files.

(** The required bits of a path: those of every entry of the walk that
    names it (0 when the walk does not meet the path). *)
Definition required_in (entries : list (string * string)) (path : string) : Z :=
  fold_right (fun '(file_path, file) acc =>
                if String.eqb file_path path
                then Z.lor (required_permissions file_path file) acc
                else acc)
             0 entries.

Definition required_of (venv_directory path : string) : Z :=
  required_in (walked venv_directory) path.
End walk.

End Perms.

(** ** Programs with effects

    The remaining routines act on the world: they start child processes,
    change files, call the network and read the terminal.  A program is a
    function from the state it may change to a result and a new state.
    Every action the program attempts is appended to the [trace] of the
    state, so that what a routine did, and in which order, can be read off
    its final state.  Logging has no effect on the control flow and is left
    out. *)

(** How git is told to authenticate: the [git_credentials] dictionary *)
Inductive credentials : Type :=
| CredHttps (username password : option string)
| CredEnv (git_ssh_command : string)
| CredUrl (url : string).

Inductive event : Type :=
| Run (argv : list string)                (* subprocess.run / check_call / check_output *)
| Makedirs (path : string)
| Copy (src dst : string)
| Move (src dst : string)
| Remove (path : string)
| Rmtree (path : string)
| Symlink (target link : string)
| StoreFile (path : string) (lines : list string)
| GitStatus (dir : string)
| GitPull (dir : string) (creds : credentials)
| GitClone (url dir branch : string) (creds : credentials)
| HttpGet (url : string) (auth : option (string * string))
| Unzip (zip dir : string)
| Prompt (text : string).

Record state : Type := {
  environ : gmap string string;   (* os.environ *)
  listing : option (list string); (* the entries of the install directory,
                                     [None] when it is no directory *)
  stdin : list (res string);      (* the answers the terminal will give *)
  trace : list event              (* the actions attempted so far *)
}.

Definition Prog (A : Type) : Type := state -> res A * state.

Definition ret {A} (a : A) : Prog A := fun s => (Ret a, s).
Definition raise {A} (e : exn) : Prog A := fun s => (Raise e, s).
Definition bind {A B} (m : Prog A) (k : A -> Prog B) : Prog B :=
  fun s => match m s with
           | (Ret a, s') => k a s'
           | (Raise e, s') => (Raise e, s')
           end.
Definition lift {A} (r : res A) : Prog A := fun s => (r, s).

Notation "'do' x <- m ; k" := (bind m (fun x => k))
  (at level 10, x pattern, m at level 99, k at level 200).
Notation "m ;; k" := (bind m (fun _ => k))
  (at level 100, k at level 200, right associativity).

(** [try: m except ...: h]: the handler [h] answers [None] for the
    exceptions its clauses do not match, which then keep propagating. *)
Definition try_except {A} (m : Prog A) (h : exn -> option (Prog A)) : Prog A :=
  fun s => match m s with
           | (Ret a, s') => (Ret a, s')
           | (Raise e, s') =>
               match h e with
               | Some k => k s'
               | None => (Raise e, s')
               end
           end.

Definition get_state : Prog state := fun s => (Ret s, s).

Definition emit (e : event) : Prog unit :=
  fun s => (Ret tt, {| environ := environ s; listing := listing s;
                       stdin := stdin s; trace := trace s ++ [e] |}).

Definition set_listing (l : option (list string)) : Prog unit :=
  fun s => (Ret tt, {| environ := environ s; listing := l;
                       stdin := stdin s; trace := trace s |}).

Definition set_environ (key value : string) : Prog unit :=
  fun s => (Ret tt, {| environ := <[key := value]> (environ s); listing := listing s;
                       stdin := stdin s; trace := trace s |}).

(** [input(text)] and [getpass(text)]: the next answer of the terminal,
    [EOFError] when there is none. *)
Definition input (text : string) : Prog string :=
  emit (Prompt text) ;;
  fun s => match stdin s with
           | [] => (Raise EOFError, s)
           | answer :: rest =>
               (answer, {| environ := environ s; listing := listing s;
                           stdin := rest; trace := trace s |})
           end.

(** The answer of [requests.get]: the status code, the [tag_name] of the
    JSON body, the [Content-Length] header, and, for an archive, the
    folder it extracts to with the [(root, relative path, files)] triples
    of [os.walk]. *)
Record response : Type := {
  status_code : Z;
  tag_name : res string;
  content_length : option string;
  extracted : res (string * list (string * string * list string))
}.

(** What the routines observe of the machine.  Every field is the answer
    of a library call; [outcome e] is the exception the action [e] ends
    with, if any. *)
Record world : Type := {
  os_family : string;                       (* os_info.family *)
  machine : string;                         (* platform.machine() *)
  sys_platform : string;                    (* sys.platform *)
  script_dir : string;                      (* the directory of launcher.py *)
  osp : Py.os_path;                         (* os.path *)
  path_exists : string -> bool;
  path_islink : string -> bool;
  path_isfile : string -> bool;
  path_isdir : string -> bool;
  path_realpath : string -> string;
  os_listdir : string -> res (list string);
  read_lines : string -> res (list string); (* the lines of a text file *)
  path_abspath : string -> string;
  home_dir : string;                        (* os.path.expanduser("~") *)
  tmp_name : string;                        (* the name of a NamedTemporaryFile *)
  tmp_dir : string;                         (* a fresh temporary directory *)
  url_scheme : string -> string;            (* urlparse(url).scheme *)
  url_hostname : string -> option string;   (* urlparse(url).hostname *)
  check_output : list string -> res string; (* the output of a command *)
  git_repo_open : string -> option exn;     (* git.Repo(path) *)
  git_status : string -> res string;        (* git status --porcelain *)
  after_clone : event -> option (list string) -> option (list string);
                                            (* the install directory after a clone *)
  http_response : string -> res response;   (* requests.get(url) *)
  installed_modules : list string;          (* pkgutil.iter_modules() *)
  outcome : event -> option exn
}.

(** Attempt an action: it is recorded, then it may raise. *)
Definition act (w : world) (e : event) : Prog unit :=
  emit e ;;
  match outcome w e with
  | Some x => raise x
  | None => ret tt
  end.

Definition when (b : bool) (m : Prog unit) : Prog unit :=
  if b then m else ret tt.

Fixpoint for_each {A} (l : list A) (body : A -> Prog unit) : Prog unit :=
  match l with
  | [] => ret tt
  | x :: rest => body x ;; for_each rest body
  end.

(** The result of a program started in a state *)
Definition result {A} (m : Prog A) (s : state) : res A := fst (m s).

(** ** Library links: [create_symlinks], [setup_file_links], [in_container] *)

Module Links.

(** A Python value in a condition: a boolean, or a function object,
    which is always true. *)
Inductive pyvalue : Type :=
| PyBool (b : bool)
| PyFunction (f : world -> res bool).

Definition truth (v : pyvalue) : bool :=
  match v with
  | PyBool b => b
  | PyFunction _ => true
  end.

(** The eight [container_indicators]; the first one, an alternation, is
    written as its two alternatives. *)
Definition container_indicators : list string :=
  [ ":cpuset:/docker"; ":cpuset:/kubepods";
    ":/docker/";
    ":cpuset:/docker/buildkit";
    ":/system.slice/docker-";
    ":/system.slice/containerd-";
    ":/system.slice/rkt-";
    ":/system.slice/run-";
    ":/system.slice/pod-" ].

Definition in_container (w : world) : res bool :=
  let cgroup_path := "/proc/1/cgroup" in
  if negb (path_isfile w cgroup_path) then Ret false
  else
    match read_lines w cgroup_path with
    | Raise e => Raise e
    | Ret lines =>
        let content := String.concat EmptyString lines in
        if existsb (fun pattern => Py.re_search pattern content) container_indicators
           || path_exists w "/.dockerenv"
        then Ret true
        else Ret false
    end.

Definition create_symlinks (w : world) (symlink target_file : string) : Prog unit :=
  if path_islink w symlink then
    if path_exists w symlink && String.eqb (path_realpath w symlink) target_file then
      ret tt
    else
      if path_isfile w target_file then
        act w (Remove symlink) ;;
        act w (Symlink target_file symlink)
      else ret tt
  else
    act w (Symlink target_file symlink).

Definition setup_file_links (w : world) (_site_packages_dir : string)
    (runpod : bool) : Prog unit :=
  let j := Py.join_all (osp w) in
  when (String.eqb (os_family w) "Windows")
    (let bitsandbytes_source := j (script_dir w) ["bitsandbytes_windows"] in
     let bitsandbytes_dest := j _site_packages_dir ["bitsandbytes"] in
     let bitsandbytes_cuda_dest := j _site_packages_dir ["bitsandbytes"; "cuda_setup"] in
     when (path_exists w bitsandbytes_source)
       (act w (Makedirs bitsandbytes_dest) ;;
        act w (Makedirs bitsandbytes_cuda_dest) ;;
        do files <- lift (os_listdir w bitsandbytes_source) ;
        for_each files (fun file =>
          when (Py.endswith file ".dll")
            (act w (Copy (j bitsandbytes_source [file]) bitsandbytes_dest))) ;;
        act w (Copy (j bitsandbytes_source ["cextension.py"])
                    (j bitsandbytes_dest ["cextension.py"])) ;;
        act w (Copy (j bitsandbytes_source ["main.py"])
                    (j bitsandbytes_cuda_dest ["main.py"])))) ;;
  (* if runpod and in_container: the function itself, not its result *)
  when (truth (PyBool runpod) && truth (PyFunction in_container))
    (let libnvinfer_plugin_symlink := j _site_packages_dir ["tensorrt"; "libnvinfer_plugin.so.7"] in
     let libnvinfer_symlink := j _site_packages_dir ["tensorrt"; "libnvinfer.so.7"] in
     let libcudart_symlink :=
       j _site_packages_dir ["nvidia"; "cuda_runtime"; "lib"; "libcudart.so.11.0"] in
     let libnvinfer_plugin_target := j _site_packages_dir ["tensorrt"; "libnvinfer_plugin.so.8"] in
     let libnvinfer_target := j _site_packages_dir ["tensorrt"; "libnvinfer.so.8"] in
     let libcudart_target :=
       j _site_packages_dir ["nvidia"; "cuda_runtime"; "lib"; "libcudart.so.12"] in
     create_symlinks w libnvinfer_plugin_symlink libnvinfer_plugin_target ;;
     create_symlinks w libnvinfer_symlink libnvinfer_target ;;
     create_symlinks w libcudart_symlink libcudart_target ;;
     let tensorrt_dir := j _site_packages_dir ["tensorrt"] in
     when (path_isdir w tensorrt_dir)
       (do s <- get_state ;
        set_environ "LD_LIBRARY_PATH"
          (from_option id EmptyString (environ s !! "LD_LIBRARY_PATH") ++ ":" ++ tensorrt_dir)) ;;
     let cuda_runtime_dir := j _site_packages_dir ["nvidia"; "cuda_runtime"; "lib"] in
     when (path_isdir w cuda_runtime_dir)
       (do s <- get_state ;
        set_environ "LD_LIBRARY_PATH"
          (from_option id EmptyString (environ s !! "LD_LIBRARY_PATH") ++ ":" ++ cuda_runtime_dir))).

End Links.

(** ** Getting the application: [update_kohya_ss] *)

Module Acquire.

Definition default_repo_prefix : string := "https://github.com/bmaltais/kohya_ss".

(** [os.listdir(_dir)] *)
Definition listdir_install : Prog (list string) :=
  fun s => match listing s with
           | Some l => (Ret l, s)
           | None => (Raise FileNotFoundError, s)
           end.

(** [os.path.exists(os.path.join(_dir, name))] *)
Definition install_has (name : string) : Prog bool :=
  fun s => (Ret (match listing s with
                 | Some l => bool_decide (name ∈ l)
                 | None => false
                 end), s).

(** [os.path.exists(_dir) and os.path.isdir(_dir)] *)
Definition install_isdir : Prog bool :=
  fun s => (Ret (match listing s with Some _ => true | None => false end), s).

Definition remove_entry (name : string) : Prog unit :=
  do s <- get_state ;
  set_listing (filter (fun x => x ≠ name) <$> listing s).

Definition add_entry (name : string) : Prog unit :=
  do s <- get_state ;
  set_listing ((fun l => if bool_decide (name ∈ l) then l else (l ++ [name])%list) <$> listing s).

(** [except Exception] around one step, keeping the exception as a
    value: the outer [try] of [update_kohya_ss] is applied where the
    exception arises, with the local variables as they are there. *)
Definition catching {A} (m : Prog A) : Prog (A + exn) :=
  try_except (do a <- m ; ret (inl a))
             (fun e => if is_Exception e then Some (ret (inr e)) else None).

(** The loop body returns in its first iteration, whatever the list. *)
Definition is_git_installed (w : world) : Prog bool :=
  let git_commands :=
    (["git"] ++ (if String.eqb (os_family w) "Windows" then ["git.exe"] else []))%list in
  match git_commands with
  | git_command :: _ =>
      try_except (act w (Run [git_command; "--version"]) ;; ret true)
                 (fun e => match e with
                           | FileNotFoundError => Some (ret false)
                           | _ => None
                           end)
  | [] => ret false
  end.

(** The two URLs of the archive fallback *)
Definition repo_name_of (git_repo : string) : res string :=
  x ← Py.index_m1 (Py.split "/" git_repo); Ret (Py.rstrip ".git" x).

Definition api_url_of (git_repo : string) : res string :=
  repo_name ← repo_name_of git_repo;
  owner ← Py.index_m2 (Py.split "/" git_repo);
  Ret ("https://api.github.com/repos/" ++ owner ++ "/" ++ repo_name ++ "/releases/latest").

Definition download_url_of (git_repo tag : string) : string :=
  Py.rstrip "/" git_repo ++ "/archive/refs/tags/" ++ tag ++ ".zip".

Definition get_latest_tag (w : world) (git_repo : string) : Prog string :=
  do api_url <- lift (api_url_of git_repo) ;
  emit (HttpGet api_url None) ;;
  do response <- lift (http_response w api_url) ;
  if negb (status_code response =? 200)
  then raise (OtherException "Failed to get the latest release")
  else lift (tag_name response).

Definition find_ssh_private_key_path (w : world) (git_repo : string)
  : Prog (option string) :=
  let get_git_config_ssh_key (_host : option string) : Prog (option string) :=
    try_except
      (let argv := ["git"; "config";
                    "host." ++ from_option id "None" _host ++ ".identityFile"] in
       emit (Run argv) ;;
       do output <- lift (check_output w argv) ;
       let key_path := Py.strip output in
       if path_exists w key_path then ret (Some key_path) else ret None)
      (fun e => match e with
                | CalledProcessError => Some (ret None)
                | _ => None
                end) in
  let find_key_in_ssh_folder : Prog (option string) :=
    let ssh_folder := Py.path_join (osp w) (home_dir w) ".ssh" in
    let common_key_names := ["id_rsa"; "id_ecdsa"; "id_ed25519"] in
    do names <- lift (os_listdir w ssh_folder) ;
    ret (find (fun file_name =>
                 bool_decide (file_name ∈ common_key_names)
                 && path_isfile w (Py.path_join (osp w) ssh_folder file_name)) names
         ≫= fun file_name => Some (Py.path_join (osp w) ssh_folder file_name)) in
  let host := url_hostname w git_repo in
  do git_config_key <- get_git_config_ssh_key host ;
  match git_config_key with
  | Some k => if Py.truthy k then ret (Some k) else find_key_in_ssh_folder
  | None => find_key_in_ssh_folder
  end.

Definition has_uncommitted_changes (w : world) (_dir : string) : Prog bool :=
  emit (GitStatus _dir) ;;
  match git_status w _dir with
  | Ret git_status_output => ret (0 <? Z.of_nat (String.length git_status_output))
  | Raise (GitCommandError _) => ret false
  | Raise e => raise e
  end.

(** The [if parsed_git_url.scheme == ...] chain that builds
    [git_credentials] *)
Definition git_credentials_for (w : world) (_git_repo : string)
    (_username _password : option string) : Prog credentials :=
  let scheme := url_scheme w _git_repo in
  if String.eqb scheme "https" then
    (* For HTTPS, set the username and password *)
    ret (CredHttps _username _password)
  else if String.eqb scheme "ssh" then
    (* For SSH, we will find the default key. *)
    do private_key_path <- find_ssh_private_key_path w _git_repo ;
    ret (CredEnv ("ssh -i " ++ from_option id "None" private_key_path
                  ++ " -o StrictHostKeyChecking=no -F /dev/null"))
  else if path_isdir w _git_repo then
    (* For local folder paths, normalize to an absolute path *)
    ret (CredUrl (path_abspath w _git_repo))
  else raise (ValueError "Invalid Git URL scheme or local folder path.").

Definition git_operations_with_credentials (w : world)
    (_dir _git_repo _branch : string) (_update : bool)
    (_username _password : option string)
  : Prog (option (bool * option string)) :=
  do git_folder_present <- install_has ".git" ;
  do venv_folder_present <- install_has "venv" ;
  do git_credentials <- git_credentials_for w _git_repo _username _password ;
  try_except
    (if git_folder_present && negb _update then
       raise UpdateSkippedException
     else if git_folder_present && _update then
       match git_repo_open w _dir with
       | Some e => raise e
       | None =>
           do dirty <- has_uncommitted_changes w _dir ;
           if dirty then raise UncommittedChangesException
           else
             act w (GitPull _dir git_credentials) ;;
             ret (Some (true, None))
       end
     else if negb git_folder_present then
       do entries <- listdir_install ;
       if bool_decide (length entries ∈ [0%nat; 1%nat])
          && (negb git_folder_present || venv_folder_present) then
         let tmp_venv_path := Py.path_join (osp w) (tmp_dir w) "venv" in
         when venv_folder_present
           (act w (Move (Py.path_join (osp w) _dir "venv") tmp_venv_path) ;;
            remove_entry "venv") ;;
         let '(_git_repo, git_credentials) :=
           if path_isdir w _git_repo
           then (path_abspath w _git_repo, CredUrl (path_abspath w _git_repo))
           else (_git_repo, git_credentials) in
         let clone :=
           match git_credentials with
           | CredUrl url => GitClone url _dir _branch git_credentials
           | _ => GitClone _git_repo _dir _branch git_credentials
           end in
         emit clone ;;
         (do s <- get_state ; set_listing (after_clone w clone (listing s))) ;;
         match outcome w clone with
         | Some e => raise e
         | None =>
             when venv_folder_present
               (act w (Move tmp_venv_path (Py.path_join (osp w) _dir "venv")) ;;
                add_entry "venv") ;;
             ret (Some (true, None))
         end
       else
         do entries <- listdir_install ;
         (* a non-git installation: the function ends without a return *)
         ret None
     else ret None)
    (fun e =>
       match e with
       | GitCommandError msg =>
           if Py.contains "Authentication failed" msg
           then Some (ret (Some (false, Some "authentication_error")))
           else Some (ret (Some (false, Some "unknown_error")))
       | UpdateSkippedException => Some (ret (Some (true, Some "update_skipped")))
       | UncommittedChangesException => Some (ret (Some (false, Some "uncommitted_changes")))
       | _ => None
       end).

(** How the retry loop of [update_kohya_ss] is left: by a [return], or
    to the code after the [try], with the local variables as they are. *)
Inductive loop_exit : Type :=
| LoopReturn (success : bool)
| LoopDone (success : bool) (username password : option string).

Definition max_attempts : nat := 4.

Section update.
Variable w : world.
Variables _dir git_repo branch : string.
Variable update : bool.

Fixpoint attempts (n : nat) (username password : option string)
  : Prog loop_exit :=
  match n with
  | O => ret (LoopDone false username password)
  | S n' =>
      do r <- catching (git_operations_with_credentials w _dir git_repo branch
                          update username password) ;
      match r with
      | inr _ => ret (LoopDone false username password)
      | inl None => (* unpacking None: a TypeError, caught as well *)
          ret (LoopDone false username password)
      | inl (Some (success, error_type)) =>
          if success then ret (LoopDone true username password)
          else if bool_decide (error_type = Some "uncommitted_changes") then
            ret (LoopReturn false)
          else if bool_decide (error_type = Some "authentication_error") then
            do u <- catching (input "Username: ") ;
            match u with
            | inr _ => ret (LoopDone false username password)
            | inl u =>
                do p <- catching (input "Password: ") ;
                match p with
                | inr _ => ret (LoopDone false (Some u) password)
                | inl p => attempts n' (Some u) (Some p)
                end
            end
          else if bool_decide (error_type = Some "update_skipped") then
            ret (LoopReturn true)
          else ret (LoopDone false username password)
      end
  end.

(** From [git_installed = is_git_installed()] to the end of the
    [try ... except Exception] *)
Definition git_phase : Prog loop_exit :=
  do git_installed <- is_git_installed w ;
  if git_installed then
    do isdir <- install_isdir ;
    if isdir then attempts max_attempts None None
    else ret (LoopDone false None None)
  else (* raise Exception("Git not installed."), caught at once *)
    ret (LoopDone false None None).

(** The first conjunct of the fallback's condition, with the laziness
    of [or] and [and] *)
Definition directory_allows : Prog bool :=
  if update then ret true
  else
    do entries <- listdir_install ;
    if (length entries =? 0)%nat then ret true
    else
      do entries <- listdir_install ;
      if (length entries =? 1)%nat then install_has "venv" else ret false.

(** From the check of the download's status code to the removal of
    the temporary zip file *)
Definition unpack_release (response : response) : Prog unit :=
  if negb (status_code response =? 200)
  then raise (OtherException "Failed to download the repository")
  else
    (* Get the file size from the 'Content-Length' header *)
    do file_size <- lift (match content_length response with
                          | Some h => Py.int h
                          | None => Ret 0
                          end) ;
    (* Save the zip file to a temporary location *)
    act w (StoreFile (tmp_name w) []) ;;
    (* Unzip the zip file to a temporary directory *)
    act w (Unzip (tmp_name w) (tmp_dir w)) ;;
    do (extracted_folder, triples) <- lift (extracted response) ;
    for_each triples (fun '(root, rel_path, files) =>
      let target_dir := Py.path_join (osp w) _dir rel_path in
      when (negb (path_exists w target_dir)) (act w (Makedirs target_dir)) ;;
      for_each files (fun file =>
        act w (Move (Py.path_join (osp w) root file)
                    (Py.path_join (osp w) target_dir file)))) ;;
    (* Clean up the extracted folder *)
    act w (Rmtree extracted_folder) ;;
    (* Remove the temporary zip file *)
    act w (Remove (tmp_name w)).

(** The body of the [try] of the fallback *)
Definition download_release (username password : option string) : Prog unit :=
  (* Remove .git extension if present *)
  let git_repo := Py.rstrip ".git" git_repo in
  do tag <- get_latest_tag w git_repo ;
  let download_url := download_url_of git_repo tag in
  let auth :=
    match username, password with
    | Some u, Some p => if Py.truthy u && Py.truthy p then Some (u, p) else None
    | _, _ => None
    end in
  emit (HttpGet download_url auth) ;;
  do response <- lift (http_response w download_url) ;
  unpack_release response.

(** The code under [if not success:] *)
Definition archive_fallback (username password : option string) : Prog bool :=
  do dir_ok <- directory_allows ;
  if dir_ok
     && (negb (Py.truthy branch) || String.eqb branch "master")
     && (negb (Py.truthy git_repo) || Py.startswith git_repo default_repo_prefix)
  then
    try_except (download_release username password ;; ret true)
               (fun e => if is_Exception e then Some (ret false) else None)
  else if update && negb (Py.startswith git_repo default_repo_prefix) then
    ret false
  else
    do entries <- listdir_install ;
    if (1 <? length entries)%nat then ret false
    else ret false.

Definition update_kohya_ss : Prog bool :=
  (* the two logging.debug lines list the directory *)
  listdir_install ;;
  listdir_install ;;
  do g <- git_phase ;
  match g with
  | LoopReturn success => ret success
  | LoopDone success username password =>
      if negb success then archive_fallback username password
      else ret success
  end.
End update.

End Acquire.

(** ** Python requirements: [install_python_dependencies] *)

Module Deps.

Definition TENSORFLOW_VERSION : string := "2.12.0".
Definition TENSORFLOW_MACOS_VERSION : string := "2.12.0".
Definition TENSORFLOW_METAL_VERSION : string := "0.8.0".
Definition TORCH_VERSION_1 : string := "1.12.1+cu116".
Definition TORCHVISION_VERSION_1 : string := "0.13.1+cu116".
Definition TORCH_INDEX_URL_1 : string := "https://download.pytorch.org/whl/cu116".
Definition TORCH_VERSION_2 : string := "2.0.0+cu118".
Definition TORCHVISION_VERSION_2 : string := "0.15.1+cu118".
Definition TORCH_INDEX_URL_2 : string := "https://download.pytorch.org/whl/cu118".
Definition TRITON_URL : string :=
  "https://huggingface.co/r4ziel/xformers_pre_built/resolve/main/triton-2.0.0-cp310-cp310-win_amd64.whl".
Definition XFORMERS_VERSION : string := "0.0.17".

Definition newline : string := String (ascii_of_nat 10) EmptyString.

(** [line.strip().startswith("#") or not line.strip()] *)
Definition comment_or_blank (line : string) : bool :=
  Py.startswith (Py.strip line) "#" || negb (Py.truthy (Py.strip line)).

(** [re.search(r"#.*kohya_ss.*library", line)] *)
Fixpoint library_comment (line : string) : bool :=
  match line with
  | EmptyString => false
  | String c rest =>
      (Py.ascii_eqb c "#" &&
       match Py.dotstar_lit "kohya_ss" rest with
       | Some rest' =>
           match Py.dotstar_lit "library" rest' with
           | Some _ => true
           | None => false
           end
       | None => false
       end)
      || library_comment rest
  end.

(** The loop over [requirements.txt]: the lines written to the temporary
    file. *)
Fixpoint copy_requirements (_dir : string) (found_comment : bool)
    (lines : list string) : list string :=
  match lines with
  | [] => []
  | line :: rest =>
      if comment_or_blank line then copy_requirements _dir found_comment rest
      else if found_comment then
        Py.replace "." _dir line :: copy_requirements _dir false rest
      else if library_comment line then copy_requirements _dir true rest
      else line :: copy_requirements _dir found_comment rest
  end.

Section install.
Variable w : world.
Variable sys_executable : string.
Variable verbosity : Z.          (* args.verbosity *)
Variable now : string.           (* str(datetime.now()) *)

Definition pip (arguments : list string) : Prog unit :=
  act w (Run (app [sys_executable; "-m"; "pip"] arguments)).

(** The [while True] of the interactive choice: every round reads one
    answer, so the answers left bound the number of rounds. *)
Fixpoint choose_torch (rounds : nat) : Prog string :=
  match rounds with
  | O => raise EOFError
  | S rounds' =>
      do choice <- input "Choose Torch version: (1) Stable, (2) Experimental: " ;
      if String.eqb choice "1" then ret choice
      else if String.eqb choice "2" then ret choice
      else choose_torch rounds'
  end.

Definition install_torch (update repair interactive : bool) : Prog unit :=
  let torch_installed :=
    bool_decide ("torch" ∈ Py.lower <$> installed_modules w) in
  let torchvision_installed :=
    bool_decide ("torchvision" ∈ Py.lower <$> installed_modules w) in
  (* Install/Reinstall Torch and Torchvision if one is missing or update/repair is flagged. *)
  when (negb (torch_installed || torchvision_installed) || (update || repair))
    (do choice <-
       (if interactive then
          do s <- get_state ;
          do c <- choose_torch (S (length (stdin s))) ;
          ret (Some c)
        else ret None) ;
     let '(_TORCH_VERSION, _TORCHVISION_VERSION, _TORCH_INDEX_URL) :=
       if bool_decide (choice = Some "2")
       then (TORCH_VERSION_2, TORCHVISION_VERSION_2, TORCH_INDEX_URL_2)
       else (TORCH_VERSION_1, TORCHVISION_VERSION_1, TORCH_INDEX_URL_1) in
     let quiet := if verbosity <? 3 then ["--quiet"] else [] in
     pip (app ["install"; "torch==" ++ _TORCH_VERSION;
               "torchvision==" ++ _TORCHVISION_VERSION;
               "--extra-index-url"; _TORCH_INDEX_URL] quiet) ;;
     match choice with
     | None => raise UnboundLocalError     (* if choice == '2' *)
     | Some choice =>
         when (String.eqb choice "2")
           (pip (app ["install"; TRITON_URL] quiet) ;;
            pip (app ["install"; "--upgrade"; "xformers==" ++ XFORMERS_VERSION] quiet))
     end).

(** The [try] that fills the temporary file; the result is the text
    written. *)
Definition fill_requirements (_dir : string)
    (runpod update repair interactive : bool) : Prog (list string) :=
  let requirements_path := Py.path_join (osp w) _dir "requirements.txt" in
  do original <- lift (read_lines w requirements_path) ;
  let written := copy_requirements _dir false original in
  (* Append the appropriate packages based on the conditionals *)
  let written := app written (if runpod then ["tensorrt" ++ newline] else []) in
  when repair
    (let packages := ["xformers"; "torch"; "torchvision"; "triton"] in
     for_each packages (fun package =>
       try_except
         (if verbosity <? 3
          then pip ["uninstall"; "--quiet"; "-y"; package]
          else pip ["uninstall"; "-y"; package])
         (fun e => match e with
                   | CalledProcessError => Some (ret tt)
                   | _ => None
                   end))) ;;
  do written <-
    (if String.eqb (os_family w) "macOS" then
       if String.eqb (machine w) "arm64" then
         ret (app written
                  ["tensorflow-macos==" ++ TENSORFLOW_MACOS_VERSION ++ newline;
                   "tensorflow-metal==" ++ TENSORFLOW_METAL_VERSION ++ newline])
       else if String.eqb (machine w) "x86_64" then
         ret (app written ["tensorflow==" ++ TENSORFLOW_VERSION ++ newline])
       else ret written
     else if String.eqb (os_family w) "Windows" then
       install_torch update repair interactive ;; ret written
     else ret written) ;
  if String.eqb (os_family w) "macOS" then
    let macos_requirements_path := Py.path_join (osp w) _dir "requirements_macos.txt" in
    if path_exists w macos_requirements_path then
      do macos_lines <- lift (read_lines w macos_requirements_path) ;
      ret (app written (filter (fun line => negb (comment_or_blank line)) macos_lines))
    else ret written
  else ret written.

Definition install_requirements (_dir : string)
    (runpod update repair interactive : bool) : Prog unit :=
  let requirements_path := Py.path_join (osp w) _dir "requirements.txt" in
  when (path_exists w requirements_path)
    (act w (StoreFile (tmp_name w) []) ;;      (* the NamedTemporaryFile *)
     do written <- fill_requirements _dir runpod update repair interactive ;
     let content := String.concat EmptyString written in
     (if 3 <=? verbosity then
        pip ["install"; "--upgrade"; "--use-pep517"; "-r"; tmp_name w]
      else
        for_each (Py.lines_of content) (fun line =>
          let package := Py.strip line in
          when (Py.truthy package)
            (pip ["install"; "--upgrade"; "--quiet"; "--use-pep517";
                  "--no-warn-script-location"; package]))) ;;
     (* Delete the temporary requirements file *)
     when (path_exists w (tmp_name w)) (act w (Remove (tmp_name w)))).

Definition install_python_dependencies (_dir : string)
    (runpod update repair interactive : bool) (_log_dir : string) : Prog unit :=
  (* Name of the flag file *)
  let flag_file := Py.join_all (osp w) _log_dir ["status"; ".pip_operations_done"] in
  (* Check for the existence of the flag file *)
  if path_exists w flag_file && negb (update || repair) then ret tt
  else
    try_except
      ((* Update pip *)
       (if 2 <=? verbosity
        then pip ["install"; "--upgrade"; "--no-warn-script-location"; "pip"]
        else pip ["install"; "--quiet"; "--upgrade"; "--no-warn-script-location"; "pip"]) ;;
       (* Install python dependencies *)
       install_requirements _dir runpod update repair interactive ;;
       act w (Makedirs (Py.path_join (osp w) _log_dir "status")) ;;
       act w (StoreFile flag_file ["Pip operations done on: " ++ now]))
      (fun e => if is_Exception e then Some (ret tt) else None).
End install.

End Deps.

(** ** Starting the GUI and the script's top level *)

Module Launch.

(** The namespace [parse_args] returns *)
Record args : Type := {
  branch : string;
  dir : string;
  git_repo : string;
  interactive : bool;
  log_dir : string;
  no_setup : bool;
  repair : bool;
  runpod : bool;
  setup_only : bool;
  skip_space_check : bool;
  update : bool;
  verbosity : Z;
  listen : string;
  username : string;
  password : string;
  server_port : string;       (* str(_args.server_port) *)
  inbrowser : bool;
  share : bool
}.

Section launch.
Variable w : world.
Variable venv_python_bin : string.

(** The command line of the GUI: [cmd] *)
Definition gui_command (_args : args) : list string :=
  let kohya_gui_file := Py.path_join (osp w) (dir _args) "kohya_gui.py" in
  concat
    [ [venv_python_bin; kohya_gui_file];
      if Py.truthy (listen _args) then ["--listen"; listen _args] else [];
      if Py.truthy (server_port _args) then ["--server-port"; server_port _args] else [];
      if 0 <? verbosity _args
      then ["--verbosity"; Py.str_of_Z (verbosity _args)] else [];
      if Py.truthy (username _args) then ["--username"; username _args] else [];
      if Py.truthy (password _args) then ["--password"; password _args] else [];
      if inbrowser _args then ["--inbrowser"] else [];
      if share _args then ["--share"] else [] ].

Definition launch_kohya_gui (_args : args) : Prog unit :=
  do contained <- lift (Links.in_container w) ;
  when (negb contained)
    (let _venv_path := Py.path_join (osp w) (dir _args) "venv" in
     if negb (path_exists w _venv_path) then lift (py_exit 1)
     else
       let python_executable :=
         if negb (String.eqb (sys_platform w) "win32")
         then Py.join_all (osp w) _venv_path ["bin"; "python"]
         else Py.join_all (osp w) _venv_path ["Scripts"; "python.exe"] in
       if negb (path_exists w python_executable) then lift (py_exit 1)
       else ret tt) ;;
  let kohya_gui_file := Py.path_join (osp w) (dir _args) "kohya_gui.py" in
  if path_exists w kohya_gui_file then
    let cmd := gui_command _args in
    try_except (act w (Run cmd))
               (fun e => match e with
                         | KeyboardInterrupt => Some (lift (py_exit 0))
                         | _ => None
                         end)
  else lift (py_exit 1).
End launch.

(** The steps of the script that the properties below do not look into
    are taken as given programs: reading the command line and the
    configuration, setting up the log files, probing the system and the
    interpreter, creating the virtual environment and checking its
    permissions, and the smaller steps of [main]. *)
Record steps : Type := {
  parse_command_line : Prog args;          (* parse_file_arg, load_config, parse_args *)
  configure_logging : args -> Prog string; (* get_logs_dir ...: the log directory *)
  get_os_info : Prog unit;                 (* fills os_info *)
  find_python_binary : Prog (option string);
  python_is_3_10 : bool;                   (* sys.version_info is 3.10 *)
  create_venv : string -> string -> Prog unit;
  check_permissions : string -> Prog bool;
  check_and_create_install_folder : string -> string -> Prog unit;
  check_storage_space : bool -> string -> string -> Prog unit;
  brew_install_tensorflow_deps : Z -> Prog bool;
  configure_accelerate : bool -> Prog unit;
  now : string                             (* str(datetime.now()) *)
}.

Section script.
Variable w : world.
Variable st : steps.

(** [os.path.dirname] *)
Definition dirname (p : string) : string := fst (Py.path_split (osp w) p).

Definition main (sys_executable venv_python_bin site_packages_dir : string)
    (_args : args) : Prog unit :=
  if negb (Py.truthy (git_repo _args)) || negb (Py.truthy (dir _args))
     || negb (Py.truthy (branch _args))
  then lift (py_exit 1)
  else
    (* Define the directories relative to the installation directory *)
    let parent_dir := dirname (dir _args) in
    check_and_create_install_folder st parent_dir (dir _args) ;;
    check_storage_space st (skip_space_check _args) (dir _args) parent_dir ;;
    do updated <- Acquire.update_kohya_ss w (dir _args) (git_repo _args)
                    (branch _args) (update _args) ;
    when updated
      (do brewed <- brew_install_tensorflow_deps st (verbosity _args) ;
       when brewed
         (Deps.install_python_dependencies w sys_executable (verbosity _args) (now st)
            (dir _args) (runpod _args) (update _args) (repair _args)
            (interactive _args) (log_dir _args) ;;
          Links.setup_file_links w site_packages_dir (runpod _args) ;;
          configure_accelerate st (interactive _args) ;;
          if negb (setup_only _args)
          then launch_kohya_gui w venv_python_bin _args
          else lift (py_exit 0))).

Definition set_log_dir (_args : args) (l : string) : args :=
  {| branch := branch _args; dir := dir _args; git_repo := git_repo _args;
     interactive := interactive _args; log_dir := l; no_setup := no_setup _args;
     repair := repair _args; runpod := runpod _args; setup_only := setup_only _args;
     skip_space_check := skip_space_check _args; update := update _args;
     verbosity := verbosity _args; listen := listen _args;
     username := username _args; password := password _args;
     server_port := server_port _args; inbrowser := inbrowser _args;
     share := share _args |}.

(** The body of the [try] under [if __name__ == "__main__":] *)
Definition script_body (original_sys_executable : string) : Prog unit :=
    (do _args <- parse_command_line st ;
     do l <- configure_logging st _args ;
     let _args := set_log_dir _args l in
     if no_setup _args && setup_only _args then lift (py_exit 1)
     else
       get_os_info st ;;
       (* Check if python3 or python3.10 binary exists *)
       do python_bin <- find_python_binary st ;
       match python_bin with
       | None => lift (py_exit 1)
       | Some python_bin =>
           if negb (Py.truthy python_bin) then lift (py_exit 1)
           else if negb (python_is_3_10 st) then lift (py_exit 1)
           else
             do contained <- lift (Links.in_container w) ;
             do (sys_executable, venv_python_bin, site_packages_dir) <-
               (if negb contained then
                  let venv_path := Py.path_join (osp w) (dir _args) "venv" in
                  create_venv st python_bin venv_path ;;
                  (* Check the virtual environment for permissions issues *)
                  check_permissions st (dir _args) ;;
                  let venv_bin_dir :=
                    if negb (String.eqb (sys_platform w) "win32")
                    then Py.path_join (osp w) venv_path "bin"
                    else Py.path_join (osp w) venv_path "Scripts" in
                  let venv_python_bin := Py.path_join (osp w) venv_bin_dir python_bin in
                  ret (venv_python_bin, venv_python_bin,
                       Py.join_all (osp w) venv_path ["Lib"; "site-packages"])
                else
                  let python_executable_dir := dirname python_bin in
                  ret (original_sys_executable, python_bin,
                       if String.eqb (os_family w) "Windows"
                       then Py.join_all (osp w) python_executable_dir ["Lib"; "site-packages"]
                       else
                         (* sys.version[:3] of a Python 3.10 *)
                         Py.join_all (osp w) python_executable_dir
                           [".."; "lib"; "python" ++ "3.1"; "site-packages"])) ;
             if no_setup _args && negb (setup_only _args) then
               launch_kohya_gui w venv_python_bin _args ;;
               lift (py_exit 0)
             else main sys_executable venv_python_bin site_packages_dir _args
       end).

(** The whole block, with its [except KeyboardInterrupt: sys.exit(1)] *)
Definition script (original_sys_executable : string) : Prog unit :=
  try_except (script_body original_sys_executable)
    (fun e => match e with
              | KeyboardInterrupt => Some (lift (py_exit 1))
              | _ => None
              end).
End script.

(** The exit status of the interpreter for the way the script ends: 0
    when it runs to its end, the argument of [SystemExit], 1 for an
    exception that nothing caught. *)
Definition exit_status {A} (r : res A) : Z :=
  match r with
  | Ret _ => 0
  | Raise (SystemExit code) => code
  | Raise _ => 1
  end.

End Launch.

(** ** Smaller routines of the set-up: [find_config_file],
    [env_var_exists], [normalize_paths], [find_python_binary],
    [brew_install_tensorflow_deps], [configure_accelerate] and the name
    of the log file *)

Module Setup.

(** The first location that is a file, as an absolute path *)
Fixpoint find_config_file (w : world) (config_file_locations : list string)
  : option string :=
  match config_file_locations with
  | [] => None
  | location :: rest =>
      let abs_location := path_abspath w location in
      if path_isfile w abs_location then Some abs_location
      else find_config_file w rest
  end.

(** [var_name in os.environ] and [os.environ[var_name]] is not empty *)
Definition env_var_exists (environ : gmap string string) (var_name : string) : bool :=
  match environ !! var_name with
  | Some v => negb (String.eqb v EmptyString)
  | None => false
  end.

(** The attribute in which [add_argument] stores an option that has no
    custom action: [dest=long_opt[2:]] when the option has a short name,
    [dest=long_opt[2:].replace("-", "_")] when it has none. *)
Definition dest_of (arg : Config.default_arg) : string :=
  if match Config.short arg with
     | Some short_opt => Py.truthy short_opt
     | None => false
     end
  then Py.skip 2 (Config.long arg)
  else Py.replace "-" "_" (Py.skip 2 (Config.long arg)).

(** *** [normalize_paths]

    The namespace of argparse is a map from attribute names to values.
    [expanduser], [isabs] and [abspath] are those of [os.path]. *)

Section paths.
Variable expanduser : string -> string.
Variable isabs : string -> bool.
Variable abspath : string -> string.

(** [arg["long"][2:].replace("-", "_")] *)
Definition arg_name (arg : Config.default_arg) : string :=
  Py.replace "-" "_" (Py.skip 2 (Config.long arg)).

Definition normalize_path (path_value : string) : string :=
  let expanded_path_value := expanduser path_value in
  if negb (isabs expanded_path_value) then abspath expanded_path_value
  else expanded_path_value.

(** The body of the loop, for one entry of [default_args] *)
Definition normalize_arg (_args : gmap string Config.scalar)
    (arg : Config.default_arg) : gmap string Config.scalar :=
  match Config.is_path arg, Config.default arg with
  | true, Config.VStr _ =>
      match _args !! arg_name arg with
      | Some (Config.VStr path_value) =>
          if Py.truthy path_value
          then <[arg_name arg := Config.VStr (normalize_path path_value)]> _args
          else _args
      | _ => _args
      end
  | _, _ => _args
  end.

Definition normalize_paths (_args : gmap string Config.scalar)
    (default_args : list Config.default_arg) : gmap string Config.scalar :=
  fold_left normalize_arg default_args _args.
End paths.

(** *** [find_python_binary] *)

(** [l[i]] *)
Definition index {A} (l : list A) (i : nat) : res A :=
  match nth_error l i with
  | Some x => Ret x
  | None => Raise IndexError
  end.

(** From the output of [python --version] to [(major, minor)]:
    [version_output.strip().split(" ")[1].split(".")], then the two
    [int]s. *)
Definition python_version (version_output : string) : res (Z * Z) :=
  field ← index (Py.split " " (Py.strip version_output)) 1;
  let version_parts := Py.split "." field in
  part0 ← index version_parts 0;
  major ← Py.int part0;
  part1 ← index version_parts 1;
  minor ← Py.int part1;
  Ret (major, minor).

Section python.
Variable w : world.
Variable which : string -> option string.   (* shutil.which *)

Definition possible_binaries : list string :=
  let possible_binaries := ["python3.10"; "python310"; "python3"; "python"] in
  if String.eqb (os_family w) "Windows"
  then app (map (fun binary => binary ++ ".exe") possible_binaries) possible_binaries
  else possible_binaries.

(** The [try] of the loop body: whether it reaches [return binary].  The
    three exceptions of the [except] clause go on with the next binary,
    as a version that does not fit does. *)
Definition probe (binary : string) : Prog bool :=
  try_except
    (let argv := [binary; "--version"] in
     emit (Run argv) ;;
     do version_output <- lift (check_output w argv) ;
     do (major, minor) <- lift (python_version version_output) ;
     ret ((major =? 3) && (10 <=? minor)))
    (fun e => match e with
              | CalledProcessError | IndexError | ValueError _ => Some (ret false)
              | _ => None
              end).

Fixpoint search_binaries (binaries : list string) : Prog (option string) :=
  match binaries with
  | [] => ret None
  | binary :: rest =>
      if match which binary with Some p => Py.truthy p | None => false end then
        do found <- probe binary ;
        if found then ret (Some binary) else search_binaries rest
      else search_binaries rest
  end.

Definition find_python_binary : Prog (option string) :=
  search_binaries possible_binaries.
End python.

(** *** [brew_install_tensorflow_deps]

    A command that ends with a status other than zero is the action that
    raises [CalledProcessError] ([check=True], [check_returncode]).  The
    output of brew is taken to be valid UTF-8. *)

(** The inner function returns [None] off macOS. *)
Definition brew_installed (w : world) : Prog (option bool) :=
  if String.eqb (os_family w) "macOS" then
    try_except (act w (Run ["brew"; "-v"]) ;; ret (Some true))
               (fun e => match e with
                         | CalledProcessError => Some (ret (Some false))
                         | _ => None
                         end)
  else ret None.

Definition brew_install_tensorflow_deps (w : world) (verbosity : Z) : Prog bool :=
  (* "brew install llvm cctools ld64".split() *)
  let brew_install_cmd := ["brew"; "install"; "llvm"; "cctools"; "ld64"] in
  if negb (String.eqb (os_family w) "macOS") then ret true
  else
    do installed <- brew_installed w ;
    if negb (from_option id false installed) then ret false
    else
      try_except (act w (Run brew_install_cmd) ;; ret true)
                 (fun e => match e with
                           | CalledProcessError => Some (ret false)
                           | _ => None
                           end).

(** *** [configure_accelerate]

    [Path] joins its arguments as [pathlib.Path(a, b, ...)] does and
    [parent] is [Path(p).parent], both as strings; [file_dir] is
    [os.path.dirname(os.path.abspath(__file__))]. *)

Section accelerate.
Variable w : world.
Variable sys_executable : string.
Variable file_dir : string.
Variable Path : list string -> string.
Variable parent : string -> string.

Definition source_accelerate_config_file : string :=
  if String.eqb (os_family w) "macOS" && String.eqb (machine w) "arm64"
  then Py.join_all (osp w) file_dir ["config_files"; "accelerate"; "macos_config.yaml"]
  else Py.join_all (osp w) file_dir ["config_files"; "accelerate"; "default_config.yaml"].

(** [try: if accelerate_path.exists(): subprocess.check_call(...)
    except subprocess.CalledProcessError: ...] *)
Definition run_accelerate_config : Prog unit :=
  let accelerate_path := Path [parent sys_executable; "accelerate"] in
  try_except
    (if path_exists w accelerate_path
     then act w (Run [accelerate_path; "config"])
     else ret tt)
    (fun e => match e with
              | CalledProcessError => Some (ret tt)
              | _ => None
              end).

(** [os.environ[key]] of a variable that is there *)
Definition env_value (environ : gmap string string) (key : string) : string :=
  from_option id EmptyString (environ !! key).

Definition target_config_location (environ : gmap string string) : option string :=
  if String.eqb (os_family w) "Windows" then
    if env_var_exists environ "HF_HOME" then
      Some (Path [env_value environ "HF_HOME"; "accelerate"; "default_config.yaml"])
    else if env_var_exists environ "LOCALAPPDATA" then
      Some (Path [env_value environ "LOCALAPPDATA"; "huggingface";
                  "accelerate"; "default_config.yaml"])
    else if env_var_exists environ "USERPROFILE" then
      Some (Path [env_value environ "USERPROFILE"; ".cache"; "huggingface";
                  "accelerate"; "default_config.yaml"])
    else None
  else
    if env_var_exists environ "HF_HOME" then
      Some (Path [env_value environ "HF_HOME"; "accelerate"; "default_config.yaml"])
    else if env_var_exists environ "XDG_CACHE_HOME" then
      Some (Path [env_value environ "XDG_CACHE_HOME"; "huggingface";
                  "accelerate"; "default_config.yaml"])
    else if env_var_exists environ "HOME" then
      Some (Path [env_value environ "HOME"; ".cache"; "huggingface";
                  "accelerate"; "default_config.yaml"])
    else None.

Definition configure_accelerate (interactive : bool) : Prog unit :=
  if interactive then run_accelerate_config
  else
    do s <- get_state ;
    match target_config_location (environ s) with
    | Some target_config_location =>
        when (negb (path_isfile w target_config_location))
          (act w (Makedirs (parent target_config_location)) ;;
           act w (Copy source_accelerate_config_file target_config_location))
    | None => run_accelerate_config
    end.
End accelerate.

(** *** The log file: the level chosen from the verbosity and
    [CustomFormatter.generate_log_filename] *)

(** [logging.ERROR], [WARNING], [INFO] and [DEBUG] are 40, 30, 20 and
    10; the level stays at its initial [logging.ERROR] when no branch of
    the chain applies. *)
Definition log_level_of (verbosity : Z) : Z :=
  if verbosity =? 0 then 40
  else if verbosity =? 1 then 30
  else if verbosity =? 2 then 20
  else if 3 <=? verbosity then 10
  else 40.

(** [logging.getLevelName] on the standard levels *)
Definition getLevelName (log_level : Z) : string :=
  if log_level =? 50 then "CRITICAL"
  else if log_level =? 40 then "ERROR"
  else if log_level =? 30 then "WARNING"
  else if log_level =? 20 then "INFO"
  else if log_level =? 10 then "DEBUG"
  else if log_level =? 0 then "NOTSET"
  else "Level " ++ Py.str_of_Z log_level.

Section logs.
Variable w : world.
Variable current_date_str : string.   (* now.strftime("%Y-%m-%d") *)
Variable current_time_str : string.   (* now.strftime("%H%M%S") *)
Variable log_level : Z.

Definition log_filename (counter : Z) : string :=
  let counter_suffix := if 0 <? counter then "_" ++ Py.str_of_Z counter else EmptyString in
  "launcher_" ++ current_time_str ++ counter_suffix ++ "_"
  ++ Py.lower (getLevelName log_level) ++ ".log".

(** The [while True] loop, from a value of [counter]: [fuel] bounds the
    number of rounds, and [None] stands for a loop that has not ended
    within them. *)
Fixpoint free_log_filepath (fuel : nat) (date_subdir : string) (counter : Z)
  : option string :=
  match fuel with
  | O => None
  | S fuel' =>
      let log_filepath := Py.path_join (osp w) date_subdir (log_filename counter) in
      if negb (path_exists w log_filepath) then Some log_filepath
      else free_log_filepath fuel' date_subdir (counter + 1)
  end.

Definition generate_log_filename (fuel : nat) (_logs_dir : string)
  : Prog (option string) :=
  (* Create a subdirectory for the current date *)
  let date_subdir := Py.path_join (osp w) _logs_dir current_date_str in
  act w (Makedirs date_subdir) ;;
  ret (free_log_filepath fuel date_subdir 0).
End logs.

End Setup.

(** ** Progress of a clone or a pull: [GitProgressPrinter] *)

Module Progress.

Record printer : Type := {
  operation : string;
  repo_name : string;
  local_folder : string;
  total : option Z;
  received_objects : Z
}.

(** [__init__] *)
Definition init (operation repo_name local_folder : string) (total : option Z)
  : printer :=
  {| operation := operation; repo_name := repo_name; local_folder := local_folder;
     total := total; received_objects := 0 |}.

Definition set_total (self : printer) (t : option Z) : printer :=
  {| operation := operation self; repo_name := repo_name self;
     local_folder := local_folder self; total := t;
     received_objects := received_objects self |}.

Definition set_received (self : printer) (n : Z) : printer :=
  {| operation := operation self; repo_name := repo_name self;
     local_folder := local_folder self; total := total self;
     received_objects := n |}.

(** [str(x)] of a count that may be [None] *)
Definition str_of_count (x : option Z) : string :=
  match x with
  | Some n => Py.str_of_Z n
  | None => "None"
  end.

(** [update]: the object after the call and the lines it printed.  The
    counts are integers; [max_count] is [None] or a number, true when it
    is not zero. *)
Definition update (self : printer) (cur_count : Z) (max_count : option Z)
  : printer * list string :=
  let self :=
    match total self, max_count with
    | None, Some m => if negb (m =? 0) then set_total self max_count else self
    | _, _ => self
    end in
  if received_objects self <? cur_count then
    let self := set_received self cur_count in
    (self, ["Received " ++ Py.str_of_Z (received_objects self) ++ "/"
            ++ str_of_count (total self) ++ " objects"])
  else (self, []).

End Progress.

(** ** The operating system: [OSInfo.detect_os] *)

Module OS.

Record os_info : Type := {
  name : string;
  family : string;
  version : string
}.

Definition set_name (self : os_info) (x : string) : os_info :=
  {| name := x; family := family self; version := version self |}.
Definition set_family (self : os_info) (x : string) : os_info :=
  {| name := name self; family := x; version := version self |}.
Definition set_version (self : os_info) (x : string) : os_info :=
  {| name := name self; family := family self; version := x |}.

(** The longest prefix of characters that satisfy [ok] *)
Fixpoint take_while (ok : ascii -> bool) (s : string) : string :=
  match s with
  | EmptyString => EmptyString
  | String c s' => if ok c then String c (take_while ok s') else EmptyString
  end.

(** The class of the three patterns of [/etc/os-release]: any character
    but the double quote (code 34) and the newline *)
Definition value_char (c : ascii) : bool :=
  negb (Py.code c =? 34) && negb (Py.code c =? 10).

(** A pattern [key], an optional double quote, then one or more
    [value_char]s, matched at the head of [s]: the group.  When the quote
    is taken and no character of the class follows, giving the quote back
    does not help, for the quote is not in the class. *)
Definition value_here (key s : string) : option string :=
  if Py.startswith s key then
    let rest := Py.skip (String.length key) s in
    let after_quote :=
      match rest with
      | String c rest' => if Py.code c =? 34 then rest' else rest
      | EmptyString => rest
      end in
    let v := take_while value_char after_quote in
    if Py.truthy v then Some v else None
  else None.

(** [re.search]: the leftmost match *)
Fixpoint search_value (key s : string) : option string :=
  match value_here key s with
  | Some v => Some v
  | None =>
      match s with
      | EmptyString => None
      | String _ s' => search_value key s'
      end
  end.

(** [<string>([\d.]+)</string>] *)
Definition version_char (c : ascii) : bool :=
  match Py.digit_value c with
  | Some _ => true
  | None => Py.ascii_eqb c "."
  end.

Definition plist_version_here (s : string) : option string :=
  if Py.startswith s "<string>" then
    let rest := Py.skip 8 s in
    let v := take_while version_char rest in
    if Py.truthy v && Py.startswith (Py.skip (String.length v) rest) "</string>"
    then Some v else None
  else None.

Fixpoint search_plist_version (s : string) : option string :=
  match plist_version_here s with
  | Some v => Some v
  | None =>
      match s with
      | EmptyString => None
      | String _ s' => search_plist_version s'
      end
  end.

(** [([^ ]+) release ([^ ]+)]: a shorter first group is followed by a
    character that is no space, so only the longest can be followed by
    the literal. *)
Definition not_space (c : ascii) : bool := negb (Py.code c =? 32).

Definition release_here (s : string) : option (string * string) :=
  let group1 := take_while not_space s in
  if Py.truthy group1 then
    let rest := Py.skip (String.length group1) s in
    if Py.startswith rest " release " then
      let group2 := take_while not_space (Py.skip 9 rest) in
      if Py.truthy group2 then Some (group1, group2) else None
    else None
  else None.

Fixpoint search_release (s : string) : option (string * string) :=
  match release_here s with
  | Some g => Some g
  | None =>
      match s with
      | EmptyString => None
      | String _ s' => search_release s'
      end
  end.

Section detect.
Variable w : world.
Variable system : string.                   (* platform.system() *)
Variable platform_version : string.         (* platform.version() *)
Variable platform_release : res string.     (* platform.release() *)
Variable getoutput : string -> res string.  (* subprocess.getoutput *)

(** [with open(path, "r") as f: content = f.read()] *)
Definition read_text (path : string) : res string :=
  lines ← read_lines w path; Ret (String.concat EmptyString lines).

(** [try: ... except Exception: ...] around a block that leaves [self]
    as it is when it raises: the other exceptions keep propagating. *)
Definition unless_exception {A} (r : res A) (otherwise : os_info)
    (k : A -> res os_info) : res os_info :=
  match r with
  | Ret a => k a
  | Raise e => if is_Exception e then Ret otherwise else Raise e
  end.

(** The three assignments from [/etc/os-release]: a pattern that is not
    found makes [.group] fail on [None], which ends the block with the
    fields set so far. *)
Definition read_os_release (self : os_info) : res os_info :=
  unless_exception (read_text "/etc/os-release") self (fun content =>
    match search_value "ID=" content with
    | None => Ret self
    | Some x =>
        let self := set_name self x in
        match search_value "ID_LIKE=" content with
        | None => Ret self
        | Some x =>
            let self := set_family self x in
            match search_value "VERSION=" content with
            | None => Ret self
            | Some x => Ret (set_version self x)
            end
        end
    end).

Definition read_redhat_release (self : os_info) : res os_info :=
  unless_exception (read_text "/etc/redhat-release") self (fun content =>
    match search_release content with
    | Some (group1, group2) =>
        Ret {| name := group1; family := "RedHat"; version := group2 |}
    | None => Ret self
    end).

Definition named (self : os_info) (n f : string) : os_info :=
  {| name := n; family := f; version := version self |}.

Definition uname_fallback (self : os_info) : res os_info :=
  unless_exception (getoutput "uname -a") (named self "Generic Linux" "Generic Linux")
    (fun uname =>
       if Py.contains "Ubuntu" uname then Ret (named self "Ubuntu" "Ubuntu")
       else if Py.contains "Debian" uname then Ret (named self "Debian" "Debian")
       else if Py.contains "Red Hat" uname || Py.contains "CentOS" uname
       then Ret (named self "RedHat" "RedHat")
       else if Py.contains "Fedora" uname then Ret (named self "Fedora" "Fedora")
       else if Py.contains "SUSE" uname then Ret (named self "openSUSE" "SUSE")
       else if Py.contains "Arch" uname then Ret (named self "Arch" "Arch")
       else Ret (named self "Generic Linux" "Generic Linux")).

(** [OSInfo()]: the three fields after [__init__] *)
Definition detect_os : res os_info :=
  let self := {| name := "Unknown"; family := "Unknown"; version := "Unknown" |} in
  if String.eqb system "Windows" then
    Ret {| name := "Windows"; family := "Windows"; version := platform_version |}
  else if String.eqb system "Darwin" then
    let self := {| name := "macOS"; family := "macOS"; version := "Unknown" |} in
    unless_exception (read_text "/System/Library/CoreServices/SystemVersion.plist") self
      (fun content =>
         match search_plist_version content with
         | Some v => Ret (set_version self v)
         | None => Ret self
         end)
  else if String.eqb system "Linux" then
    self ← (if path_exists w "/etc/os-release" then read_os_release self
            else if path_exists w "/etc/redhat-release" then read_redhat_release self
            else Ret self);
    if String.eqb (name self) "Unknown" then uname_fallback self
    else Ret self
  else if String.eqb system "FreeBSD" then
    let self := {| name := "FreeBSD"; family := "FreeBSD"; version := "Unknown" |} in
    (* Try the `uname -r` command first to get FreeBSD version number *)
    match getoutput "uname -r" with
    | Ret v => Ret (set_version self v)
    | Raise e =>
        if is_Exception e then
          (* If `uname -r` fails, try using platform.release() *)
          match platform_release with
          | Ret v => Ret (set_version self v)
          | Raise e' => if is_Exception e' then Ret (set_version self "Unknown") else Raise e'
          end
        else Raise e
    end
  else Ret self.

End detect.

End OS.

(** * Properties of the launcher *)

(** ** Reading the trace *)

(** The state with one more action in its trace *)
Definition add_event (s : state) (e : event) : state :=
  {| environ := environ s; listing := listing s; stdin := stdin s;
     trace := (trace s ++ [e])%list |}.

(** The actions a program performs from a state: what it appends to the
    trace. *)
Definition performed {A} (m : Prog A) (s : state) : list event :=
  drop (length (trace s)) (trace (snd (m s))).

(** [emits P m]: started anywhere, [m] only appends actions that satisfy
    [P]. *)
Definition emits {A} (P : event -> Prop) (m : Prog A) : Prop :=
  forall s, exists evs, trace (snd (m s)) = (trace s ++ evs)%list /\ Forall P evs.

(** Requests to the network *)
Definition is_request (e : event) : bool :=
  match e with
  | HttpGet _ _ => true
  | _ => false
  end.

Definition offline (e : event) : Prop := is_request e = false.

Definition anything (e : event) : Prop := True.

(** The actions that bring files from elsewhere: pull, clone, download *)
Definition fetches (e : event) : bool :=
  match e with
  | GitPull _ _ | GitClone _ _ _ _ | HttpGet _ _ => true
  | _ => false
  end.

(** ** Vocabulary of the statements *)

(** Strings of decimal digits and their value *)
Definition is_digit (c : ascii) : bool := (48 <=? Py.code c) && (Py.code c <=? 57).

Fixpoint all_digits (s : string) : bool :=
  match s with
  | EmptyString => true
  | String c s' => is_digit c && all_digits s'
  end.

Definition decimal_value (s : string) : Z :=
  fold_left (fun acc c => 10 * acc + (Py.code c - 48)) (list_ascii_of_string s) 0.

(** The string of [n] letters v *)
Fixpoint v_string (n : nat) : string :=
  match n with
  | O => EmptyString
  | S n' => String "v" (v_string n')
  end.

(** Strings made of characters of [chars] only *)
Fixpoint all_in (chars s : string) : bool :=
  match s with
  | EmptyString => true
  | String c s' => Py.char_in c chars && all_in chars s'
  end.

(** The reading of "remove the .git extension": one literal suffix is
    taken off, when it is there. *)
Definition remove_suffix (suffix s : string) : string :=
  if Py.endswith s suffix
  then String.substring 0 (String.length s - String.length suffix) s
  else s.

Definition default_git_repo : string := "https://github.com/bmaltais/kohya_ss.git".

(** The default of an option after the configuration files are loaded *)
Definition configured_default (platform : string) (osp : Py.os_path)
    (script_dir : string) (environ : gmap string string)
    (read_yaml : string -> res Config.document) (_config_file : option string)
    (long_opt : string) : res (option Config.scalar) :=
  c ← Config.load_config platform osp script_dir environ read_yaml _config_file;
  Ret (Config.default_of long_opt
         (Config.update_defaults c (Config.default_args script_dir))).

(** Sets of permission bits: [a] is a subset of [b]. *)
Definition subset_bits (a b : Z) : Prop := Z.land a (Z.lnot b) = 0.

(** [widened req fs fs']: every file of [fs] is in [fs'] with at least the
    bits it had, and the bits it gained are among [req] of its path. *)
Definition widened (req : string -> Z) (fs fs' : gmap string Z) : Prop :=
  forall path pre,
    fs !! path = Some pre ->
    exists post,
      fs' !! path = Some post
      /\ subset_bits pre post
      /\ subset_bits (Z.land post (Z.lnot pre)) (req path).

(** The command that brings pip up to date *)
Definition pip_self_upgrade (sys_executable : string) (verbosity : Z) : event :=
  Run (if 2 <=? verbosity
       then [sys_executable; "-m"; "pip"; "install"; "--upgrade";
             "--no-warn-script-location"; "pip"]
       else [sys_executable; "-m"; "pip"; "install"; "--quiet"; "--upgrade";
             "--no-warn-script-location"; "pip"]).

(** ** Machines and files of the examples *)

(** A Linux system with the POSIX path
    module.  [present], [files] and [dirs] answer [os.path.exists],
    [isfile] and [isdir]; [status] is the answer of [git status]; [failing]
    gives the actions that raise. *)
Definition sample_response : response :=
  {| status_code := 200;
     tag_name := Ret "v21.5.7";
     content_length := Some "1024";
     extracted := Ret ("/tmp/unzip/kohya_ss-21.5.7",
                       [("/tmp/unzip/kohya_ss-21.5.7", ".", ["kohya_gui.py"])]) |}.

Definition sample_scheme (url : string) : string :=
  if Py.startswith url "https://" then "https"
  else if Py.startswith url "ssh://" then "ssh"
  else EmptyString.

Definition linux_world (present files dirs : string -> bool)
    (status : res string) (failing : event -> option exn) : world :=
  {| os_family := "Ubuntu"; machine := "x86_64"; sys_platform := "linux";
     script_dir := "/opt/kohya_ss"; osp := Py.posixpath;
     path_exists := present; path_islink := fun _ => false;
     path_isfile := files; path_isdir := dirs;
     path_realpath := fun p => p;
     os_listdir := fun _ => Ret [];
     read_lines := fun _ => Raise FileNotFoundError;
     path_abspath := fun p => p;
     home_dir := "/home/user";
     tmp_name := "/tmp/tmpzip"; tmp_dir := "/tmp/unzip";
     url_scheme := sample_scheme;
     url_hostname := fun _ => Some "github.com";
     check_output := fun _ => Raise CalledProcessError;
     git_repo_open := fun _ => None;
     git_status := fun _ => status;
     after_clone := fun _ l => l;
     http_response := fun _ => Ret sample_response;
     installed_modules := [];
     outcome := failing |}.

Definition nothing (_ : string) : bool := false.
Definition all_succeed (_ : event) : option exn := None.

(** git is not installed *)
Definition without_git (e : event) : option exn :=
  match e with
  | Run ["git"; "--version"] => Some FileNotFoundError
  | _ => None
  end.

Definition fresh_state (entries : option (list string)) : state :=
  {| environ := ∅; listing := entries; stdin := []; trace := [] |}.

(** Configuration files for the examples: each sets the branch. *)
Definition branch_setting (b : string) : Config.document :=
  Config.DocMap
    {[ "setup_arguments" :=
         [ {| Config.name := "Branch"; Config.value := Config.VStr b;
              Config.description := "Select which branch of kohya to check out." |} ] ]}.

Definition sample_files (path : string) : res Config.document :=
  if String.eqb path "/opt/kohya_ss/config_files/installation/install_config.yml"
  then Ret (branch_setting "release")
  else if String.eqb path "/home/user/.kohya_ss/install_config.yml"
  then Ret (branch_setting "dev")
  else if String.eqb path "/home/user/mine.yml"
  then Ret (branch_setting "mine")
  else Raise FileNotFoundError.

(** A virtual environment for the examples: the modes are 0o100400 (a
    regular file its owner may read) and 0o100644. *)
Definition no_mime (_ : string) : option string := None.

Definition lib_files : gmap string Z :=
  {[ "/opt/kohya_ss/venv/lib/notes.txt" := 33024;
     "/opt/kohya_ss/venv/lib/other.txt" := 33024 ]}.

Definition lib_walk (_ : string) : list (string * list string * list string) :=
  [ ("/opt/kohya_ss/venv/lib", [], ["notes.txt"; "other.txt"]) ].

Definition bin_files : gmap string Z :=
  {[ "/opt/kohya_ss/venv/bin/python" := 33024;
     "/opt/kohya_ss/venv/bin/pip" := 33024 ]}.

Definition bin_walk (_ : string) : list (string * list string * list string) :=
  [ ("/opt/kohya_ss/venv/bin", [], ["python"; "pip"]) ].

Definition venv_files : gmap string Z :=
  {[ "/opt/kohya_ss/venv/pyvenv.cfg" := 33188;
     "/opt/kohya_ss/venv/bin/activate_this.py" := 33188 ]}.

Definition venv_walk (_ : string) : list (string * list string * list string) :=
  [ ("/opt/kohya_ss/venv", ["bin"], ["pyvenv.cfg"]);
    ("/opt/kohya_ss/venv/bin", [], ["activate_this.py"]) ].

(** A machine for the examples of the installer: the marker file of an
    earlier run and [requirements.txt] are there. *)
Definition marker_file : string := "/opt/kohya_ss/logs/status/.pip_operations_done".

Definition sample_requirements : list string :=
  [ "# the packages of the GUI" ++ Deps.newline;
    "gradio==3.23.0" ++ Deps.newline;
    "tqdm" ++ Deps.newline ].

Definition provisioned_world : world :=
  {| os_family := "Ubuntu"; machine := "x86_64"; sys_platform := "linux";
     script_dir := "/opt/kohya_ss"; osp := Py.posixpath;
     path_exists := fun p => String.eqb p marker_file
                             || String.eqb p "/opt/kohya_ss/requirements.txt"
                             || String.eqb p "/tmp/tmpreq";
     path_islink := fun _ => false;
     path_isfile := fun _ => false; path_isdir := fun _ => false;
     path_realpath := fun p => p;
     os_listdir := fun _ => Ret [];
     read_lines := fun p => if String.eqb p "/opt/kohya_ss/requirements.txt"
                            then Ret sample_requirements
                            else Raise FileNotFoundError;
     path_abspath := fun p => p;
     home_dir := "/home/user";
     tmp_name := "/tmp/tmpreq"; tmp_dir := "/tmp/unzip";
     url_scheme := sample_scheme;
     url_hostname := fun _ => Some "github.com";
     check_output := fun _ => Raise CalledProcessError;
     git_repo_open := fun _ => None;
     git_status := fun _ => Ret EmptyString;
     after_clone := fun _ l => l;
     http_response := fun _ => Ret sample_response;
     installed_modules := [];
     outcome := all_succeed |}.

(** A run of the whole script for the examples: a first installation from
    the default repository into an empty directory, on a machine where
    every step outside [update_kohya_ss] succeeds. *)
Definition sample_args : Launch.args :=
  {| Launch.branch := "master"; Launch.dir := "/opt/kohya_ss";
     Launch.git_repo := default_git_repo; Launch.interactive := false;
     Launch.log_dir := EmptyString; Launch.no_setup := false;
     Launch.repair := false; Launch.runpod := false; Launch.setup_only := false;
     Launch.skip_space_check := false; Launch.update := false;
     Launch.verbosity := 0; Launch.listen := "127.0.0.1";
     Launch.username := EmptyString; Launch.password := EmptyString;
     Launch.server_port := "0"; Launch.inbrowser := false; Launch.share := false |}.

Definition sample_steps (w : world) : Launch.steps :=
  {| Launch.parse_command_line := ret sample_args;
     Launch.configure_logging := fun _ => ret "/opt/kohya_ss/logs";
     Launch.get_os_info := ret tt;
     Launch.find_python_binary := ret (Some "python3");
     Launch.python_is_3_10 := true;
     Launch.create_venv := fun python_bin venv_path =>
       act w (Run [python_bin; "-m"; "venv"; venv_path]) ;;
       set_listing (Some ["venv"]);
     Launch.check_permissions := fun _ => ret true;
     Launch.check_and_create_install_folder := fun _ _ => ret tt;
     Launch.check_storage_space := fun _ _ _ => ret tt;
     Launch.brew_install_tensorflow_deps := fun _ => ret true;
     Launch.configure_accelerate := fun _ => ret tt;
     Launch.now := "2023-05-01 10:00:00" |}.

(** The operator presses control-c while git clones. *)
Definition interrupted_clone (e : event) : option exn :=
  match e with
  | GitClone _ _ _ _ => Some KeyboardInterrupt
  | _ => None
  end.

(** The operator presses control-c while the GUI runs. *)
Definition interrupted_gui (e : event) : option exn :=
  match e with
  | Run (_ :: "/opt/kohya_ss/kohya_gui.py" :: _) => Some KeyboardInterrupt
  | _ => None
  end.

Definition everything (_ : string) : bool := true.

(** The same run with [--no-setup]: the script goes to the GUI at once. *)
Definition no_setup_args : Launch.args :=
  {| Launch.branch := "master"; Launch.dir := "/opt/kohya_ss";
     Launch.git_repo := default_git_repo; Launch.interactive := false;
     Launch.log_dir := EmptyString; Launch.no_setup := true;
     Launch.repair := false; Launch.runpod := false; Launch.setup_only := false;
     Launch.skip_space_check := false; Launch.update := false;
     Launch.verbosity := 0; Launch.listen := "127.0.0.1";
     Launch.username := EmptyString; Launch.password := EmptyString;
     Launch.server_port := "0"; Launch.inbrowser := false; Launch.share := false |}.

Definition no_setup_steps (w : world) : Launch.steps :=
  {| Launch.parse_command_line := ret no_setup_args;
     Launch.configure_logging := fun _ => ret "/opt/kohya_ss/logs";
     Launch.get_os_info := ret tt;
     Launch.find_python_binary := ret (Some "python3");
     Launch.python_is_3_10 := true;
     Launch.create_venv := fun python_bin venv_path =>
       act w (Run [python_bin; "-m"; "venv"; venv_path]);
     Launch.check_permissions := fun _ => ret true;
     Launch.check_and_create_install_folder := fun _ _ => ret tt;
     Launch.check_storage_space := fun _ _ _ => ret tt;
     Launch.brew_install_tensorflow_deps := fun _ => ret true;
     Launch.configure_accelerate := fun _ => ret tt;
     Launch.now := "2023-05-01 10:00:00" |}.

(** ** Vocabulary of the further properties *)

(** A record of the configuration file names the option [long_opt]:
    the comparison [f'--{name.lower()}' == default_arg["long"]]. *)
Definition names_option (arg : Config.setting) (long_opt : string) : bool :=
  String.eqb ("--" ++ Py.lower (Config.name arg)) long_opt.

(** The last record of a list that names the option *)
Definition last_setting (long_opt : string) (settings : list Config.setting)
  : option Config.setting :=
  last (List.filter (fun arg => names_option arg long_opt) settings).

(** The records of a section of the configuration, none when the section
    is missing *)
Definition section_settings (d : gmap string (list Config.setting))
    (section : string) : list Config.setting :=
  from_option id [] (d !! section).

(** The value the records give to an option whose default was [v0] *)
Definition configured_value (d : gmap string (list Config.setting))
    (long_opt : string) (v0 : Config.scalar) : Config.scalar :=
  match last_setting long_opt (section_settings d "kohya_gui_arguments") with
  | Some arg => Config.value arg
  | None =>
      match last_setting long_opt (section_settings d "setup_arguments") with
      | Some arg => Config.value arg
      | None => v0
      end
  end.

(** The lines of a requirements file that are neither comments nor
    blank *)
Definition requirement_lines (lines : list string) : list string :=
  List.filter (fun line => negb (Deps.comment_or_blank line)) lines.

(** A requirements file in which the marker comment of the local library
    has a line of its own, followed by the path of the library *)
Definition marked_requirements : list string :=
  [ "gradio==3.23.0" ++ Deps.newline;
    "# for kohya_ss library" ++ Deps.newline;
    "." ++ Deps.newline ].

(** Every line with the marker comment is itself a comment line or
    blank. *)
Definition marker_lines_are_comments (lines : list string) : bool :=
  forallb (fun line => implb (Deps.library_comment line) (Deps.comment_or_blank line))
          lines.

(** The marker file of the installer and the action that writes it *)
Definition flag_file_of (w : world) (_log_dir : string) : string :=
  Py.join_all (osp w) _log_dir ["status"; ".pip_operations_done"].

Definition marker_write (w : world) (_log_dir now : string) : event :=
  StoreFile (flag_file_of w _log_dir) ["Pip operations done on: " ++ now].

(** The command that installs the stable torch and torchvision *)
Definition torch_install (sys_executable : string) (verbosity : Z) : event :=
  Run (app [sys_executable; "-m"; "pip"; "install";
            "torch==" ++ Deps.TORCH_VERSION_1;
            "torchvision==" ++ Deps.TORCHVISION_VERSION_1;
            "--extra-index-url"; Deps.TORCH_INDEX_URL_1]
           (if verbosity <? 3 then ["--quiet"] else [])).

(** The state with more actions in its trace *)
Definition add_events (s : state) (evs : list event) : state :=
  fold_left add_event evs s.

(** [begins pre m s]: started in [s], the program [m] performs the
    actions [pre] first, whatever it does afterwards. *)
Definition begins {A} (pre : list event) (m : Prog A) (s : state) : Prop :=
  exists rest, trace (snd (m s)) = (trace s ++ pre ++ rest)%list.

(** The commands of the installer: the removal of a package in a repair
    run, the four removals, the installation of one requirement, and the
    installation of everything the temporary file holds, in one command
    at verbosity 3 and above and line by line below. *)
Definition pip_uninstall (sys_executable : string) (verbosity : Z)
    (package : string) : event :=
  Run (if verbosity <? 3
       then [sys_executable; "-m"; "pip"; "uninstall"; "--quiet"; "-y"; package]
       else [sys_executable; "-m"; "pip"; "uninstall"; "-y"; package]).

Definition repair_uninstalls (sys_executable : string) (verbosity : Z) : list event :=
  pip_uninstall sys_executable verbosity
    <$> ["xformers"; "torch"; "torchvision"; "triton"].

Definition pip_install_package (sys_executable package : string) : event :=
  Run [sys_executable; "-m"; "pip"; "install"; "--upgrade"; "--quiet";
       "--use-pep517"; "--no-warn-script-location"; package].

Definition requirement_installs (w : world) (sys_executable : string)
    (verbosity : Z) (written : list string) : list event :=
  if 3 <=? verbosity
  then [Run [sys_executable; "-m"; "pip"; "install"; "--upgrade"; "--use-pep517";
             "-r"; tmp_name w]]
  else pip_install_package sys_executable
         <$> List.filter Py.truthy
               (Py.strip <$> Py.lines_of (String.concat EmptyString written)).

(** What a repair run leaves in the temporary file on a system that is
    neither macOS nor Windows: the lines kept from [requirements.txt] and,
    on Runpod, tensorrt. *)
Definition written_requirements (_dir : string) (runpod : bool)
    (original : list string) : list string :=
  app (Deps.copy_requirements _dir false original)
      (if runpod then ["tensorrt" ++ Deps.newline] else []).

(** The actions of a whole repair run on such a system when every
    command succeeds *)
Definition repair_run (w : world) (sys_executable : string) (verbosity : Z)
    (now _dir : string) (runpod : bool) (_log_dir : string)
    (original : list string) : list event :=
  pip_self_upgrade sys_executable verbosity
  :: StoreFile (tmp_name w) []
  :: app (repair_uninstalls sys_executable verbosity)
      (app (requirement_installs w sys_executable verbosity
              (written_requirements _dir runpod original))
         (app (if path_exists w (tmp_name w) then [Remove (tmp_name w)] else [])
              [Makedirs (Py.path_join (osp w) _log_dir "status");
               marker_write w _log_dir now])).

(** A Windows machine on which nothing is installed yet and every
    command succeeds *)
Definition windows_world : world :=
  {| os_family := "Windows"; machine := "AMD64"; sys_platform := "win32";
     script_dir := "/opt/kohya_ss"; osp := Py.posixpath;
     path_exists := fun p => String.eqb p "/opt/kohya_ss/requirements.txt";
     path_islink := fun _ => false;
     path_isfile := fun _ => false; path_isdir := fun _ => false;
     path_realpath := fun p => p;
     os_listdir := fun _ => Ret [];
     read_lines := fun p => if String.eqb p "/opt/kohya_ss/requirements.txt"
                            then Ret sample_requirements
                            else Raise FileNotFoundError;
     path_abspath := fun p => p;
     home_dir := "/home/user";
     tmp_name := "/tmp/tmpreq"; tmp_dir := "/tmp/unzip";
     url_scheme := sample_scheme;
     url_hostname := fun _ => Some "github.com";
     check_output := fun _ => Raise CalledProcessError;
     git_repo_open := fun _ => None;
     git_status := fun _ => Ret EmptyString;
     after_clone := fun _ l => l;
     http_response := fun _ => Ret sample_response;
     installed_modules := [];
     outcome := all_succeed |}.

(** [last_only e m]: started anywhere, [m] attempts [e] at most once, and
    then as its last action. *)
Definition last_only {A} (e : event) (m : Prog A) : Prop :=
  forall s, exists before,
    Forall (fun x => x <> e) before
    /\ (trace (snd (m s)) = (trace s ++ before)%list
        \/ trace (snd (m s)) = (trace s ++ before ++ [e])%list).

(** Transfers by git, questions to the operator, child processes *)
Definition is_git_transfer (e : event) : bool :=
  match e with
  | GitPull _ _ | GitClone _ _ _ _ => true
  | _ => false
  end.

Definition is_prompt (e : event) : bool :=
  match e with
  | Prompt _ => true
  | _ => false
  end.

Definition is_run (e : event) : bool :=
  match e with
  | Run _ => true
  | _ => false
  end.

(** [at_most P n m]: started anywhere, [m] attempts at most [n] actions
    that satisfy [P]. *)
Definition at_most {A} (P : event -> bool) (n : nat) (m : Prog A) : Prop :=
  forall s, exists evs,
    trace (snd (m s)) = (trace s ++ evs)%list
    /\ (length (List.filter P evs) <= n)%nat.

(** [keeps R m]: wherever [m] is started, the state it ends in is related
    by [R] to the state it started in. *)
Definition keeps {A} (R : state -> state -> Prop) (m : Prog A) : Prop :=
  forall s, R s (snd (m s)).

(** The value of [LD_LIBRARY_PATH], empty when it is not set *)
Definition library_path (s : state) : string :=
  from_option id EmptyString (environ s !! "LD_LIBRARY_PATH").

(** The environment of [s'] is that of [s] with something added at the
    end of [LD_LIBRARY_PATH]. *)
Definition library_path_extended (s s' : state) : Prop :=
  (forall key, key <> "LD_LIBRARY_PATH" -> environ s' !! key = environ s !! key)
  /\ exists suffix, library_path s' = library_path s ++ suffix.

(** The actions that may take a file or a link away *)
Definition removes (e : event) : option string :=
  match e with
  | Remove path => Some path
  | _ => None
  end.

(** The three pairs of a library link and of the file it is to point to *)
Definition library_links (w : world) (_site_packages_dir : string)
  : list (string * string) :=
  let j := Py.join_all (osp w) in
  [ (j _site_packages_dir ["tensorrt"; "libnvinfer_plugin.so.7"],
     j _site_packages_dir ["tensorrt"; "libnvinfer_plugin.so.8"]);
    (j _site_packages_dir ["tensorrt"; "libnvinfer.so.7"],
     j _site_packages_dir ["tensorrt"; "libnvinfer.so.8"]);
    (j _site_packages_dir ["nvidia"; "cuda_runtime"; "lib"; "libcudart.so.11.0"],
     j _site_packages_dir ["nvidia"; "cuda_runtime"; "lib"; "libcudart.so.12"]) ].

(** The files [setup_file_links] copies on Windows, as pairs of a source
    and a destination: the DLLs of [bitsandbytes_windows] go into the
    [bitsandbytes] directory of the site packages, [cextension.py] goes
    over the file of that name there and [main.py] over the one of
    [cuda_setup]. *)
Definition bitsandbytes_copy (w : world) (_site_packages_dir src dst : string) : Prop :=
  let j := Py.join_all (osp w) in
  let source := j (script_dir w) ["bitsandbytes_windows"] in
  let dest := j _site_packages_dir ["bitsandbytes"] in
  let cuda_dest := j _site_packages_dir ["bitsandbytes"; "cuda_setup"] in
  (exists file, Py.endswith file ".dll" = true /\ src = j source [file] /\ dst = dest)
  \/ (src = j source ["cextension.py"] /\ dst = j dest ["cextension.py"])
  \/ (src = j source ["main.py"] /\ dst = j cuda_dest ["main.py"]).

(** What [setup_file_links] may do.  It removes one of its three library
    links only, when that is a link and its new target is a file; it
    makes a link only from one of the three names to its target; on
    Windows, and there only, it makes the two [bitsandbytes] directories
    and copies into them; it does nothing else. *)
Definition link_action (w : world) (_site_packages_dir : string) (e : event) : Prop :=
  match e with
  | Remove path =>
      exists target, In (path, target) (library_links w _site_packages_dir)
                     /\ path_islink w path = true
                     /\ path_isfile w target = true
  | Symlink target link => In (link, target) (library_links w _site_packages_dir)
  | Makedirs path =>
      os_family w = "Windows"
      /\ (path = Py.join_all (osp w) _site_packages_dir ["bitsandbytes"]
          \/ path = Py.join_all (osp w) _site_packages_dir ["bitsandbytes"; "cuda_setup"])
  | Copy src dst =>
      os_family w = "Windows" /\ bitsandbytes_copy w _site_packages_dir src dst
  | _ => False
  end.

(** The GUI ends with a status other than zero. *)
Definition crashed_gui (e : event) : option exn :=
  match e with
  | Run (_ :: "/opt/kohya_ss/kohya_gui.py" :: _) => Some CalledProcessError
  | _ => None
  end.

(** How [launch_kohya_gui] ends for the way the GUI process ends *)
Definition launch_result (gui : option exn) : res unit :=
  match gui with
  | None => Ret tt
  | Some KeyboardInterrupt => Raise (SystemExit 0)
  | Some x => Raise x
  end.

(** The run of the examples with [--update] *)
Definition update_args : Launch.args :=
  {| Launch.branch := "master"; Launch.dir := "/opt/kohya_ss";
     Launch.git_repo := default_git_repo; Launch.interactive := false;
     Launch.log_dir := EmptyString; Launch.no_setup := false;
     Launch.repair := false; Launch.runpod := false; Launch.setup_only := false;
     Launch.skip_space_check := false; Launch.update := true;
     Launch.verbosity := 0; Launch.listen := "127.0.0.1";
     Launch.username := EmptyString; Launch.password := EmptyString;
     Launch.server_port := "0"; Launch.inbrowser := false; Launch.share := false |}.

(** What the script computes before it branches on [--no-setup], in a
    container and outside: [venv_python_bin], [sys.executable] and
    [site_packages_dir]. *)
Definition venv_python_bin_of (w : world) (_args : Launch.args)
    (python_bin : string) (contained : bool) : string :=
  if contained then python_bin
  else
    let venv_path := Py.path_join (osp w) (Launch.dir _args) "venv" in
    Py.path_join (osp w)
      (if negb (String.eqb (sys_platform w) "win32")
       then Py.path_join (osp w) venv_path "bin"
       else Py.path_join (osp w) venv_path "Scripts")
      python_bin.

Definition sys_executable_of (w : world) (original_sys_executable : string)
    (_args : Launch.args) (python_bin : string) (contained : bool) : string :=
  if contained then original_sys_executable
  else venv_python_bin_of w _args python_bin false.

Definition site_packages_dir_of (w : world) (_args : Launch.args)
    (python_bin : string) (contained : bool) : string :=
  if contained then
    if String.eqb (os_family w) "Windows"
    then Py.join_all (osp w) (Launch.dirname w python_bin) ["Lib"; "site-packages"]
    else Py.join_all (osp w) (Launch.dirname w python_bin)
           [".."; "lib"; "python" ++ "3.1"; "site-packages"]
  else
    Py.join_all (osp w) (Py.path_join (osp w) (Launch.dir _args) "venv")
      ["Lib"; "site-packages"].

(** [starts_up w st s _args python_bin contained s']: from [s], the steps
    of the script before the branch on [--no-setup] come through and
    leave the state [s']: the command line is read, the log directory is
    set, the two options do not exclude each other, the system is probed,
    a Python 3.10 interpreter [python_bin] is found and, outside a
    container, the virtual environment is created and its permissions are
    checked. *)
Definition starts_up (w : world) (st : Launch.steps) (s : state)
    (_args : Launch.args) (python_bin : string) (contained : bool)
    (s' : state) : Prop :=
  exists parsed l s1 s2 s3 s4,
    Launch.parse_command_line st s = (Ret parsed, s1)
    /\ Launch.configure_logging st parsed s1 = (Ret l, s2)
    /\ _args = Launch.set_log_dir parsed l
    /\ Launch.no_setup _args && Launch.setup_only _args = false
    /\ Launch.get_os_info st s2 = (Ret tt, s3)
    /\ Launch.find_python_binary st s3 = (Ret (Some python_bin), s4)
    /\ Py.truthy python_bin = true
    /\ Launch.python_is_3_10 st = true
    /\ Links.in_container w = Ret contained
    /\ if contained then s' = s4
       else exists s5 ok,
         Launch.create_venv st python_bin
           (Py.path_join (osp w) (Launch.dir _args) "venv") s4 = (Ret tt, s5)
         /\ Launch.check_permissions st (Launch.dir _args) s5 = (Ret ok, s').

(** The steps of [main]: up to the acquisition of the code, up to the
    installation of the requirements, and up to the start of the GUI. *)
Definition acquisition_starts (w : world) (st : Launch.steps) (_args : Launch.args)
    (s s' : state) : Prop :=
  Py.truthy (Launch.git_repo _args) = true
  /\ Py.truthy (Launch.dir _args) = true
  /\ Py.truthy (Launch.branch _args) = true
  /\ exists s1,
       Launch.check_and_create_install_folder st (Launch.dirname w (Launch.dir _args))
         (Launch.dir _args) s = (Ret tt, s1)
       /\ Launch.check_storage_space st (Launch.skip_space_check _args)
            (Launch.dir _args) (Launch.dirname w (Launch.dir _args)) s1 = (Ret tt, s').

Definition installation_starts (w : world) (st : Launch.steps) (_args : Launch.args)
    (s s' : state) : Prop :=
  exists s1 s2,
    acquisition_starts w st _args s s1
    /\ Acquire.update_kohya_ss w (Launch.dir _args) (Launch.git_repo _args)
         (Launch.branch _args) (Launch.update _args) s1 = (Ret true, s2)
    /\ Launch.brew_install_tensorflow_deps st (Launch.verbosity _args) s2
       = (Ret true, s').

Definition sets_up (w : world) (st : Launch.steps) (original_sys_executable : string)
    (_args : Launch.args) (python_bin : string) (contained : bool)
    (s s' : state) : Prop :=
  exists s1 s2 s3,
    installation_starts w st _args s s1
    /\ Deps.install_python_dependencies w
         (sys_executable_of w original_sys_executable _args python_bin contained)
         (Launch.verbosity _args) (Launch.now st) (Launch.dir _args)
         (Launch.runpod _args) (Launch.update _args) (Launch.repair _args)
         (Launch.interactive _args) (Launch.log_dir _args) s1 = (Ret tt, s2)
    /\ Links.setup_file_links w (site_packages_dir_of w _args python_bin contained)
         (Launch.runpod _args) s2 = (Ret tt, s3)
    /\ Launch.configure_accelerate st (Launch.interactive _args) s3 = (Ret tt, s').

(** What [launch_kohya_gui] looks for before it starts the GUI: outside
    a container the virtual environment and its interpreter, and in
    every case [kohya_gui.py]. *)
Definition gui_can_start (w : world) (_args : Launch.args) (contained : bool) : Prop :=
  (contained = false ->
   path_exists w (Py.path_join (osp w) (Launch.dir _args) "venv") = true
   /\ path_exists w
        (if negb (String.eqb (sys_platform w) "win32")
         then Py.join_all (osp w) (Py.path_join (osp w) (Launch.dir _args) "venv")
                ["bin"; "python"]
         else Py.join_all (osp w) (Py.path_join (osp w) (Launch.dir _args) "venv")
                ["Scripts"; "python.exe"]) = true)
  /\ path_exists w (Py.path_join (osp w) (Launch.dir _args) "kohya_gui.py") = true.

(** The operator presses control-c while pip runs, on a machine that has
    everything but the marker file of the installer. *)
Definition interrupted_pip (e : event) : option exn :=
  match e with
  | Run (_ :: "-m" :: "pip" :: _) => Some KeyboardInterrupt
  | _ => None
  end.

Definition unprovisioned (p : string) : bool := negb (String.eqb p marker_file).

(** A candidate of [find_python_binary] that is on the search path *)
Definition on_path (which : string -> option string) (binary : string) : bool :=
  match which binary with
  | Some p => Py.truthy p
  | None => false
  end.

(** The only commands of [find_python_binary]: a candidate on the search
    path, asked for its version *)
Definition asks_version (w : world) (which : string -> option string) (e : event) : Prop :=
  exists binary,
    e = Run [binary; "--version"]
    /\ In binary (Setup.possible_binaries w)
    /\ on_path which binary = true.

(** A machine on which only [python3] is installed, a Python 3.12 *)
Definition python3_only (binary : string) : option string :=
  if String.eqb binary "python3" then Some "/usr/bin/python3" else None.

Definition python_3_12_world : world :=
  {| os_family := "Ubuntu"; machine := "x86_64"; sys_platform := "linux";
     script_dir := "/opt/kohya_ss"; osp := Py.posixpath;
     path_exists := nothing; path_islink := nothing;
     path_isfile := nothing; path_isdir := nothing;
     path_realpath := fun p => p;
     os_listdir := fun _ => Ret [];
     read_lines := fun _ => Raise FileNotFoundError;
     path_abspath := fun p => p;
     home_dir := "/home/user";
     tmp_name := "/tmp/tmpzip"; tmp_dir := "/tmp/unzip";
     url_scheme := sample_scheme;
     url_hostname := fun _ => Some "github.com";
     check_output := fun argv =>
       match argv with
       | ["python3"; "--version"] => Ret ("Python 3.12.1" ++ Deps.newline)
       | _ => Raise CalledProcessError
       end;
     git_repo_open := fun _ => None;
     git_status := fun _ => Ret EmptyString;
     after_clone := fun _ l => l;
     http_response := fun _ => Ret sample_response;
     installed_modules := [];
     outcome := all_succeed |}.

(** A Mac on which the [brew] program is missing *)
Definition without_brew (e : event) : option exn :=
  match e with
  | Run ("brew" :: _) => Some FileNotFoundError
  | _ => None
  end.

Definition mac_world (failing : event -> option exn) : world :=
  {| os_family := "macOS"; machine := "arm64"; sys_platform := "darwin";
     script_dir := "/opt/kohya_ss"; osp := Py.posixpath;
     path_exists := nothing; path_islink := nothing;
     path_isfile := nothing; path_isdir := nothing;
     path_realpath := fun p => p;
     os_listdir := fun _ => Ret [];
     read_lines := fun _ => Raise FileNotFoundError;
     path_abspath := fun p => p;
     home_dir := "/Users/user";
     tmp_name := "/tmp/tmpzip"; tmp_dir := "/tmp/unzip";
     url_scheme := sample_scheme;
     url_hostname := fun _ => Some "github.com";
     check_output := fun _ => Raise CalledProcessError;
     git_repo_open := fun _ => None;
     git_status := fun _ => Ret EmptyString;
     after_clone := fun _ l => l;
     http_response := fun _ => Ret sample_response;
     installed_modules := [];
     outcome := failing |}.

(** What [configure_accelerate] may do: make a directory, copy its
    source file to a place where no file is, start a program that is
    there with the argument [config] *)
Definition accelerate_action (w : world) (source : string) (e : event) : Prop :=
  match e with
  | Makedirs _ => True
  | Copy src dst => src = source /\ path_isfile w dst = false
  | Run argv => exists program, argv = [program; "config"] /\ path_exists w program = true
  | _ => False
  end.

(** Joining paths with a slash, for the examples *)
Definition slash_path (parts : list string) : string := String.concat "/" parts.

(** The objects received after a sequence of calls of [update] *)
Definition after_updates (p : Progress.printer) (calls : list (Z * option Z))
  : Progress.printer :=
  fold_left (fun p call => fst (Progress.update p (fst call) (snd call))) calls p.

(** The first count of a sequence of calls that is a number other than
    zero *)
Definition first_total (calls : list (Z * option Z)) : option Z :=
  find (fun m => negb (m =? 0)) (omap snd calls).

(** A directory of logs in which the first two names of the second are
    taken *)
Definition two_logs_taken (path : string) : bool :=
  String.eqb path "/opt/kohya_ss/logs/2023-05-01/launcher_101500_error.log"
  || String.eqb path "/opt/kohya_ss/logs/2023-05-01/launcher_101500_1_error.log".

(** The path of the log file for a value of the counter *)
Definition log_path (w : world) (current_time_str : string) (log_level : Z)
    (date_subdir : string) (counter : Z) : string :=
  Py.path_join (osp w) date_subdir (Setup.log_filename current_time_str log_level counter).

(** The double quote, and a value between double quotes *)
Definition double_quote : string := String (ascii_of_nat 34) EmptyString.

Definition quoted (s : string) : string := double_quote ++ s ++ double_quote.

(** Strings made of the characters of a value of [/etc/os-release] *)
Fixpoint is_value (s : string) : bool :=
  match s with
  | EmptyString => true
  | String c s' => OS.value_char c && is_value s'
  end.

(** Nothing of the class follows: the text is at its end or goes on with
    a double quote or a newline. *)
Definition ends_value (rest : string) : bool :=
  match rest with
  | EmptyString => true
  | String c _ => negb (OS.value_char c)
  end.

(** The description of the system in [/etc/os-release], the version
    first, as newer releases of Ubuntu have it *)
Definition ubuntu_os_release : list string :=
  [ "PRETTY_NAME=" ++ quoted "Ubuntu 22.04.3 LTS" ++ Deps.newline;
    "NAME=" ++ quoted "Ubuntu" ++ Deps.newline;
    "VERSION_ID=" ++ quoted "22.04" ++ Deps.newline;
    "VERSION=" ++ quoted "22.04.3 LTS (Jammy Jellyfish)" ++ Deps.newline;
    "VERSION_CODENAME=jammy" ++ Deps.newline;
    "ID=ubuntu" ++ Deps.newline;
    "ID_LIKE=debian" ++ Deps.newline ].

(** That of Debian, which has no [ID_LIKE] *)
Definition debian_os_release : list string :=
  [ "PRETTY_NAME=" ++ quoted "Debian GNU/Linux 12 (bookworm)" ++ Deps.newline;
    "NAME=" ++ quoted "Debian GNU/Linux" ++ Deps.newline;
    "VERSION=" ++ quoted "12 (bookworm)" ++ Deps.newline;
    "ID=debian" ++ Deps.newline ].

Definition os_release_world (lines : list string) : world :=
  {| os_family := "Unknown"; machine := "x86_64"; sys_platform := "linux";
     script_dir := "/opt/kohya_ss"; osp := Py.posixpath;
     path_exists := fun p => String.eqb p "/etc/os-release";
     path_islink := nothing;
     path_isfile := nothing; path_isdir := nothing;
     path_realpath := fun p => p;
     os_listdir := fun _ => Ret [];
     read_lines := fun p => if String.eqb p "/etc/os-release" then Ret lines
                            else Raise FileNotFoundError;
     path_abspath := fun p => p;
     home_dir := "/home/user";
     tmp_name := "/tmp/tmpzip"; tmp_dir := "/tmp/unzip";
     url_scheme := sample_scheme;
     url_hostname := fun _ => Some "github.com";
     check_output := fun _ => Raise CalledProcessError;
     git_repo_open := fun _ => None;
     git_status := fun _ => Ret EmptyString;
     after_clone := fun _ l => l;
     http_response := fun _ => Ret sample_response;
     installed_modules := [];
     outcome := all_succeed |}.

(** [subprocess.getoutput] on the machine of the examples *)
Definition sample_getoutput (command : string) : res string :=
  Ret "Linux host 5.15.0 #1 SMP x86_64 GNU/Linux".

(** An option with a short name *)
Definition has_short (arg : Config.default_arg) : bool :=
  match Config.short arg with
  | Some short_opt => Py.truthy short_opt
  | None => false
  end.

(** The path module of the examples: a path is absolute when it begins
    with a slash, and is made absolute from the directory [/cwd]. *)
Definition sample_isabs (p : string) : bool := Py.startswith p "/".
Definition sample_abspath (p : string) : string := "/cwd/" ++ p.
Definition sample_expanduser (p : string) : string := p.

(** The option [--log-dir] with a default from the configuration *)
Definition log_dir_option : Config.default_arg :=
  {| Config.short := Some "-l"; Config.long := "--log-dir";
     Config.default := Config.VStr "logs";
     Config.help := "Override the default log directory."; Config.is_path := true |}.

(** An entry of the walk with nothing left to do: the file has all the
    bits required of it, or it is a file of the interpreter whose
    permissions the operating system does not let change. *)
Definition settled (osp : Py.os_path) (guess_type : string -> option string)
    (chmod_denied : string -> bool) (fs : gmap string Z)
    (entry : string * string) : Prop :=
  exists mode,
    fs !! fst entry = Some mode
    /\ (subset_bits (Perms.required_permissions guess_type (fst entry) (snd entry)) mode
        \/ (chmod_denied (fst entry) = true
            /\ Perms.outside_interpreter osp (fst entry) = false)).

(** The entries of a list of triples of the walk *)
Definition entries_of (osp : Py.os_path) (venv_directory : string)
    (triples : list (string * list string * list string)) : list (string * string) :=
  '(root, dirs, files) ← triples;
  if Perms.skipped_root osp venv_directory root then []
  else (fun file => (Py.path_join osp root file, file)) <$> files.

(** A virtual environment of two directories for the examples: the
    interpreter's, then a library's. *)
Definition two_dir_files : gmap string Z :=
  {[ "/opt/kohya_ss/venv/bin/python" := 33024;
     "/opt/kohya_ss/venv/bin/pip" := 33024;
     "/opt/kohya_ss/venv/lib/notes.txt" := 33024;
     "/opt/kohya_ss/venv/lib/other.txt" := 33024 ]}.

Definition two_dir_walk (_ : string) : list (string * list string * list string) :=
  [ ("/opt/kohya_ss/venv/bin", [], ["python"; "pip"]);
    ("/opt/kohya_ss/venv/lib", [], ["notes.txt"; "other.txt"]) ].

(** The operating system lets nobody change the interpreter and the
    notes. *)
Definition two_denied (path : string) : bool :=
  String.eqb path "/opt/kohya_ss/venv/bin/python"
  || String.eqb path "/opt/kohya_ss/venv/lib/notes.txt".

(** * Proofs *)

(** ** Verbosity *)

Section verbosity_facts.
Import Verbosity.

Ltac boolz :=
  repeat match goal with
    | H : (_ && _) = true |- _ => apply andb_true_iff in H; destruct H
    | H : (_ <=? _) = true |- _ => apply Z.leb_le in H
    | |- (_ || _) = false => apply orb_false_iff; split
    | |- (_ && _) = false => apply andb_false_iff
    | |- (_ =? _) = false => apply Z.eqb_neq
    | |- (_ <? _) = true => apply Z.ltb_lt
    end.

Lemma digit_not_space c : is_digit c = true -> Py.is_c_space c = false.
Proof.
  unfold is_digit, Py.is_c_space. intros H. lia.
Qed.

Lemma digit_value_digit c :
  is_digit c = true -> Py.digit_value c = Some (Py.code c - 48).
Proof. unfold is_digit, Py.digit_value. intros ->. reflexivity. Qed.

Lemma digit_not_char c d :
  is_digit c = true -> is_digit d = false -> Py.ascii_eqb c d = false.
Proof.
  intros Hc Hd. unfold Py.ascii_eqb.
  destruct (Ascii.eqb c d) eqn:E; [|reflexivity].
  apply Ascii.eqb_eq in E. subst. congruence.
Qed.

Lemma to_ascii_digits s :
  all_digits s = true -> Py.to_ascii s = Some (list_ascii_of_string s).
Proof.
  induction s as [|c s IH]; simpl; [reflexivity|].
  intros H. apply andb_true_iff in H as [Hc Hs].
  rewrite (IH Hs). unfold Py.to_ascii_char.
  replace (Py.code c <? 127) with true; [reflexivity|].
  symmetry. unfold is_digit in Hc. boolz. lia.
Qed.

Lemma scan_digits_all s acc nd :
  all_digits s = true ->
  Py.scan_digits (list_ascii_of_string s) acc nd false =
    Some (fold_left (fun acc c => 10 * acc + (Py.code c - 48))
                    (list_ascii_of_string s) acc,
          (nd + String.length s)%nat, []).
Proof.
  revert acc nd. induction s as [|c s IH]; intros acc nd H; simpl.
  - rewrite Nat.add_0_r. reflexivity.
  - apply andb_true_iff in H as [Hc Hs].
    rewrite (digit_not_char c "_" Hc eq_refl), (digit_value_digit c Hc).
    rewrite (IH _ _ Hs). do 2 f_equal. f_equal. lia.
Qed.

Lemma int_of_digits s :
  s <> EmptyString -> all_digits s = true -> Py.int s = Ret (decimal_value s).
Proof.
  intros Hne Hd. unfold Py.int. rewrite (to_ascii_digits s Hd).
  destruct s as [|c s]; [congruence|].
  pose proof Hd as Hd'. simpl in Hd'. apply andb_true_iff in Hd' as [Hc Hs].
  unfold Py.long_from_string. change (list_ascii_of_string (String c s))
    with (c :: list_ascii_of_string s).
  cbn [Py.skip_c_space]. rewrite (digit_not_space c Hc).
  rewrite (digit_not_char c "+" Hc eq_refl), (digit_not_char c "-" Hc eq_refl).
  rewrite (digit_not_char c "_" Hc eq_refl).
  change (c :: list_ascii_of_string s) with (list_ascii_of_string (String c s)).
  rewrite (scan_digits_all _ 0 0%nat Hd). simpl.
  unfold decimal_value. simpl. f_equal. destruct (fold_left _ _ _); reflexivity.
Qed.

Lemma long_from_string_minus l :
  Py.long_from_string ("-"%char :: l) =
    match l with
    | [] => None
    | c :: _ =>
        if Py.ascii_eqb c "_" then None
        else match Py.scan_digits l 0 0 false with
             | Some (v, S _, rest) =>
                 match Py.skip_c_space rest with
                 | [] => Some (-1 * v)
                 | _ :: _ => None
                 end
             | _ => None
             end
    end.
Proof. reflexivity. Qed.

Lemma int_of_minus_digits s :
  s <> EmptyString -> all_digits s = true ->
  Py.int (String "-" s) = Ret (- decimal_value s).
Proof.
  intros Hne Hd. unfold Py.int. cbn [Py.to_ascii].
  rewrite (to_ascii_digits s Hd).
  change (Py.to_ascii_char "-") with (Some "-"%char). cbn iota.
  rewrite long_from_string_minus.
  destruct s as [|c s]; [congruence|].
  pose proof Hd as Hd'. simpl in Hd'. apply andb_true_iff in Hd' as [Hc Hs].
  rewrite (scan_digits_all _ 0 0%nat Hd).
  change (list_ascii_of_string (String c s)) with (c :: list_ascii_of_string s).
  cbn iota. rewrite (digit_not_char c "_" Hc eq_refl).
  simpl. unfold decimal_value. simpl. f_equal.
Qed.

Lemma fold_digits_nonneg s acc :
  0 <= acc -> all_digits s = true ->
  0 <= fold_left (fun acc c => 10 * acc + (Py.code c - 48))
                 (list_ascii_of_string s) acc.
Proof.
  revert acc. induction s as [|c s IH]; simpl; intros acc Ha H; [exact Ha|].
  apply andb_true_iff in H as [Hc Hs]. apply IH; [|exact Hs].
  unfold is_digit in Hc. lia.
Qed.

Lemma decimal_value_nonneg s : all_digits s = true -> 0 <= decimal_value s.
Proof. apply fold_digits_nonneg. lia. Qed.

Lemma int_of_v_string n : exists msg, Py.int (v_string n) = Raise (ValueError msg).
Proof.
  unfold Py.int.
  assert (A : Py.to_ascii (v_string n) = Some (list_ascii_of_string (v_string n))).
  { induction n as [|n IH]; simpl; [reflexivity|]. rewrite IH. reflexivity. }
  rewrite A. destruct n as [|n]; simpl; eexists; reflexivity.
Qed.

Lemma search_v_string n : re_search_not_v (v_string n) = false.
Proof. induction n as [|n IH]; simpl; [reflexivity | exact IH]. Qed.

Lemma count_v_string n : Py.count "v" (v_string n ++ "v") = Z.of_nat n + 1.
Proof.
  induction n as [|n IH]; [reflexivity|].
  change (v_string (S n) ++ "v") with (String "v" (v_string n ++ "v")).
  cbn [Py.count]. rewrite IH. change (Py.ascii_eqb "v" "v") with true. lia.
Qed.
End verbosity_facts.

Lemma search_not_v_false s :
  Verbosity.re_search_not_v s = false -> s = v_string (String.length s).
Proof.
  induction s as [|c s IH]; simpl; [reflexivity|].
  intros H. apply orb_false_iff in H as [Hc Hs].
  apply negb_false_iff in Hc. apply Ascii.eqb_eq in Hc. subst c.
  f_equal. exact (IH Hs).
Qed.

(** C2, as stated, fails: the value [vvv] is stored as 4, not 3, and a
    signed, padded literal with an underscore is accepted. *)
Lemma verbosity_vvv_is_not_three :
  Verbosity.CountOccurrencesAction_call (Some "vvv") = Ret 4
  /\ Verbosity.CountOccurrencesAction_call (Some "vvv") <> Ret 3
  /\ Verbosity.CountOccurrencesAction_call (Some " +1_0 ") = Ret 10.
Proof. repeat split; [discriminate]. Qed.

(** C2, as amended: a string of decimal digits yields its value; the
    string of N letters v yields N + 1; a minus sign before the digits of a
    positive number leads to [exit(1)]; more generally a string that
    [int] reads yields its value when that is not negative and [exit(1)]
    when it is; and a string that [int] does not read and that has a
    character other than v leads to [exit(1)]. *)
Theorem verbosity_count_of_value :
  (forall s, s <> EmptyString -> all_digits s = true ->
     Verbosity.CountOccurrencesAction_call (Some s) = Ret (decimal_value s))
  /\ (forall n,
     Verbosity.CountOccurrencesAction_call (Some (v_string n)) = Ret (Z.of_nat n + 1))
  /\ (forall s, s <> EmptyString -> all_digits s = true -> 0 < decimal_value s ->
     Verbosity.CountOccurrencesAction_call (Some (String "-" s)) = py_exit 1)
  /\ (forall s n, Py.int s = Ret n ->
     Verbosity.CountOccurrencesAction_call (Some s)
       = if n <? 0 then py_exit 1 else Ret n)
  /\ (forall s e, Py.int s = Raise e -> Verbosity.re_search_not_v s = true ->
     Verbosity.CountOccurrencesAction_call (Some s) = py_exit 1).
Proof.
  unfold Verbosity.CountOccurrencesAction_call, Verbosity.parse_count.
  split; [|split; [|split; [|split]]].
  - intros s Hne Hd. rewrite (int_of_digits s Hne Hd). cbn.
    pose proof (decimal_value_nonneg s Hd).
    destruct (Z.ltb_spec (decimal_value s) 0); [lia | reflexivity].
  - intros n. destruct (int_of_v_string n) as [msg ->].
    rewrite search_v_string, count_v_string. cbn.
    destruct (Z.ltb_spec (Z.of_nat n + 1) 0); [lia | reflexivity].
  - intros s Hne Hd Hpos. rewrite (int_of_minus_digits s Hne Hd). cbn.
    destruct (Z.ltb_spec (- decimal_value s) 0); [reflexivity | lia].
  - intros s n ->. reflexivity.
  - intros s e He Hs. rewrite He, Hs.
    unfold Py.int in He.
    destruct (Py.to_ascii s) as [l|]; [destruct (Py.long_from_string l)|];
      inversion He; reflexivity.
Qed.

Lemma verbosity_count_of_value_witness :
  Verbosity.CountOccurrencesAction_call (Some "12") = Ret 12
  /\ Verbosity.CountOccurrencesAction_call (Some "vv") = Ret 3
  /\ Verbosity.CountOccurrencesAction_call (Some "-3") = py_exit 1
  /\ Verbosity.CountOccurrencesAction_call (Some "+7") = Ret 7
  /\ Verbosity.CountOccurrencesAction_call (Some "loud") = py_exit 1.
Proof.
  destruct verbosity_count_of_value as (A & B & C & D & E).
  split; [|split; [|split; [|split]]].
  - apply (A "12"); [discriminate | reflexivity].
  - apply (B 2%nat).
  - apply (C "3"); [discriminate | reflexivity | reflexivity].
  - apply (D "+7" 7). reflexivity.
  - apply (E "loud" (ValueError "invalid literal for int() with base 10"));
      reflexivity.
Defined.

(** ** Configuration files *)

(** A file merged later adds the sections that are not there yet and
    leaves the others as they are. *)
Lemma merge_file_lookup read_yaml location (d d' : gmap string (list Config.setting)) k :
  Config.merge_file read_yaml location d = Ret d' ->
  d' !! k = match d !! k with
            | Some v => Some v
            | None =>
                match read_yaml location with
                | Ret (Config.DocMap m) => m !! k
                | _ => None
                end
            end.
Proof.
  unfold Config.merge_file.
  destruct (read_yaml location) as [doc|e].
  - destruct doc as [|m|t]; cbn.
    + intros [= <-]. destruct (d !! k); reflexivity.
    + case_bool_decide as Hm; cbn.
      * intros [= <-]. subst m. rewrite lookup_empty. destruct (d !! k); reflexivity.
      * intros [= <-]. destruct (d !! k) as [v|] eqn:E.
        -- apply lookup_union_Some_l. exact E.
        -- apply lookup_union_r. exact E.
    + destruct t; cbn; [discriminate|]. intros [= <-]. destruct (d !! k); reflexivity.
  - destruct e; try discriminate. intros [= <-]. destruct (d !! k); reflexivity.
Qed.

Lemma merge_file_keeps read_yaml location (d d' : gmap string (list Config.setting)) k v :
  Config.merge_file read_yaml location d = Ret d' ->
  d !! k = Some v -> d' !! k = Some v.
Proof. intros H E. rewrite (merge_file_lookup _ _ _ _ k H), E. reflexivity. Qed.

Lemma merge_files_keeps read_yaml locations (d d' : gmap string (list Config.setting)) k v :
  Config.merge_files read_yaml locations d = Ret d' ->
  d !! k = Some v -> d' !! k = Some v.
Proof.
  revert d. induction locations as [|location rest IH]; intros d; cbn.
  - intros [= <-] E. exact E.
  - destruct (Config.merge_file read_yaml location d) as [d1|e] eqn:M; [|discriminate].
    cbn. intros H E. apply (IH d1 H). exact (merge_file_keeps _ _ _ _ _ _ M E).
Qed.

(** What [load_config] does with a section that several files define: the
    first file loaded that defines it decides, and the user-specified file,
    loaded last, decides nothing that a file of the search path defines. *)
Lemma load_config_first_file_decides platform osp script_dir environ read_yaml
    location rest m (_config_file : option string) d k v :
  Config.config_file_locations platform osp script_dir environ = location :: rest ->
  read_yaml location = Ret (Config.DocMap m) ->
  m !! k = Some v ->
  Config.load_config platform osp script_dir environ read_yaml _config_file = Ret d ->
  exists c, d = Some c /\ c !! k = Some v.
Proof.
  intros Hloc Hread Hk. unfold Config.load_config. rewrite Hloc.
  cbn [Config.merge_files].
  destruct (Config.merge_file read_yaml location ∅) as [d1|] eqn:M1; [|discriminate].
  pose proof (merge_file_lookup _ _ _ _ k M1) as L1.
  rewrite lookup_empty, Hread, Hk in L1. cbn.
  destruct (Config.merge_files read_yaml rest d1) as [d2|] eqn:M2; [|discriminate].
  pose proof (merge_files_keeps _ _ _ _ _ _ M2 L1) as L2. cbn.
  assert (L3 : forall d3,
            match _config_file with
            | Some f => Config.merge_file read_yaml f d2
            | None => Ret d2
            end = Ret d3 -> d3 !! k = Some v).
  { intros d3. destruct _config_file as [f|].
    - intros M3. exact (merge_file_keeps _ _ _ _ _ _ M3 L2).
    - intros [= <-]. exact L2. }
  destruct (match _config_file with Some f => _ | None => _ end) as [d3|];
    [|discriminate].
  specialize (L3 d3 eq_refl). cbn. intros [= <-].
  case_bool_decide as E.
  - subst d3. rewrite lookup_empty in L3. discriminate.
  - exists d3. split; [reflexivity | exact L3].
Qed.

(** C1 on an input where it fails: three files set the branch, the one
    shipped with the script (first in the search path) to [release], the
    one in the home directory (second) to [dev], the one given with
    [--file] to [mine]; the default of [--branch] becomes [release]. *)
Theorem explicit_config_file_is_overridden :
  configured_default "linux" Py.posixpath "/opt/kohya_ss"
    {[ "HOME" := "/home/user" ]} sample_files (Some "/home/user/mine.yml") "--branch"
  = Ret (Some (Config.VStr "release"))
  /\ Config.config_file_locations "linux" Py.posixpath "/opt/kohya_ss"
       {[ "HOME" := "/home/user" ]}
     = [ "/opt/kohya_ss/config_files/installation/install_config.yml";
         "/home/user/.kohya_ss/install_config.yml";
         "/opt/kohya_ss/install_config.yml" ].
Proof. split; vm_compute; reflexivity. Qed.

(** ** Rules for the trace *)

Section emits_rules.
Context (P : event -> Prop).

Lemma emits_ret {A} (a : A) : emits P (ret a).
Proof. intros s. exists []. rewrite app_nil_r. split; [reflexivity | constructor]. Qed.

Lemma emits_raise {A} e : emits P (@raise A e).
Proof. intros s. exists []. rewrite app_nil_r. split; [reflexivity | constructor]. Qed.

Lemma emits_lift {A} (r : res A) : emits P (lift r).
Proof. intros s. exists []. rewrite app_nil_r. split; [reflexivity | constructor]. Qed.

Lemma emits_get_state : emits P get_state.
Proof. intros s. exists []. rewrite app_nil_r. split; [reflexivity | constructor]. Qed.

Lemma emits_set_listing l : emits P (set_listing l).
Proof. intros s. exists []. rewrite app_nil_r. split; [reflexivity | constructor]. Qed.

Lemma emits_set_environ k v : emits P (set_environ k v).
Proof. intros s. exists []. rewrite app_nil_r. split; [reflexivity | constructor]. Qed.

Lemma emits_emit e : P e -> emits P (emit e).
Proof. intros He s. exists [e]. split; [reflexivity | repeat constructor; exact He]. Qed.

Lemma emits_bind {A B} (m : Prog A) (k : A -> Prog B) :
  emits P m -> (forall a, emits P (k a)) -> emits P (bind m k).
Proof.
  intros Hm Hk s. unfold bind. destruct (Hm s) as (evs & E & F).
  destruct (m s) as [[a|e] s1]; simpl in E.
  - destruct (Hk a s1) as (evs' & E' & F'). exists (evs ++ evs')%list.
    rewrite E', E, app_assoc. split; [reflexivity | apply Forall_app; auto].
  - exists evs. auto.
Qed.

Lemma emits_try_except {A} (m : Prog A) h :
  emits P m ->
  (forall e, match h e with Some k => emits P k | None => True end) ->
  emits P (try_except m h).
Proof.
  intros Hm Hh s. unfold try_except. destruct (Hm s) as (evs & E & F).
  destruct (m s) as [[a|e] s1]; simpl in E.
  - exists evs. auto.
  - specialize (Hh e). destruct (h e) as [k|].
    + destruct (Hh s1) as (evs' & E' & F'). exists (evs ++ evs')%list.
      rewrite E', E, app_assoc. split; [reflexivity | apply Forall_app; auto].
    + exists evs. auto.
Qed.

Lemma emits_act w e : P e -> emits P (act w e).
Proof.
  intros He. unfold act. apply emits_bind; [apply emits_emit, He|].
  intros _. destruct (outcome w e); [apply emits_raise | apply emits_ret].
Qed.

Lemma emits_when b m : emits P m -> emits P (when b m).
Proof. intros H. destruct b; [exact H | apply emits_ret]. Qed.

Lemma emits_for_each {A} (l : list A) body :
  (forall x, emits P (body x)) -> emits P (for_each l body).
Proof.
  intros H. induction l as [|x l IH]; simpl; [apply emits_ret|].
  apply emits_bind; [apply H | intros _; exact IH].
Qed.

Lemma emits_input text : P (Prompt text) -> emits P (input text).
Proof.
  intros H. unfold input. apply emits_bind; [apply emits_emit, H|].
  intros _ s. exists []. rewrite app_nil_r.
  destruct (stdin s); split; try reflexivity; constructor.
Qed.
End emits_rules.

Lemma emits_performed {A} P (m : Prog A) s :
  emits P m -> Forall P (performed m s).
Proof.
  intros H. destruct (H s) as (evs & E & F). unfold performed.
  rewrite E, drop_app_length. exact F.
Qed.

Lemma performed_spec {A} (m : Prog A) s evs :
  trace (snd (m s)) = (trace s ++ evs)%list -> performed m s = evs.
Proof. intros E. unfold performed. rewrite E. apply drop_app_length. Qed.

Lemma emits_weaken {A} (P Q : event -> Prop) (m : Prog A) :
  (forall e, P e -> Q e) -> emits P m -> emits Q m.
Proof.
  intros H Hm s. destruct (Hm s) as (evs & E & F). exists evs. split; [exact E|].
  eapply Forall_impl; eauto.
Qed.

(** The actions of [m ; k]: those of [m], then those of [k]. *)
Lemma performed_bind {A B} P (m : Prog A) (k : A -> Prog B) s :
  emits P m -> (forall a, emits P (k a)) ->
  performed (bind m k) s =
    (performed m s ++
     match m s with
     | (Ret a, s1) => performed (k a) s1
     | (Raise _, _) => []
     end)%list.
Proof.
  intros Hm Hk. destruct (Hm s) as (evs & E & _).
  rewrite (performed_spec m s evs E).
  unfold bind. destruct (m s) as [[a|e] s1] eqn:M; simpl in E.
  - destruct (Hk a s1) as (evs' & E' & _). rewrite (performed_spec _ _ _ E').
    apply performed_spec. rewrite M, E', E, app_assoc. reflexivity.
  - apply performed_spec. rewrite M, app_nil_r. exact E.
Qed.

(** One step of a proof of [emits]: the rule of the program's head. *)
Ltac emits_step :=
  lazymatch goal with
  | |- emits _ (ret _) => apply emits_ret
  | |- emits _ (raise _) => apply emits_raise
  | |- emits _ (lift _) => apply emits_lift
  | |- emits _ get_state => apply emits_get_state
  | |- emits _ (set_listing _) => apply emits_set_listing
  | |- emits _ (set_environ _ _) => apply emits_set_environ
  | |- emits _ (emit _) => apply emits_emit
  | |- emits _ (act _ _) => apply emits_act
  | |- emits _ (input _) => apply emits_input
  | |- emits _ (when _ _) => apply emits_when
  | |- emits _ (for_each _ _) => apply emits_for_each; intros
  | |- emits _ (bind _ _) => apply emits_bind; [|intros]
  | |- emits _ (try_except _ _) =>
      apply emits_try_except;
      [|let e := fresh "e" in intros e; destruct e; cbn; try exact I]
  | |- emits _ (if ?b then _ else _) => destruct b
  | |- emits _ (match ?x with _ => _ end) => destruct x
  | |- emits _ (let '(_, _) := ?x in _) => destruct x
  end.

Ltac emits_steps := repeat first [emits_step | exact I | reflexivity].

(** A program that begins by recording [e] and goes on as [m'] performs
    [e] first. *)
Lemma performed_after {A} P (m m' : Prog A) e s :
  m s = m' (add_event s e) -> emits P m' ->
  exists rest, performed m s = e :: rest.
Proof.
  intros E H. destruct (H (add_event s e)) as (rest & T & _).
  exists rest. apply performed_spec. rewrite E, T.
  cbn [add_event trace]. rewrite <- app_assoc. reflexivity.
Qed.

(** An action that succeeds only leaves its record. *)
Lemma act_succeeds w e s : outcome w e = None -> act w e s = (Ret tt, add_event s e).
Proof. intros H. unfold act, bind, emit, ret. cbn. rewrite H. reflexivity. Qed.

Lemma add_events_app s evs1 evs2 :
  add_events s (evs1 ++ evs2) = add_events (add_events s evs1) evs2.
Proof. unfold add_events. apply fold_left_app. Qed.

Lemma add_events_cons s e evs : add_events s (e :: evs) = add_events (add_event s e) evs.
Proof. reflexivity. Qed.

Lemma trace_add_events s evs : trace (add_events s evs) = (trace s ++ evs)%list.
Proof.
  revert s. induction evs as [|e evs IH]; intros s.
  - cbn. rewrite app_nil_r. reflexivity.
  - rewrite add_events_cons, IH. cbn [add_event trace].
    rewrite <- app_assoc. reflexivity.
Qed.

Lemma add_events_unfold s evs :
  add_events s evs
  = {| environ := environ s; listing := listing s; stdin := stdin s;
       trace := (trace s ++ evs)%list |}.
Proof.
  revert s. induction evs as [|e evs IH]; intros s.
  - cbn. rewrite app_nil_r. destruct s; reflexivity.
  - rewrite add_events_cons, IH. cbn [add_event environ listing stdin trace].
    rewrite <- app_assoc. reflexivity.
Qed.

Lemma performed_add_events {A} (m : Prog A) s r evs :
  m s = (r, add_events s evs) -> performed m s = evs.
Proof. intros E. apply performed_spec. rewrite E. apply trace_add_events. Qed.

(** A loop whose every round succeeds and leaves the actions [f x] *)
Lemma for_each_runs {A} (f : A -> list event) (body : A -> Prog unit) l s :
  (forall x s, body x s = (Ret tt, add_events s (f x))) ->
  for_each l body s = (Ret tt, add_events s (concat (f <$> l))).
Proof.
  intros H. revert s. induction l as [|x l IH]; intros s; [reflexivity|].
  cbn [for_each]. unfold bind. rewrite H, IH.
  cbn [fmap list_fmap concat]. rewrite add_events_app. reflexivity.
Qed.

(** Rules for [begins] *)
Lemma begins_any {A} (m : Prog A) s : emits anything m -> begins [] m s.
Proof. intros H. destruct (H s) as (evs & E & _). exists evs. exact E. Qed.

Lemma begins_bind {A B} pre1 pre2 (m : Prog A) (k : A -> Prog B) a s :
  m s = (Ret a, add_events s pre1) ->
  begins pre2 (k a) (add_events s pre1) ->
  begins (pre1 ++ pre2) (bind m k) s.
Proof.
  intros E [rest T]. exists rest. unfold bind. rewrite E, T, trace_add_events.
  rewrite <- !app_assoc. reflexivity.
Qed.

Lemma begins_skip {A B} pre (m : Prog A) (k : A -> Prog B) a s :
  m s = (Ret a, s) -> begins pre (k a) s -> begins pre (bind m k) s.
Proof. intros E H. apply (begins_bind [] pre m k a s); assumption. Qed.

Lemma begins_then {A B} pre (m : Prog A) (k : A -> Prog B) a s :
  m s = (Ret a, add_events s pre) -> emits anything (k a) -> begins pre (bind m k) s.
Proof.
  intros E H. rewrite <- (app_nil_r pre).
  apply (begins_bind pre [] m k a s); [exact E | apply begins_any, H].
Qed.

Lemma begins_left {A B} pre (m : Prog A) (k : A -> Prog B) s :
  begins pre m s -> (forall a, emits anything (k a)) -> begins pre (bind m k) s.
Proof.
  intros [rest T] H. unfold begins, bind.
  destruct (m s) as [[a|e] s1] eqn:E; cbn [snd] in T.
  - destruct (H a s1) as (evs & T2 & _). exists (rest ++ evs)%list.
    rewrite T2, T, <- !app_assoc. reflexivity.
  - exists rest. exact T.
Qed.

Lemma begins_try_except {A} pre (m : Prog A) h s :
  begins pre m s ->
  (forall e, match h e with Some k => emits anything k | None => True end) ->
  begins pre (try_except m h) s.
Proof.
  intros [rest T] Hh. unfold begins, try_except.
  destruct (m s) as [[a|e] s1] eqn:E; cbn [snd] in T.
  - exists rest. exact T.
  - specialize (Hh e). destruct (h e) as [k|].
    + destruct (Hh s1) as (evs & T2 & _). exists (rest ++ evs)%list.
      rewrite T2, T, <- !app_assoc. reflexivity.
    + exists rest. exact T.
Qed.

Lemma begins_performed {A} pre (m : Prog A) s :
  begins pre m s -> exists rest, performed m s = (pre ++ rest)%list.
Proof. intros [rest T]. exists rest. apply performed_spec. exact T. Qed.

(** ** Acquisition *)


Section acquire_offline.
Import Acquire.

Lemma emits_state_reader {A} P (f : state -> A) :
  emits P (fun s => (Ret (f s), s)).
Proof. intros s. exists []. rewrite app_nil_r. split; [reflexivity | constructor]. Qed.

Lemma emits_listdir_install P : emits P listdir_install.
Proof.
  intros s. exists []. rewrite app_nil_r. unfold listdir_install.
  destruct (listing s); split; try reflexivity; constructor.
Qed.

Lemma emits_install_has P name : emits P (install_has name).
Proof. apply emits_state_reader. Qed.

Lemma emits_install_isdir P : emits P install_isdir.
Proof. apply emits_state_reader. Qed.

Ltac offline_steps :=
  repeat first
    [ apply emits_listdir_install | apply emits_install_has
    | apply emits_install_isdir | emits_step | reflexivity ].

Lemma emits_catching {A} P (m : Prog A) : emits P m -> emits P (catching m).
Proof.
  intros H. unfold catching. apply emits_try_except.
  - apply emits_bind; [exact H | intros; apply emits_ret].
  - intros e. destruct (is_Exception e); [apply emits_ret | exact I].
Qed.

Lemma offline_is_git_installed w : emits offline (is_git_installed w).
Proof. unfold is_git_installed. cbn. offline_steps. Qed.

Lemma offline_find_ssh_private_key_path w r :
  emits offline (find_ssh_private_key_path w r).
Proof. unfold find_ssh_private_key_path. offline_steps. Qed.

Lemma offline_git_credentials_for w r u p :
  emits offline (git_credentials_for w r u p).
Proof.
  unfold git_credentials_for. offline_steps.
  apply offline_find_ssh_private_key_path.
Qed.

Lemma offline_has_uncommitted_changes w d :
  emits offline (has_uncommitted_changes w d).
Proof. unfold has_uncommitted_changes. offline_steps. Qed.

Lemma offline_git_operations w d r b u us pw :
  emits offline (git_operations_with_credentials w d r b u us pw).
Proof.
  unfold git_operations_with_credentials, remove_entry, add_entry.
  apply emits_bind; [apply emits_install_has | intros gp].
  apply emits_bind; [apply emits_install_has | intros vp].
  apply emits_bind; [apply offline_git_credentials_for | intros cr].
  apply emits_try_except.
  - offline_steps; try apply offline_has_uncommitted_changes; offline_steps.
    all: match goal with |- offline (match ?c with _ => _ end) => destruct c end;
      reflexivity.
  - intros e. destruct e; cbn; try exact I; try destruct (Py.contains _ _);
      offline_steps.
Qed.

Lemma offline_attempts w d r b u n us pw :
  emits offline (attempts w d r b u n us pw).
Proof.
  revert us pw. induction n as [|n IH]; intros us pw; simpl; [apply emits_ret|].
  apply emits_bind; [apply emits_catching, offline_git_operations | intros x].
  destruct x as [[[success error_type]|]|e]; try apply emits_ret.
  destruct success; [apply emits_ret|].
  repeat (case_bool_decide; try apply emits_ret).
  apply emits_bind; [apply emits_catching, emits_input; reflexivity | intros x].
  destruct x; [|apply emits_ret].
  apply emits_bind; [apply emits_catching, emits_input; reflexivity | intros y].
  destruct y; [apply IH | apply emits_ret].
Qed.

Lemma offline_git_phase w d r b u : emits offline (git_phase w d r b u).
Proof.
  unfold git_phase.
  apply emits_bind; [apply offline_is_git_installed | intros g].
  destruct g; [|apply emits_ret].
  apply emits_bind; [apply emits_install_isdir | intros i].
  destruct i; [apply offline_attempts | apply emits_ret].
Qed.

Ltac any_steps :=
  repeat first
    [ apply emits_listdir_install | apply emits_install_has
    | apply emits_install_isdir | emits_step | exact I ].

Lemma emits_get_latest_tag w r : emits anything (get_latest_tag w r).
Proof. unfold get_latest_tag. any_steps. Qed.

Lemma emits_unpack_release w d r : emits anything (unpack_release w d r).
Proof. unfold unpack_release. any_steps. Qed.

Lemma emits_download_release w d r us pw :
  emits anything (download_release w d r us pw).
Proof.
  unfold download_release.
  apply emits_bind; [apply emits_get_latest_tag | intros tag].
  any_steps. apply emits_unpack_release.
Qed.

Lemma directory_allows_run update s :
  directory_allows update s =
    (if update then Ret true
     else match listing s with
          | None => Raise FileNotFoundError
          | Some l => Ret ((length l =? 0)%nat
                           || ((length l =? 1)%nat && bool_decide ("venv" ∈ l)))
          end, s).
Proof.
  unfold directory_allows. destruct update; [reflexivity|].
  unfold bind, listdir_install, install_has, ret.
  destruct (listing s) as [l|] eqn:L; [|reflexivity].
  destruct (length l =? 0)%nat; [reflexivity|]. rewrite L.
  destruct (length l =? 1)%nat; [rewrite L|]; reflexivity.
Qed.

Lemma emits_archive_fallback w d r b u us pw :
  emits anything (archive_fallback w d r b u us pw).
Proof.
  unfold archive_fallback, directory_allows.
  any_steps; apply emits_download_release.
Qed.

Lemma only_venv (l : list string) :
  (length l =? 1)%nat && bool_decide ("venv" ∈ l) = true -> l = ["venv"].
Proof.
  intros H. apply andb_true_iff in H as [H1 H2].
  apply Nat.eqb_eq in H1. apply bool_decide_eq_true in H2.
  destruct l as [|x [|y l]]; try discriminate.
  apply list_elem_of_singleton in H2. congruence.
Qed.

Lemma length_zero_nil {A} (l : list A) : (length l =? 0)%nat = true -> l = [].
Proof. destruct l; [reflexivity | discriminate]. Qed.

Lemma truthy_false s : Py.truthy s = false -> s = EmptyString.
Proof.
  unfold Py.truthy. intros H. apply negb_false_iff in H.
  apply String.eqb_eq in H. exact H.
Qed.
End acquire_offline.


Lemma performed_unchanged {A} (m : Prog A) s r :
  m s = (r, s) -> performed m s = [].
Proof. intros E. apply performed_spec. rewrite E, app_nil_r. reflexivity. Qed.

Lemma fallback_tail_closed s :
  exists r,
    bind Acquire.listdir_install
      (fun entries => if (1 <? length entries)%nat then ret false else ret false) s
    = (r, s) /\ r <> Ret true.
Proof.
  unfold bind, Acquire.listdir_install.
  destruct (listing s) as [l|]; [destruct (1 <? length l)%nat|];
    eexists; (split; [reflexivity | discriminate]).
Qed.

(** The fallback behind a closed gate: nothing is done. *)
Lemma archive_fallback_closed w _dir git_repo branch update username password s :
  (match Acquire.directory_allows update s with
   | (Ret dir_ok, _) =>
       dir_ok
       && (negb (Py.truthy branch) || String.eqb branch "master")
       && (negb (Py.truthy git_repo)
           || Py.startswith git_repo Acquire.default_repo_prefix)
   | _ => false
   end) = false ->
  exists r,
    Acquire.archive_fallback w _dir git_repo branch update username password s = (r, s)
    /\ r <> Ret true.
Proof.
  unfold Acquire.archive_fallback. unfold bind at 1.
  rewrite directory_allows_run.
  destruct update.
  - intros ->. cbn [andb].
    destruct (negb (Py.startswith _ _)); [|apply fallback_tail_closed].
    eexists; (split; [reflexivity | discriminate]).
  - destruct (listing s) as [l|] eqn:L.
    + intros ->. cbn [andb]. apply fallback_tail_closed.
    + intros _. eexists; (split; [reflexivity | discriminate]).
Qed.

Lemma gate_open_conditions git_repo branch update s :
  (match Acquire.directory_allows update s with
   | (Ret dir_ok, _) =>
       dir_ok
       && (negb (Py.truthy branch) || String.eqb branch "master")
       && (negb (Py.truthy git_repo)
           || Py.startswith git_repo Acquire.default_repo_prefix)
   | _ => false
   end) = true ->
  (git_repo = EmptyString \/ Py.startswith git_repo Acquire.default_repo_prefix = true)
  /\ (branch = EmptyString \/ branch = "master")
  /\ (update = true \/ listing s = Some [] \/ listing s = Some ["venv"]).
Proof.
  rewrite directory_allows_run. intros H.
  assert (G : exists dir_ok,
    (if update then Ret true
     else match listing s with
          | Some l => Ret ((length l =? 0)%nat
                           || (length l =? 1)%nat && bool_decide ("venv" ∈ l))
          | None => Raise FileNotFoundError
          end) = Ret dir_ok
    /\ dir_ok = true
    /\ (negb (Py.truthy branch) || String.eqb branch "master") = true
    /\ (negb (Py.truthy git_repo)
        || Py.startswith git_repo Acquire.default_repo_prefix) = true).
  { destruct (if update then _ else _) as [dir_ok|]; [|discriminate].
    exists dir_ok. apply andb_true_iff in H as [H H3].
    apply andb_true_iff in H as [H1 H2]. auto. }
  destruct G as (dir_ok & E & -> & Hb & Hr). repeat split.
  - apply orb_true_iff in Hr as [Hr|Hr]; [left | right; exact Hr].
    apply negb_true_iff in Hr. exact (truthy_false _ Hr).
  - apply orb_true_iff in Hb as [Hb|Hb]; [left | right].
    + apply negb_true_iff in Hb. exact (truthy_false _ Hb).
    + apply String.eqb_eq in Hb. exact Hb.
  - destruct update; [left; reflexivity | right].
    destruct (listing s) as [l|]; [|discriminate].
    injection E as E. apply orb_true_iff in E as [E|E].
    + left. f_equal. exact (length_zero_nil l E).
    + right. f_equal. exact (only_venv l E).
Qed.

Lemma in_performed_archive_fallback w _dir git_repo branch update username password s e :
  In e (performed (Acquire.archive_fallback w _dir git_repo branch update
                     username password) s) ->
  (git_repo = EmptyString \/ Py.startswith git_repo Acquire.default_repo_prefix = true)
  /\ (branch = EmptyString \/ branch = "master")
  /\ (update = true \/ listing s = Some [] \/ listing s = Some ["venv"]).
Proof.
  intros Hin.
  destruct (match Acquire.directory_allows update s with
            | (Ret dir_ok, _) =>
                dir_ok
                && (negb (Py.truthy branch) || String.eqb branch "master")
                && (negb (Py.truthy git_repo)
                    || Py.startswith git_repo Acquire.default_repo_prefix)
            | _ => false
            end) eqn:G.
  - exact (gate_open_conditions _ _ _ _ G).
  - destruct (archive_fallback_closed w _dir git_repo branch update username password s G)
      as (r & E & _).
    rewrite (performed_unchanged _ _ _ E) in Hin. destruct Hin.
Qed.

Lemma archive_fallback_other_source w _dir git_repo branch update username password s :
  git_repo <> EmptyString ->
  Py.startswith git_repo Acquire.default_repo_prefix = false ->
  listing s <> None ->
  Acquire.archive_fallback w _dir git_repo branch update username password s
    = (Ret false, s).
Proof.
  intros Hne Hp Hl.
  assert (T : Py.truthy git_repo = true).
  { unfold Py.truthy. apply negb_true_iff. apply String.eqb_neq. exact Hne. }
  destruct (listing s) as [l|] eqn:L; [clear Hl | congruence].
  unfold Acquire.archive_fallback. unfold bind at 1.
  rewrite directory_allows_run, L, T, Hp.
  destruct update; cbn [negb orb andb]; rewrite ?andb_false_r; cbn [negb orb andb];
    [reflexivity|].
  unfold bind, Acquire.listdir_install. rewrite L.
  destruct (1 <? length l)%nat; reflexivity.
Qed.

(** The actions of [update_kohya_ss] are those up to the end of the git
    phase, which are no requests, followed by those of the fallback when
    it is entered. *)
Lemma in_performed_update w _dir git_repo branch update s e :
  In e (performed (Acquire.update_kohya_ss w _dir git_repo branch update) s) ->
  is_request e = false
  \/ exists username password,
       In e (performed
               (Acquire.archive_fallback w _dir git_repo branch update username password)
               (snd ((Acquire.listdir_install ;; Acquire.listdir_install ;;
                      Acquire.git_phase w _dir git_repo branch update) s))).
Proof.
  intros Hin.
  set (pre := (Acquire.listdir_install ;; Acquire.listdir_install ;;
               Acquire.git_phase w _dir git_repo branch update)).
  assert (Hpre : emits offline pre).
  { unfold pre. apply emits_bind; [apply emits_listdir_install | intros _].
    apply emits_bind; [apply emits_listdir_install | intros _].
    apply offline_git_phase. }
  set (k := fun g =>
         match g with
         | Acquire.LoopReturn success => ret success
         | Acquire.LoopDone success username password =>
             if negb success
             then Acquire.archive_fallback w _dir git_repo branch update username password
             else ret success
         end).
  assert (E : Acquire.update_kohya_ss w _dir git_repo branch update s = bind pre k s).
  { unfold Acquire.update_kohya_ss, pre, k, bind.
    destruct (Acquire.listdir_install s) as [[?|?] ?]; [|reflexivity].
    destruct (Acquire.listdir_install s0) as [[?|?] ?]; reflexivity. }
  unfold performed in Hin. rewrite E in Hin. fold (performed (bind pre k) s) in Hin.
  rewrite (performed_bind anything) in Hin.
  - apply in_app_or in Hin as [Hin|Hin].
    + left. pose proof (emits_performed _ _ s Hpre) as F.
      rewrite List.Forall_forall in F. exact (F e Hin).
    + destruct (pre s) as [[g|x] s1]; [|destruct Hin].
      destruct g as [success|success username password]; unfold k in Hin.
      * rewrite (performed_unchanged (ret success) s1 (Ret success) eq_refl) in Hin.
        destruct Hin.
      * destruct success; cbn [negb] in Hin.
        -- rewrite (performed_unchanged (ret true) s1 (Ret true) eq_refl) in Hin.
           destruct Hin.
        -- right. exists username, password. exact Hin.
  - eapply emits_weaken; [|exact Hpre]. intros; exact I.
  - intros [success|[] username password]; simpl;
      try apply emits_ret; apply emits_archive_fallback.
Qed.

(** C6, as stated, fails: for a fork whose address only begins like the
    default one the fallback downloads the fork's release. *)
Lemma fallback_downloads_a_fork :
  let w := linux_world nothing nothing nothing (Ret EmptyString) without_git in
  let git_repo := "https://github.com/bmaltais/kohya_ss_fork.git" in
  let run := Acquire.update_kohya_ss w "/opt/kohya_ss" git_repo "master" false in
  git_repo <> "https://github.com/bmaltais/kohya_ss.git"
  /\ result run (fresh_state (Some [])) = Ret true
  /\ In (HttpGet "https://github.com/bmaltais/kohya_ss_fork/archive/refs/tags/v21.5.7.zip" None)
        (performed run (fresh_state (Some []))).
Proof.
  cbv zeta. split; [discriminate|]. split; [reflexivity|].
  vm_compute. auto 10.
Qed.

(** C6, as amended: a request to the network is only made by the archive
    fallback, and only when the source is empty or begins with the address
    of the default repository, the branch is empty or master, and the
    update flag is set or the directory, as the fallback finds it, is empty
    or holds the venv folder alone; for a non-empty source that does not
    begin with the default address the fallback returns False and does
    nothing, and the whole run makes no request. *)
Theorem archive_fallback_gate w _dir git_repo branch update :
  (forall username password s url auth,
     In (HttpGet url auth)
        (performed (Acquire.archive_fallback w _dir git_repo branch update
                      username password) s) ->
     (git_repo = EmptyString
      \/ Py.startswith git_repo Acquire.default_repo_prefix = true)
     /\ (branch = EmptyString \/ branch = "master")
     /\ (update = true \/ listing s = Some [] \/ listing s = Some ["venv"]))
  /\ (forall s url auth,
     In (HttpGet url auth)
        (performed (Acquire.update_kohya_ss w _dir git_repo branch update) s) ->
     let s1 := snd ((Acquire.listdir_install ;; Acquire.listdir_install ;;
                     Acquire.git_phase w _dir git_repo branch update) s) in
     (git_repo = EmptyString
      \/ Py.startswith git_repo Acquire.default_repo_prefix = true)
     /\ (branch = EmptyString \/ branch = "master")
     /\ (update = true \/ listing s1 = Some [] \/ listing s1 = Some ["venv"]))
  /\ (forall username password s,
     git_repo <> EmptyString ->
     Py.startswith git_repo Acquire.default_repo_prefix = false ->
     listing s <> None ->
     Acquire.archive_fallback w _dir git_repo branch update username password s
       = (Ret false, s)).
Proof.
  split; [|split].
  - intros username password s url auth.
    apply in_performed_archive_fallback.
  - intros s url auth Hin s1.
    apply in_performed_update in Hin as [Hin | (username & password & Hin)].
    + discriminate Hin.
    + exact (in_performed_archive_fallback _ _ _ _ _ _ _ _ _ Hin).
  - intros username password s. apply archive_fallback_other_source.
Qed.

Lemma archive_fallback_gate_witness :
  let w := linux_world nothing nothing nothing (Ret EmptyString) without_git in
  (Py.startswith "https://github.com/bmaltais/kohya_ss.git"
     Acquire.default_repo_prefix = true
   /\ listing (fresh_state (Some ["venv"])) = Some ["venv"])
  /\ Acquire.archive_fallback w "/opt/kohya_ss" "https://example.org/fork.git"
       "master" true None None (fresh_state (Some ["kohya_gui.py"]))
     = (Ret false, fresh_state (Some ["kohya_gui.py"])).
Proof.
  intros w.
  destruct (archive_fallback_gate w "/opt/kohya_ss"
              "https://github.com/bmaltais/kohya_ss.git" "master" false)
    as (A & B & _).
  destruct (archive_fallback_gate w "/opt/kohya_ss"
              "https://example.org/fork.git" "master" true) as (_ & _ & C).
  split.
  - assert (Hin : In (HttpGet
        "https://api.github.com/repos/bmaltais/kohya_ss/releases/latest" None)
        (performed (Acquire.archive_fallback w "/opt/kohya_ss"
           "https://github.com/bmaltais/kohya_ss.git" "master" false None None)
           (fresh_state (Some ["venv"])))).
    { vm_compute. auto. }
    destruct (A None None _ _ _ Hin) as ([E|E] & _ & [E'|[E'|E']]);
      try discriminate. split; [exact E | exact E'].
  - apply C; [discriminate | reflexivity | discriminate].
Defined.

(** *** An update over uncommitted changes *)

(** C3, as stated, fails: without the git program nothing looks at the
    working tree, and an update of the default repository overwrites the
    files of a tree with uncommitted changes from the release archive. *)
Lemma update_without_git_overwrites_changes :
  let w := linux_world nothing nothing nothing (Ret " M kohya_gui.py") without_git in
  let s := fresh_state (Some [".git"; "kohya_gui.py"]) in
  let run := Acquire.update_kohya_ss w "/opt/kohya_ss"
               "https://github.com/bmaltais/kohya_ss.git" "master" true in
  git_status w "/opt/kohya_ss" = Ret " M kohya_gui.py"
  /\ result run s = Ret true
  /\ performed run s =
       [ Run ["git"; "--version"];
         HttpGet "https://api.github.com/repos/bmaltais/kohya_ss/releases/latest" None;
         HttpGet "https://github.com/bmaltais/kohya_ss/archive/refs/tags/v21.5.7.zip" None;
         StoreFile "/tmp/tmpzip" [];
         Unzip "/tmp/tmpzip" "/tmp/unzip";
         Makedirs "/opt/kohya_ss/.";
         Move "/tmp/unzip/kohya_ss-21.5.7/kohya_gui.py" "/opt/kohya_ss/./kohya_gui.py";
         Rmtree "/tmp/unzip/kohya_ss-21.5.7";
         Remove "/tmp/tmpzip" ].
Proof. cbv zeta. repeat split. Qed.

Lemma credentials_fetch_nothing w git_repo username password :
  emits (fun e => fetches e = false)
        (Acquire.git_credentials_for w git_repo username password).
Proof.
  unfold Acquire.git_credentials_for, Acquire.find_ssh_private_key_path.
  repeat first [emits_step | reflexivity].
Qed.

(** C3, as amended: when git is installed, the credentials for the source
    are found (an https or ssh address or a local folder), the repository
    opens and [git status] reports changes, an update of a directory with
    a [.git] entry returns False after the status query: no pull, no clone
    and no request follow. *)
Theorem update_refuses_uncommitted_changes w _dir git_repo branch s l out creds s2 :
  listing s = Some l ->
  In ".git" l ->
  outcome w (Run ["git"; "--version"]) = None ->
  Acquire.git_credentials_for w git_repo None None
    (add_event s (Run ["git"; "--version"])) = (Ret creds, s2) ->
  git_repo_open w _dir = None ->
  git_status w _dir = Ret out ->
  out <> EmptyString ->
  Acquire.update_kohya_ss w _dir git_repo branch true s
    = (Ret false, add_event s2 (GitStatus _dir))
  /\ Forall (fun e => fetches e = false)
            (performed (Acquire.update_kohya_ss w _dir git_repo branch true) s)
  /\ Acquire.git_operations_with_credentials w _dir git_repo branch true None None
       (add_event s (Run ["git"; "--version"]))
     = (Ret (Some (false, Some "uncommitted_changes")), add_event s2 (GitStatus _dir)).
Proof.
  intros Hl Hgit Hv Hc Ho Hs Hout.
  assert (Hhas : forall s', listing s' = Some l ->
            Acquire.install_has ".git" s' = (Ret true, s')).
  { intros s' E. unfold Acquire.install_has. rewrite E. f_equal. f_equal.
    apply bool_decide_eq_true. apply list_elem_of_In. exact Hgit. }
  assert (Hlen : (0 <? Z.of_nat (String.length out)) = true).
  { destruct out; [congruence|]. reflexivity. }
  assert (O : Acquire.git_operations_with_credentials w _dir git_repo branch true
                None None (add_event s (Run ["git"; "--version"]))
              = (Ret (Some (false, Some "uncommitted_changes")),
                 add_event s2 (GitStatus _dir))).
  { unfold Acquire.git_operations_with_credentials.
    unfold bind at 1. rewrite (Hhas (add_event s (Run ["git"; "--version"])) Hl).
    unfold bind at 1. unfold Acquire.install_has at 1.
    unfold bind at 1. rewrite Hc.
    unfold try_except. cbn [andb negb]. rewrite Ho.
    unfold bind at 1. unfold Acquire.has_uncommitted_changes.
    unfold bind at 1. cbn [emit]. rewrite Hs, Hlen. reflexivity. }
  assert (Main : Acquire.update_kohya_ss w _dir git_repo branch true s
                 = (Ret false, add_event s2 (GitStatus _dir)));
    [|split; [exact Main | split; [|exact O]]].
  2:{ destruct (credentials_fetch_nothing w git_repo None None
                  (add_event s (Run ["git"; "--version"]))) as (evs & E & F).
      rewrite Hc in E. cbn [snd add_event trace] in E.
      rewrite (performed_spec _ s (Run ["git"; "--version"] :: evs ++ [GitStatus _dir])%list).
      - constructor; [reflexivity|]. apply Forall_app. split; [exact F|].
        constructor; [reflexivity | constructor].
      - rewrite Main. cbn [snd add_event trace]. rewrite E, <- !app_assoc. reflexivity. }
  set (s1 := add_event s (Run ["git"; "--version"])) in *.
  assert (Hl1 : listing s1 = Some l) by exact Hl.
  unfold Acquire.update_kohya_ss.
  unfold bind at 1. unfold Acquire.listdir_install at 1. rewrite Hl.
  unfold bind at 1. unfold Acquire.listdir_install at 1. rewrite Hl.
  unfold bind at 1.
  assert (G : Acquire.git_phase w _dir git_repo branch true s
              = (Ret (Acquire.LoopReturn false), add_event s2 (GitStatus _dir))).
  { unfold Acquire.git_phase. unfold bind at 1.
    assert (I : Acquire.is_git_installed w s = (Ret true, s1)).
    { unfold Acquire.is_git_installed. destruct (String.eqb (os_family w) "Windows");
        cbn; unfold try_except, bind, act, bind, emit; cbn; rewrite Hv; reflexivity. }
    rewrite I. unfold bind at 1. unfold Acquire.install_isdir at 1. rewrite Hl1.
    unfold Acquire.max_attempts. cbn [Acquire.attempts]. unfold bind at 1.
    unfold Acquire.catching, try_except. unfold bind at 1. rewrite O. reflexivity. }
  rewrite G. reflexivity.
Qed.

Lemma update_refuses_uncommitted_changes_witness :
  let w := linux_world nothing nothing nothing (Ret " M kohya_gui.py") all_succeed in
  let s := fresh_state (Some [".git"; "kohya_gui.py"]) in
  Acquire.update_kohya_ss w "/opt/kohya_ss"
    "https://github.com/bmaltais/kohya_ss.git" "master" true s
  = (Ret false,
     add_event (add_event s (Run ["git"; "--version"])) (GitStatus "/opt/kohya_ss"))
  /\ Forall (fun e => fetches e = false)
       (performed (Acquire.update_kohya_ss w "/opt/kohya_ss"
                     "https://github.com/bmaltais/kohya_ss.git" "master" true) s)
  /\ Acquire.git_operations_with_credentials w "/opt/kohya_ss"
       "https://github.com/bmaltais/kohya_ss.git" "master" true None None
       (add_event s (Run ["git"; "--version"]))
     = (Ret (Some (false, Some "uncommitted_changes")),
        add_event (add_event s (Run ["git"; "--version"])) (GitStatus "/opt/kohya_ss")).
Proof.
  intros w s.
  apply (update_refuses_uncommitted_changes w "/opt/kohya_ss"
           "https://github.com/bmaltais/kohya_ss.git" "master" s
           [".git"; "kohya_gui.py"] " M kohya_gui.py" (CredHttps None None)).
  - reflexivity.
  - simpl. auto.
  - reflexivity.
  - reflexivity.
  - reflexivity.
  - reflexivity.
  - discriminate.
Defined.

(** *** The addresses of the archive fallback *)

Lemma rstrip_spec chars s :
  exists t,
    s = Py.rstrip chars s ++ t
    /\ all_in chars t = true
    /\ (forall r c, Py.rstrip chars s = r ++ String c EmptyString ->
                    Py.char_in c chars = false).
Proof.
  induction s as [|c s (t & E & A & L)].
  - exists EmptyString. repeat split. intros [|? ?] ? ?; discriminate.
  - cbn [Py.rstrip]. destruct (Py.rstrip chars s) as [|d r'] eqn:R.
    + change (s = t) in E. subst t.
      destruct (Py.char_in c chars) eqn:C.
      * exists (String c s). repeat split.
        -- cbn [all_in]. rewrite C. exact A.
        -- intros [|? ?] ? ?; discriminate.
      * exists s. repeat split.
        -- exact A.
        -- intros [|x r] c0 H.
           ++ change (String c EmptyString = String c0 EmptyString) in H. congruence.
           ++ change (String c EmptyString = String x (r ++ String c0 EmptyString)) in H.
              injection H as _ H. destruct r; discriminate.
    + exists t. repeat split.
      * change (String c s = String c (String d r' ++ t)). rewrite <- E. reflexivity.
      * exact A.
      * intros [|x r] c0 H.
        -- discriminate.
        -- change (String c (String d r') = String x (r ++ String c0 EmptyString)) in H.
           injection H as _ H. exact (L r c0 H).
Qed.

Lemma download_release_requests w _dir git_repo username password s url r tag :
  Acquire.api_url_of (Py.rstrip ".git" git_repo) = Ret url ->
  http_response w url = Ret r ->
  status_code r = 200 ->
  tag_name r = Ret tag ->
  exists auth rest,
    performed (Acquire.download_release w _dir git_repo username password) s
    = HttpGet url None
      :: HttpGet (Acquire.download_url_of (Py.rstrip ".git" git_repo) tag) auth
      :: rest.
Proof.
  intros Hu Hr Hs Ht.
  set (auth := match username, password with
               | Some u, Some p => if Py.truthy u && Py.truthy p then Some (u, p) else None
               | _, _ => None
               end).
  set (download_url := Acquire.download_url_of (Py.rstrip ".git" git_repo) tag).
  set (s2 := add_event (add_event s (HttpGet url None)) (HttpGet download_url auth)).
  assert (E : exists r2,
    Acquire.download_release w _dir git_repo username password s
      = bind (lift r2) (Acquire.unpack_release w _dir) s2).
  { exists (http_response w download_url).
    unfold Acquire.download_release, Acquire.get_latest_tag.
    unfold bind at 1. unfold bind at 1. unfold lift at 1. rewrite Hu.
    unfold bind at 1. cbn [emit]. unfold bind at 1. unfold lift at 1. rewrite Hr.
    rewrite Hs. cbn [Z.eqb Pos.eqb negb]. unfold lift at 1. rewrite Ht.
    unfold bind at 1. cbn [emit]. reflexivity. }
  destruct E as (r2 & E).
  assert (G : emits anything (bind (lift r2) (Acquire.unpack_release w _dir))).
  { apply emits_bind; [apply emits_lift | intros; apply emits_unpack_release]. }
  destruct (G s2) as (rest & T & _).
  exists auth, rest. apply performed_spec. rewrite E, T.
  unfold s2. cbn [add_event trace]. rewrite <- !app_assoc. reflexivity.
Qed.

(** C10: the fallback takes from the end of the source address every
    character among [.], [g], [i] and [t] (all of them, up to the first
    character that is none of the four), and asks the API for, and
    downloads from, the address so obtained; for the default address the
    name is [kohya_ss]; for an address the gate lets through whose name
    ends in one of the four characters, the name asked for is not the name
    given. *)
Theorem fallback_strips_git_characters :
  (forall s, exists t,
     s = Py.rstrip ".git" s ++ t
     /\ all_in ".git" t = true
     /\ (forall r c, Py.rstrip ".git" s = r ++ String c EmptyString ->
                     Py.char_in c ".git" = false))
  /\ (forall w _dir git_repo username password s url r tag,
     Acquire.api_url_of (Py.rstrip ".git" git_repo) = Ret url ->
     http_response w url = Ret r ->
     status_code r = 200 ->
     tag_name r = Ret tag ->
     exists auth rest,
       performed (Acquire.download_release w _dir git_repo username password) s
       = HttpGet url None
         :: HttpGet (Acquire.download_url_of (Py.rstrip ".git" git_repo) tag) auth
         :: rest)
  /\ (Acquire.repo_name_of (Py.rstrip ".git" default_git_repo) = Ret "kohya_ss"
      /\ Acquire.api_url_of (Py.rstrip ".git" default_git_repo)
         = Ret "https://api.github.com/repos/bmaltais/kohya_ss/releases/latest"
      /\ forall tag,
           Acquire.download_url_of (Py.rstrip ".git" default_git_repo) tag
           = "https://github.com/bmaltais/kohya_ss/archive/refs/tags/" ++ tag ++ ".zip")
  /\ (exists git_repo given,
        Py.startswith git_repo Acquire.default_repo_prefix = true
        /\ Py.index_m1 (Py.split "/" git_repo) = Ret given
        /\ Acquire.repo_name_of (Py.rstrip ".git" git_repo)
           <> Ret (remove_suffix ".git" given)
        /\ Acquire.api_url_of (Py.rstrip ".git" git_repo)
           = Ret "https://api.github.com/repos/bmaltais/kohya_ss_/releases/latest"
        /\ forall tag,
             Acquire.download_url_of (Py.rstrip ".git" git_repo) tag
             = "https://github.com/bmaltais/kohya_ss_/archive/refs/tags/" ++ tag ++ ".zip").
Proof.
  split; [|split; [|split]].
  - intros s. apply rstrip_spec.
  - intros. eapply download_release_requests; eassumption.
  - repeat split.
  - exists "https://github.com/bmaltais/kohya_ss_git.git", "kohya_ss_git.git".
    repeat split. discriminate.
Qed.

Lemma fallback_strips_git_characters_witness :
  let w := linux_world nothing nothing nothing (Ret EmptyString) without_git in
  exists auth rest,
    performed (Acquire.download_release w "/opt/kohya_ss" default_git_repo None None)
              (fresh_state (Some []))
    = HttpGet "https://api.github.com/repos/bmaltais/kohya_ss/releases/latest" None
      :: HttpGet "https://github.com/bmaltais/kohya_ss/archive/refs/tags/v21.5.7.zip" auth
      :: rest.
Proof.
  intros w. destruct fallback_strips_git_characters as (_ & B & _).
  apply (B w "/opt/kohya_ss" default_git_repo None None (fresh_state (Some []))
           "https://api.github.com/repos/bmaltais/kohya_ss/releases/latest"
           sample_response "v21.5.7"); reflexivity.
Defined.

(** ** File permissions *)

Lemma subset_bits_iff a b :
  subset_bits a b <->
  forall n, 0 <= n -> Z.testbit a n = true -> Z.testbit b n = true.
Proof.
  unfold subset_bits. split.
  - intros H n Hn Ha.
    assert (E : Z.testbit (Z.land a (Z.lnot b)) n = false)
      by (rewrite H; apply Z.bits_0).
    rewrite Z.land_spec, Z.lnot_spec, Ha in E by exact Hn.
    destruct (Z.testbit b n); [reflexivity | discriminate].
  - intros H. apply Z.bits_inj'. intros n Hn.
    rewrite Z.land_spec, Z.lnot_spec, Z.bits_0 by exact Hn.
    specialize (H n Hn). destruct (Z.testbit a n); [|reflexivity].
    rewrite H; reflexivity.
Qed.

(** Turns a goal about bit sets into one about the bits at a position. *)
Ltac bitwise :=
  repeat match goal with
    | H : subset_bits _ _ |- _ => rewrite subset_bits_iff in H
    end;
  apply subset_bits_iff;
  let n := fresh "n" in
  let Hn := fresh "Hn" in
  intros n Hn;
  repeat match goal with
    | H : forall k, 0 <= k -> _ |- _ => specialize (H n Hn); revert H
    end;
  repeat first
    [ rewrite Z.land_spec | rewrite Z.lor_spec
    | rewrite (Z.lnot_spec _ n Hn) | rewrite Z.bits_0 ];
  repeat match goal with
    | |- context [Z.testbit ?x n] => destruct (Z.testbit x n)
    end;
  cbn; auto; try discriminate.

Lemma subset_bits_refl a : subset_bits a a.
Proof. bitwise. Qed.

Lemma subset_bits_zero a : subset_bits 0 a.
Proof. bitwise. Qed.

Lemma added_none a b : subset_bits (Z.land a (Z.lnot a)) b.
Proof. bitwise. Qed.

Lemma chmod_superset old mode mask :
  subset_bits old (Z.lor (Z.land old (Z.lnot mask))
                         (Z.land (Z.lor old mode) mask)).
Proof. bitwise. Qed.

Lemma chmod_added old req mask :
  subset_bits
    (Z.land (Z.lor (Z.land old (Z.lnot mask))
                   (Z.land (Z.lor old (Z.land req (Z.lnot old))) mask))
            (Z.lnot old))
    req.
Proof. bitwise. Qed.

Lemma widened_refl req fs : widened req fs fs.
Proof.
  intros path pre H. exists pre. split; [exact H|].
  split; [apply subset_bits_refl | apply added_none].
Qed.

Lemma widened_trans r1 r2 fs fs1 fs2 :
  widened r1 fs fs1 -> widened r2 fs1 fs2 ->
  widened (fun p => Z.lor (r1 p) (r2 p)) fs fs2.
Proof.
  intros H1 H2 path pre E.
  destruct (H1 path pre E) as (mid & E1 & S1 & A1).
  destruct (H2 path mid E1) as (post & E2 & S2 & A2).
  exists post. split; [exact E2|]. split; bitwise.
Qed.

Lemma widened_mono (r1 r2 : string -> Z) fs fs' :
  (forall p, subset_bits (r1 p) (r2 p)) -> widened r1 fs fs' -> widened r2 fs fs'.
Proof.
  intros M H path pre E. destruct (H path pre E) as (post & E' & S & A).
  exists post. split; [exact E'|]. split; [exact S|].
  specialize (M path). bitwise.
Qed.

Section perms_facts.
Variable osp : Py.os_path.
Variable guess_type : string -> option string.
Variable chmod_denied : string -> bool.
Variable os_walk : string -> list (string * list string * list string).

Local Abbreviation visit_file := (Perms.visit_file osp guess_type chmod_denied).
Local Abbreviation visit_files := (Perms.visit_files osp guess_type chmod_denied).
Local Abbreviation visit_roots := (Perms.visit_roots osp guess_type chmod_denied).
Local Abbreviation required_permissions := (Perms.required_permissions guess_type).
Local Abbreviation required_in := (Perms.required_in guess_type).

Lemma visit_file_widened root file fs r fs' :
  visit_file root file fs = (r, fs') ->
  widened (required_in [(Py.path_join osp root file, file)]) fs fs'.
Proof.
  unfold visit_file, Perms.visit_file, Perms.os_stat, Perms.os_chmod.
  set (file_path := Py.path_join osp root file).
  destruct (fs !! file_path) as [current|] eqn:E.
  2:{ intros [= _ <-]. apply widened_refl. }
  destruct (negb (_ =? 0)).
  2:{ intros [= _ <-]. apply widened_refl. }
  destruct (chmod_denied file_path).
  { destruct (Perms.outside_interpreter osp file_path);
      intros [= _ <-]; apply widened_refl. }
  intros [= _ <-]. intros path pre H.
  destruct (String.eqb_spec file_path path) as [->|Hne].
  - rewrite lookup_insert_eq. rewrite E in H. injection H as ->.
    eexists. split; [reflexivity|]. split; [apply chmod_superset|].
    cbn. rewrite String.eqb_refl.
    fold required_permissions.
    generalize (required_permissions path file) as req. intros req.
    pose proof (chmod_added pre req Perms.S_IMODE_MASK). bitwise.
  - rewrite lookup_insert_ne by exact Hne. exists pre. split; [exact H|].
    split; [apply subset_bits_refl | apply added_none].
Qed.

Lemma required_in_app l1 l2 path :
  required_in (l1 ++ l2) path = Z.lor (required_in l1 path) (required_in l2 path).
Proof.
  unfold required_in, Perms.required_in.
  induction l1 as [|[fp f] l1 IH]; cbn; [reflexivity|].
  rewrite IH. destruct (String.eqb fp path); [|reflexivity].
  rewrite Z.lor_assoc. reflexivity.
Qed.

Lemma visit_files_widened root files fs r fs' :
  visit_files root files fs = (r, fs') ->
  widened (required_in ((fun file => (Py.path_join osp root file, file)) <$> files))
          fs fs'.
Proof.
  revert fs. induction files as [|file rest IH]; intros fs; cbn.
  - intros [= _ <-]. apply widened_refl.
  - destruct (Perms.visit_file osp guess_type chmod_denied root file fs)
      as [r1 fs1] eqn:V.
    pose proof (visit_file_widened _ _ _ _ _ V) as W1.
    assert (Stop : (r1, fs1) = (r, fs') ->
              widened (required_in ((Py.path_join osp root file, file)
                         :: ((fun file => (Py.path_join osp root file, file)) <$> rest)))
                      fs fs').
    { intros [= _ <-]. eapply widened_mono; [|exact W1].
      intros p. change (?x :: ?l) with ([x] ++ l)%list at 2.
      rewrite required_in_app. bitwise. }
    destruct r1 as [[|b]|e]; try exact Stop.
    intros H. specialize (IH _ H).
    eapply widened_mono; [|exact (widened_trans _ _ _ _ _ W1 IH)].
    intros p. cbv beta. change (?x :: ?l) with ([x] ++ l)%list at 2.
    rewrite required_in_app. apply subset_bits_refl.
Qed.

Lemma visit_roots_widened venv triples fs r fs' :
  visit_roots venv triples fs = (r, fs') ->
  widened (required_in
             ('(root, dirs, files) ← triples;
              if Perms.skipped_root osp venv root then []
              else (fun file => (Py.path_join osp root file, file)) <$> files))
          fs fs'.
Proof.
  revert fs. induction triples as [|[[root dirs] files] rest IH]; intros fs; cbn.
  - intros [= _ <-]. apply widened_refl.
  - destruct (Perms.skipped_root osp venv root).
    + cbn. apply IH.
    + destruct (Perms.visit_files osp guess_type chmod_denied root files fs)
        as [r1 fs1] eqn:V.
      pose proof (visit_files_widened _ _ _ _ _ V) as W1.
      assert (Stop : (r1, fs1) = (r, fs') ->
        widened (required_in
                   (((fun file => (Py.path_join osp root file, file)) <$> files) ++
                    ('(root, dirs, files) ← rest;
                     if Perms.skipped_root osp venv root then []
                     else (fun file => (Py.path_join osp root file, file)) <$> files)))
                fs fs').
      { intros [= _ <-]. eapply widened_mono; [|exact W1].
        intros p. rewrite required_in_app. bitwise. }
      destruct r1 as [[|b]|e]; try exact Stop.
      intros H. specialize (IH _ H).
      eapply widened_mono; [|exact (widened_trans _ _ _ _ _ W1 IH)].
      intros p. cbv beta. rewrite required_in_app. apply subset_bits_refl.
Qed.
End perms_facts.

Lemma required_permissions_values guess_type file_path file :
  Perms.required_permissions guess_type file_path file
  = if Perms.is_executable guess_type file_path file then 511 else 438.
Proof. unfold Perms.required_permissions. destruct (Perms.is_executable _ _ _); reflexivity. Qed.

Lemma subset_bits_trans a b c : subset_bits a b -> subset_bits b c -> subset_bits a c.
Proof. intros H1 H2. bitwise. Qed.

(** When every entry of the walk that names a path asks for the same bits,
    these are the required bits of the path. *)
Lemma required_in_uniform guess_type entries path req :
  (forall file_path file, In (file_path, file) entries -> file_path = path ->
     Perms.required_permissions guess_type file_path file = req) ->
  subset_bits (Perms.required_in guess_type entries path) req.
Proof.
  unfold Perms.required_in.
  induction entries as [|[fp f] entries IH]; intros H; cbn.
  - apply subset_bits_zero.
  - assert (IH' := IH (fun fp' f' Hin => H fp' f' (or_intror Hin))).
    destruct (String.eqb_spec fp path) as [E|_]; [|exact IH'].
    rewrite (H fp f (or_introl eq_refl) E). bitwise.
Qed.

(** C9: whatever [check_permissions] returns, every file keeps the bits
    it had, and the bits it gained are among the required bits of the
    entries of the walk that name it: read, write and execute for all on
    executables and scripts, read and write for all otherwise, nothing for
    a file the walk does not visit. *)
Theorem check_permissions_only_widens osp guess_type chmod_denied os_walk
    _dir fs r fs' path pre :
  Perms.check_permissions osp guess_type chmod_denied os_walk _dir fs = (r, fs') ->
  fs !! path = Some pre ->
  exists post,
    fs' !! path = Some post
    /\ subset_bits pre post
    /\ subset_bits (Z.land post (Z.lnot pre))
                   (Perms.required_of osp guess_type os_walk
                      (Py.path_join osp _dir "venv") path)
    /\ (forall file,
          (forall file_path file', 
             In (file_path, file')
                (Perms.walked osp os_walk (Py.path_join osp _dir "venv")) ->
             file_path = path -> file' = file) ->
          subset_bits (Z.land post (Z.lnot pre))
            (if Perms.is_executable guess_type path file then 511 else 438)).
Proof.
  unfold Perms.check_permissions. intros H Hpre.
  destruct (Perms.visit_roots osp guess_type chmod_denied
              (Py.path_join osp _dir "venv")
              (os_walk (Py.path_join osp _dir "venv")) fs) as [r1 fs1] eqn:V.
  pose proof (visit_roots_widened _ _ _ _ _ _ _ _ V) as W.
  assert (fs1 = fs') as -> by (destruct r1 as [[|b]|e]; congruence).
  destruct (W path pre Hpre) as (post & E & S & A).
  exists post. split; [exact E|]. split; [exact S|]. split; [exact A|].
  intros file Hname. eapply subset_bits_trans; [exact A|].
  apply required_in_uniform. intros file_path file' Hin ->.
  rewrite (Hname _ _ Hin eq_refl). apply required_permissions_values.
Qed.

Lemma check_permissions_only_widens_witness :
  let fs' := snd (Perms.check_permissions Py.posixpath no_mime (fun _ => false)
                    venv_walk "/opt/kohya_ss" venv_files) in
  exists post,
    fs' !! "/opt/kohya_ss/venv/bin/activate_this.py" = Some post
    /\ subset_bits 33188 post
    /\ subset_bits (Z.land post (Z.lnot 33188))
         (Perms.required_of Py.posixpath no_mime venv_walk
            (Py.path_join Py.posixpath "/opt/kohya_ss" "venv")
            "/opt/kohya_ss/venv/bin/activate_this.py")
    /\ (forall file,
          (forall file_path file',
             In (file_path, file')
                (Perms.walked Py.posixpath venv_walk
                   (Py.path_join Py.posixpath "/opt/kohya_ss" "venv")) ->
             file_path = "/opt/kohya_ss/venv/bin/activate_this.py" -> file' = file) ->
          subset_bits (Z.land post (Z.lnot 33188))
            (if Perms.is_executable no_mime
                  "/opt/kohya_ss/venv/bin/activate_this.py" file
             then 511 else 438)).
Proof.
  intros fs'.
  apply (check_permissions_only_widens Py.posixpath no_mime (fun _ => false)
           venv_walk "/opt/kohya_ss" venv_files
           (fst (Perms.check_permissions Py.posixpath no_mime (fun _ => false)
                   venv_walk "/opt/kohya_ss" venv_files)) fs').
  - unfold fs'. destruct (Perms.check_permissions _ _ _ _ _ _). reflexivity.
  - reflexivity.
Defined.

(** The run of the example: the script gains the execute bits, the
    configuration file the write bits for group and others. *)
Lemma check_permissions_example :
  Perms.check_permissions Py.posixpath no_mime (fun _ => false)
    venv_walk "/opt/kohya_ss" venv_files
  = (Ret true,
     {[ "/opt/kohya_ss/venv/pyvenv.cfg" := 33206;
        "/opt/kohya_ss/venv/bin/activate_this.py" := 33279 ]}).
Proof. vm_compute. reflexivity. Qed.

(** C4, as stated, fails both ways: a denied change on a file outside
    the interpreter ends the routine with False, the next file untouched;
    a denied change on the interpreter itself is passed over, the routine
    goes on to the next file and returns True. *)
Lemma denied_chmod_is_fatal_outside_the_interpreter :
  let denied p := String.eqb p "/opt/kohya_ss/venv/lib/notes.txt"
                  || String.eqb p "/opt/kohya_ss/venv/bin/python" in
  Perms.outside_interpreter Py.posixpath "/opt/kohya_ss/venv/lib/notes.txt" = true
  /\ Perms.check_permissions Py.posixpath no_mime denied lib_walk
       "/opt/kohya_ss" lib_files
     = (Ret false, lib_files)
  /\ Perms.outside_interpreter Py.posixpath "/opt/kohya_ss/venv/bin/python" = false
  /\ Perms.check_permissions Py.posixpath no_mime denied bin_walk
       "/opt/kohya_ss" bin_files
     = (Ret true, <["/opt/kohya_ss/venv/bin/pip" := 33206]> bin_files).
Proof. cbv zeta. repeat split; vm_compute; reflexivity. Qed.

Section perms_walk.
Variable osp : Py.os_path.
Variable guess_type : string -> option string.
Variable chmod_denied : string -> bool.

(** A walk in two parts: the second part is visited from where the first
    ends, unless the first returns or raises. *)
Lemma visit_files_app root files1 files2 fs :
  Perms.visit_files osp guess_type chmod_denied root (files1 ++ files2) fs
  = match Perms.visit_files osp guess_type chmod_denied root files1 fs with
    | (Ret Perms.Next, fs') =>
        Perms.visit_files osp guess_type chmod_denied root files2 fs'
    | stop => stop
    end.
Proof.
  revert fs. induction files1 as [|file files1 IH]; intros fs; cbn; [reflexivity|].
  destruct (Perms.visit_file osp guess_type chmod_denied root file fs) as [[[|b]|e] fs1];
    try reflexivity.
  apply IH.
Qed.

Lemma visit_roots_app venv triples1 triples2 fs :
  Perms.visit_roots osp guess_type chmod_denied venv (triples1 ++ triples2) fs
  = match Perms.visit_roots osp guess_type chmod_denied venv triples1 fs with
    | (Ret Perms.Next, fs') =>
        Perms.visit_roots osp guess_type chmod_denied venv triples2 fs'
    | stop => stop
    end.
Proof.
  revert fs. induction triples1 as [|[[root dirs] files] triples1 IH]; intros fs; cbn;
    [reflexivity|].
  destruct (Perms.skipped_root osp venv root); [apply IH|].
  destruct (Perms.visit_files osp guess_type chmod_denied root files fs)
    as [[[|b]|e] fs1]; try reflexivity.
  apply IH.
Qed.

(** The visit of a file whose change of permissions is denied *)
Lemma visit_file_denied root file fs current :
  fs !! Py.path_join osp root file = Some current ->
  Z.land (Perms.required_permissions guess_type (Py.path_join osp root file) file)
         (Z.lnot current) <> 0 ->
  chmod_denied (Py.path_join osp root file) = true ->
  Perms.visit_file osp guess_type chmod_denied root file fs
  = if Perms.outside_interpreter osp (Py.path_join osp root file)
    then (Ret (Perms.Return false), fs)
    else (Ret Perms.Next, fs).
Proof.
  intros Hstat Hmiss Hden.
  unfold Perms.visit_file, Perms.os_stat, Perms.os_chmod. rewrite Hstat.
  apply Z.eqb_neq in Hmiss. rewrite Hmiss. cbn [negb]. rewrite Hden.
  destruct (Perms.outside_interpreter osp _); reflexivity.
Qed.
End perms_walk.

(** C4, as amended: wherever in the walk the file is, when the walk
    reaches a file and the change of its permissions is denied,
    [check_permissions] returns False at once, with the permissions as
    they were when the file was reached, if the file's folder has no [bin]
    in its path and the file's name has no [python] in it; otherwise it
    goes on as if the file were not there: its answer and the permissions
    it leaves are those of the rest of the walk (the files after this one
    in its directory, then the directories after it). *)
Theorem denied_chmod_policy osp guess_type chmod_denied os_walk
    _dir before root dirs earlier file rest more fs fs1 fs2 current :
  let venv := Py.path_join osp _dir "venv" in
  let file_path := Py.path_join osp root file in
  os_walk venv = (before ++ (root, dirs, earlier ++ file :: rest) :: more)%list ->
  Perms.visit_roots osp guess_type chmod_denied venv before fs = (Ret Perms.Next, fs1) ->
  Perms.skipped_root osp venv root = false ->
  Perms.visit_files osp guess_type chmod_denied root earlier fs1 = (Ret Perms.Next, fs2) ->
  fs2 !! file_path = Some current ->
  Z.land (Perms.required_permissions guess_type file_path file) (Z.lnot current) <> 0 ->
  chmod_denied file_path = true ->
  Perms.check_permissions osp guess_type chmod_denied os_walk _dir fs
  = if Perms.outside_interpreter osp file_path
    then (Ret false, fs2)
    else Perms.check_permissions osp guess_type chmod_denied
           (fun _ => (root, dirs, rest) :: more) _dir fs2.
Proof.
  intros venv file_path Hwalk Hbefore Hskip Hearlier Hstat Hmiss Hden.
  unfold Perms.check_permissions. fold venv. rewrite Hwalk.
  rewrite visit_roots_app, Hbefore.
  cbn [Perms.visit_roots]. rewrite Hskip.
  rewrite visit_files_app, Hearlier.
  cbn [Perms.visit_files].
  rewrite (visit_file_denied osp guess_type chmod_denied root file fs2 current
             Hstat Hmiss Hden).
  fold file_path. destruct (Perms.outside_interpreter osp file_path); reflexivity.
Qed.

Lemma denied_chmod_policy_witness :
  Perms.check_permissions Py.posixpath no_mime two_denied two_dir_walk
    "/opt/kohya_ss" two_dir_files
  = (Ret false, <["/opt/kohya_ss/venv/bin/pip" := 33206]> two_dir_files)
  /\ Perms.check_permissions Py.posixpath no_mime two_denied two_dir_walk
       "/opt/kohya_ss" two_dir_files
     = Perms.check_permissions Py.posixpath no_mime two_denied
         (fun _ => [ ("/opt/kohya_ss/venv/bin", [], ["pip"]);
                     ("/opt/kohya_ss/venv/lib", [], ["notes.txt"; "other.txt"]) ])
         "/opt/kohya_ss" two_dir_files.
Proof.
  split.
  - apply (denied_chmod_policy Py.posixpath no_mime two_denied two_dir_walk
             "/opt/kohya_ss" [ ("/opt/kohya_ss/venv/bin", [], ["python"; "pip"]) ]
             "/opt/kohya_ss/venv/lib" [] [] "notes.txt" ["other.txt"] [] two_dir_files
             (<["/opt/kohya_ss/venv/bin/pip" := 33206]> two_dir_files)
             (<["/opt/kohya_ss/venv/bin/pip" := 33206]> two_dir_files) 33024).
    + reflexivity.
    + vm_compute. reflexivity.
    + reflexivity.
    + reflexivity.
    + vm_compute. reflexivity.
    + vm_compute. discriminate.
    + reflexivity.
  - apply (denied_chmod_policy Py.posixpath no_mime two_denied two_dir_walk
             "/opt/kohya_ss" [] "/opt/kohya_ss/venv/bin" [] [] "python" ["pip"]
             [ ("/opt/kohya_ss/venv/lib", [], ["notes.txt"; "other.txt"]) ]
             two_dir_files two_dir_files two_dir_files 33024).
    + reflexivity.
    + reflexivity.
    + reflexivity.
    + reflexivity.
    + vm_compute. reflexivity.
    + vm_compute. discriminate.
    + reflexivity.
Defined.

(** ** Library links *)

(** The condition of the linking block does not look at the container:
    with the runpod flag the block is entered, and the three links are
    looked after, wherever the process runs. *)
Lemma linking_ignores_the_container w1 w2 sp runpod s :
  os_family w1 = os_family w2 -> script_dir w1 = script_dir w2 ->
  osp w1 = osp w2 ->
  path_exists w1 = path_exists w2 -> path_islink w1 = path_islink w2 ->
  path_isfile w1 = path_isfile w2 -> path_isdir w1 = path_isdir w2 ->
  path_realpath w1 = path_realpath w2 -> os_listdir w1 = os_listdir w2 ->
  outcome w1 = outcome w2 ->
  Links.setup_file_links w1 sp runpod s = Links.setup_file_links w2 sp runpod s.
Proof.
  intros E1 E2 E3 E4 E5 E6 E7 E8 E9 E10.
  unfold Links.setup_file_links, Links.create_symlinks, act.
  rewrite E1, E2, E3, E4, E5, E6, E7, E8, E9, E10. reflexivity.
Qed.

(** C5 on an input where it fails: no [/proc/1/cgroup] and no
    [/.dockerenv], so the process is in no container; with the runpod flag
    the three links are created all the same. *)
Theorem links_are_made_outside_a_container :
  let w := linux_world nothing nothing nothing (Ret EmptyString) all_succeed in
  let sp := "/opt/kohya_ss/venv/Lib/site-packages" in
  Links.in_container w = Ret false
  /\ performed (Links.setup_file_links w sp true) (fresh_state (Some [])) =
       [ Symlink "/opt/kohya_ss/venv/Lib/site-packages/tensorrt/libnvinfer_plugin.so.8"
                 "/opt/kohya_ss/venv/Lib/site-packages/tensorrt/libnvinfer_plugin.so.7";
         Symlink "/opt/kohya_ss/venv/Lib/site-packages/tensorrt/libnvinfer.so.8"
                 "/opt/kohya_ss/venv/Lib/site-packages/tensorrt/libnvinfer.so.7";
         Symlink "/opt/kohya_ss/venv/Lib/site-packages/nvidia/cuda_runtime/lib/libcudart.so.12"
                 "/opt/kohya_ss/venv/Lib/site-packages/nvidia/cuda_runtime/lib/libcudart.so.11.0" ]
  /\ performed (Links.setup_file_links w sp false) (fresh_state (Some [])) = [].
Proof. cbv zeta. repeat split. Qed.

(** ** Python requirements *)

Section deps_facts.
Variable w : world.
Variable sys_executable : string.
Variable verbosity : Z.
Variable now : string.

Lemma emits_pip arguments : emits anything (Deps.pip w sys_executable arguments).
Proof. unfold Deps.pip. emits_steps. Qed.

Lemma emits_choose_torch rounds : emits anything (Deps.choose_torch rounds).
Proof.
  induction rounds as [|n IH]; cbn [Deps.choose_torch]; [apply emits_raise|].
  apply emits_bind; [apply emits_input; exact I | intros choice].
  destruct (String.eqb choice "1"); [apply emits_ret|].
  destruct (String.eqb choice "2"); [apply emits_ret | exact IH].
Qed.

Lemma emits_install_torch update repair interactive :
  emits anything (Deps.install_torch w sys_executable verbosity update repair interactive).
Proof.
  unfold Deps.install_torch. apply emits_when.
  apply emits_bind.
  - destruct interactive; [|apply emits_ret].
    apply emits_bind; [apply emits_get_state | intros s].
    apply emits_bind; [apply emits_choose_torch | intros; apply emits_ret].
  - intros choice. destruct (bool_decide _);
      (apply emits_bind; [apply emits_pip | intros _]);
      (destruct choice; [|apply emits_raise]);
      (apply emits_when; apply emits_bind; [apply emits_pip | intros _; apply emits_pip]).
Qed.

Lemma emits_fill_requirements _dir runpod update repair interactive :
  emits anything
    (Deps.fill_requirements w sys_executable verbosity _dir runpod update repair interactive).
Proof.
  unfold Deps.fill_requirements.
  apply emits_bind; [apply emits_lift | intros original].
  apply emits_bind.
  { apply emits_when. apply emits_for_each. intros package.
    apply emits_try_except.
    - destruct (verbosity <? 3); apply emits_pip.
    - intros e. destruct e; cbn; try exact I. apply emits_ret. }
  intros _. apply emits_bind.
  { destruct (String.eqb (os_family w) "macOS").
    - destruct (String.eqb (machine w) "arm64"); [apply emits_ret|].
      destruct (String.eqb (machine w) "x86_64"); apply emits_ret.
    - destruct (String.eqb (os_family w) "Windows"); [|apply emits_ret].
      apply emits_bind; [apply emits_install_torch | intros; apply emits_ret]. }
  intros written. emits_steps.
Qed.

Lemma emits_install_requirements _dir runpod update repair interactive :
  emits anything
    (Deps.install_requirements w sys_executable verbosity _dir runpod update repair
       interactive).
Proof.
  unfold Deps.install_requirements. apply emits_when.
  apply emits_bind; [apply emits_act; exact I | intros _].
  apply emits_bind; [apply emits_fill_requirements | intros written].
  apply emits_bind.
  - destruct (3 <=? verbosity); [apply emits_pip|].
    apply emits_for_each. intros line. apply emits_when. apply emits_pip.
  - intros _. emits_steps.
Qed.

(** The installer, from its first command on *)
Lemma install_begins_with_pip _dir runpod update repair interactive _log_dir s :
  path_exists w (Py.join_all (osp w) _log_dir ["status"; ".pip_operations_done"])
    && negb (update || repair) = false ->
  exists rest,
    performed (Deps.install_python_dependencies w sys_executable verbosity now
                 _dir runpod update repair interactive _log_dir) s
    = pip_self_upgrade sys_executable verbosity :: rest.
Proof.
  intros Hgate. unfold Deps.install_python_dependencies. rewrite Hgate.
  set (h := fun e : exn => if is_Exception e then Some (ret tt) else None).
  set (rest_of_try :=
         Deps.install_requirements w sys_executable verbosity _dir runpod update
           repair interactive ;;
         act w (Makedirs (Py.path_join (osp w) _log_dir "status")) ;;
         act w (StoreFile (Py.join_all (osp w) _log_dir ["status"; ".pip_operations_done"])
                  ["Pip operations done on: " ++ now])).
  apply (performed_after anything _
           (try_except
              (match outcome w (pip_self_upgrade sys_executable verbosity) with
               | Some x => raise x
               | None => ret tt
               end ;; rest_of_try) h)).
  - unfold try_except, bind, Deps.pip, act, bind, emit, pip_self_upgrade.
    destruct (2 <=? verbosity); reflexivity.
  - apply emits_try_except.
    + apply emits_bind.
      * destruct (outcome w _); [apply emits_raise | apply emits_ret].
      * intros _. unfold rest_of_try.
        apply emits_bind; [apply emits_install_requirements | intros _].
        emits_steps.
    + intros e. unfold h. destruct (is_Exception e); [apply emits_ret | exact I].
Qed.

(** The steps of a repair run *)
Lemma pip_upgrade_runs s :
  outcome w (pip_self_upgrade sys_executable verbosity) = None ->
  (if 2 <=? verbosity
   then Deps.pip w sys_executable ["install"; "--upgrade"; "--no-warn-script-location"; "pip"]
   else Deps.pip w sys_executable
          ["install"; "--quiet"; "--upgrade"; "--no-warn-script-location"; "pip"]) s
  = (Ret tt, add_events s [pip_self_upgrade sys_executable verbosity]).
Proof.
  unfold pip_self_upgrade, Deps.pip. intros H.
  destruct (2 <=? verbosity); apply act_succeeds, H.
Qed.

Lemma uninstall_runs package s :
  outcome w (pip_uninstall sys_executable verbosity package) = None
  \/ outcome w (pip_uninstall sys_executable verbosity package) = Some CalledProcessError ->
  try_except
    (if verbosity <? 3
     then Deps.pip w sys_executable ["uninstall"; "--quiet"; "-y"; package]
     else Deps.pip w sys_executable ["uninstall"; "-y"; package])
    (fun e => match e with
              | CalledProcessError => Some (ret tt)
              | _ => None
              end) s
  = (Ret tt, add_events s [pip_uninstall sys_executable verbosity package]).
Proof.
  unfold pip_uninstall, Deps.pip, try_except, act, bind, emit.
  destruct (verbosity <? 3); cbn [app]; intros [-> | ->]; reflexivity.
Qed.

Lemma repair_uninstalls_run s :
  (forall package,
     outcome w (pip_uninstall sys_executable verbosity package) = None
     \/ outcome w (pip_uninstall sys_executable verbosity package)
        = Some CalledProcessError) ->
  for_each ["xformers"; "torch"; "torchvision"; "triton"]
    (fun package =>
       try_except
         (if verbosity <? 3
          then Deps.pip w sys_executable ["uninstall"; "--quiet"; "-y"; package]
          else Deps.pip w sys_executable ["uninstall"; "-y"; package])
         (fun e => match e with
                   | CalledProcessError => Some (ret tt)
                   | _ => None
                   end)) s
  = (Ret tt, add_events s (repair_uninstalls sys_executable verbosity)).
Proof.
  intros H.
  rewrite (for_each_runs (fun package => [pip_uninstall sys_executable verbosity package])).
  - reflexivity.
  - intros package s0. apply uninstall_runs, H.
Qed.

Lemma requirement_installs_run written s :
  (forall e, outcome w e = None) ->
  (if 3 <=? verbosity
   then Deps.pip w sys_executable
          ["install"; "--upgrade"; "--use-pep517"; "-r"; tmp_name w]
   else for_each (Py.lines_of (String.concat EmptyString written))
          (fun line =>
             let package := Py.strip line in
             when (Py.truthy package)
               (Deps.pip w sys_executable
                  ["install"; "--upgrade"; "--quiet"; "--use-pep517";
                   "--no-warn-script-location"; package]))) s
  = (Ret tt, add_events s (requirement_installs w sys_executable verbosity written)).
Proof.
  intros Hout. unfold requirement_installs.
  destruct (3 <=? verbosity); [apply act_succeeds, Hout|].
  generalize (Py.lines_of (String.concat EmptyString written)). intros lines.
  revert s. induction lines as [|line lines IH]; intros s; [reflexivity|].
  cbn [for_each fmap list_fmap List.filter]. unfold bind.
  destruct (Py.truthy (Py.strip line)); cbn [when].
  - unfold Deps.pip. rewrite act_succeeds by apply Hout. rewrite IH. reflexivity.
  - unfold ret. rewrite IH. reflexivity.
Qed.

(** From its start to the removals of a repair run, on every system *)
Lemma fill_requirements_begins _dir runpod update interactive original s :
  read_lines w (Py.path_join (osp w) _dir "requirements.txt") = Ret original ->
  (forall package,
     outcome w (pip_uninstall sys_executable verbosity package) = None
     \/ outcome w (pip_uninstall sys_executable verbosity package)
        = Some CalledProcessError) ->
  begins (repair_uninstalls sys_executable verbosity)
    (Deps.fill_requirements w sys_executable verbosity _dir runpod update true interactive)
    s.
Proof.
  intros Hlines Hun. unfold Deps.fill_requirements.
  apply (begins_skip _ _ _ original); [rewrite Hlines; reflexivity|].
  cbn [when].
  apply (begins_then _ _ _ tt); [apply repair_uninstalls_run, Hun|].
  apply emits_bind.
  { destruct (String.eqb (os_family w) "macOS").
    - destruct (String.eqb (machine w) "arm64"); [apply emits_ret|].
      destruct (String.eqb (machine w) "x86_64"); apply emits_ret.
    - destruct (String.eqb (os_family w) "Windows"); [|apply emits_ret].
      apply emits_bind; [apply emits_install_torch | intros; apply emits_ret]. }
  intros written. emits_steps.
Qed.

Lemma install_requirements_begins _dir runpod update interactive original s :
  outcome w (StoreFile (tmp_name w) []) = None ->
  (forall package,
     outcome w (pip_uninstall sys_executable verbosity package) = None
     \/ outcome w (pip_uninstall sys_executable verbosity package)
        = Some CalledProcessError) ->
  path_exists w (Py.path_join (osp w) _dir "requirements.txt") = true ->
  read_lines w (Py.path_join (osp w) _dir "requirements.txt") = Ret original ->
  begins (StoreFile (tmp_name w) [] :: repair_uninstalls sys_executable verbosity)
    (Deps.install_requirements w sys_executable verbosity _dir runpod update true
       interactive) s.
Proof.
  intros Htmp Hun Hreq Hlines.
  unfold Deps.install_requirements. rewrite Hreq. cbn [when].
  apply (begins_bind [StoreFile (tmp_name w) []] _ _ _ tt);
    [apply act_succeeds, Htmp|].
  apply begins_left; [eapply fill_requirements_begins; eassumption|].
  intros written. apply emits_bind.
  - destruct (3 <=? verbosity); [apply emits_pip|].
    apply emits_for_each. intros line. apply emits_when. apply emits_pip.
  - intros _. emits_steps.
Qed.

Lemma repair_begins _dir runpod update interactive _log_dir original s :
  outcome w (pip_self_upgrade sys_executable verbosity) = None ->
  outcome w (StoreFile (tmp_name w) []) = None ->
  (forall package,
     outcome w (pip_uninstall sys_executable verbosity package) = None
     \/ outcome w (pip_uninstall sys_executable verbosity package)
        = Some CalledProcessError) ->
  path_exists w (Py.path_join (osp w) _dir "requirements.txt") = true ->
  read_lines w (Py.path_join (osp w) _dir "requirements.txt") = Ret original ->
  exists rest,
    performed (Deps.install_python_dependencies w sys_executable verbosity now
                 _dir runpod update true interactive _log_dir) s
    = (pip_self_upgrade sys_executable verbosity
       :: StoreFile (tmp_name w) []
       :: repair_uninstalls sys_executable verbosity ++ rest)%list.
Proof.
  intros Hpip Htmp Hun Hreq Hlines.
  unfold Deps.install_python_dependencies.
  rewrite orb_true_r, andb_false_r.
  apply (begins_performed
           (pip_self_upgrade sys_executable verbosity
            :: StoreFile (tmp_name w) [] :: repair_uninstalls sys_executable verbosity)).
  apply begins_try_except;
    [|intros e; destruct (is_Exception e); [apply emits_ret | exact I]].
  apply (begins_bind [pip_self_upgrade sys_executable verbosity] _ _ _ tt);
    [apply pip_upgrade_runs, Hpip|].
  apply begins_left; [eapply install_requirements_begins; eassumption|].
  intros _. emits_steps.
Qed.

(** The whole repair run where every command succeeds, on a system that
    is neither macOS nor Windows *)
Lemma fill_requirements_runs _dir runpod update interactive original s :
  (forall e, outcome w e = None) ->
  os_family w <> "macOS" -> os_family w <> "Windows" ->
  read_lines w (Py.path_join (osp w) _dir "requirements.txt") = Ret original ->
  Deps.fill_requirements w sys_executable verbosity _dir runpod update true interactive s
  = (Ret (written_requirements _dir runpod original),
     add_events s (repair_uninstalls sys_executable verbosity)).
Proof.
  intros Hout Hmac Hwin Hlines. unfold Deps.fill_requirements.
  apply String.eqb_neq in Hmac, Hwin. rewrite Hmac, Hwin.
  unfold bind at 1. rewrite Hlines. unfold lift at 1. cbn [when].
  unfold bind at 1. rewrite repair_uninstalls_run by (intros; left; apply Hout).
  reflexivity.
Qed.

Lemma install_requirements_runs _dir runpod update interactive original s :
  (forall e, outcome w e = None) ->
  os_family w <> "macOS" -> os_family w <> "Windows" ->
  path_exists w (Py.path_join (osp w) _dir "requirements.txt") = true ->
  read_lines w (Py.path_join (osp w) _dir "requirements.txt") = Ret original ->
  Deps.install_requirements w sys_executable verbosity _dir runpod update true
    interactive s
  = (Ret tt,
     add_events s
       (StoreFile (tmp_name w) []
        :: app (repair_uninstalls sys_executable verbosity)
             (app (requirement_installs w sys_executable verbosity
                     (written_requirements _dir runpod original))
                  (if path_exists w (tmp_name w) then [Remove (tmp_name w)] else [])))).
Proof.
  intros Hout Hmac Hwin Hreq Hlines.
  unfold Deps.install_requirements. rewrite Hreq. cbn [when].
  unfold bind at 1. rewrite act_succeeds by apply Hout.
  unfold bind at 1. rewrite (fill_requirements_runs _ _ _ _ original) by assumption.
  unfold bind at 1. rewrite requirement_installs_run by assumption.
  rewrite add_events_cons, !add_events_app.
  destruct (path_exists w (tmp_name w)); cbn [when].
  - rewrite act_succeeds by apply Hout. reflexivity.
  - reflexivity.
Qed.

Lemma repair_runs _dir runpod update interactive _log_dir original s :
  (forall e, outcome w e = None) ->
  os_family w <> "macOS" -> os_family w <> "Windows" ->
  path_exists w (Py.path_join (osp w) _dir "requirements.txt") = true ->
  read_lines w (Py.path_join (osp w) _dir "requirements.txt") = Ret original ->
  Deps.install_python_dependencies w sys_executable verbosity now
    _dir runpod update true interactive _log_dir s
  = (Ret tt,
     add_events s
       (repair_run w sys_executable verbosity now _dir runpod _log_dir original)).
Proof.
  intros Hout Hmac Hwin Hreq Hlines.
  unfold Deps.install_python_dependencies.
  rewrite orb_true_r, andb_false_r.
  unfold try_except.
  unfold bind at 1. rewrite pip_upgrade_runs by apply Hout.
  unfold bind at 1.
  rewrite (install_requirements_runs _ _ _ _ original) by assumption.
  unfold bind at 1. rewrite act_succeeds by apply Hout.
  rewrite act_succeeds by apply Hout.
  unfold repair_run, marker_write, flag_file_of.
  rewrite !add_events_unfold. unfold add_event. cbn [environ listing stdin trace].
  do 2 f_equal. rewrite <- !app_assoc. cbn [app]. rewrite <- !app_assoc.
  reflexivity.
Qed.
End deps_facts.

(** C7: with the marker file there and neither flag set the installer
    returns at once and does nothing.  With the repair flag set it does
    its work whether the marker file is there or not: (2) it starts with
    the update of pip; (3) on every system, where [requirements.txt] is
    there and can be read, the update of pip and the creation of the
    temporary file succeed and each removal succeeds or fails with
    CalledProcessError, it goes on with the temporary file and the
    removal of xformers, torch, torchvision and triton; (4) on a system
    that is neither macOS nor Windows and on which every command
    succeeds, it returns after exactly the actions of [repair_run]: the
    update of pip, the temporary file, the four removals, the
    installation of the requirements written to the file, the removal of
    the file if it is there, the status directory and the marker. *)
Theorem dependency_installer_gate w sys_executable verbosity now _dir runpod
    update repair interactive _log_dir original s :
  let flag_file := Py.join_all (osp w) _log_dir ["status"; ".pip_operations_done"] in
  let requirements_path := Py.path_join (osp w) _dir "requirements.txt" in
  (path_exists w flag_file = true -> update = false -> repair = false ->
   Deps.install_python_dependencies w sys_executable verbosity now
     _dir runpod update repair interactive _log_dir s = (Ret tt, s))
  /\ (repair = true ->
      exists rest,
        performed (Deps.install_python_dependencies w sys_executable verbosity now
                     _dir runpod update repair interactive _log_dir) s
        = pip_self_upgrade sys_executable verbosity :: rest)
  /\ (repair = true ->
      outcome w (pip_self_upgrade sys_executable verbosity) = None ->
      outcome w (StoreFile (tmp_name w) []) = None ->
      (forall package,
         outcome w (pip_uninstall sys_executable verbosity package) = None
         \/ outcome w (pip_uninstall sys_executable verbosity package)
            = Some CalledProcessError) ->
      path_exists w requirements_path = true ->
      read_lines w requirements_path = Ret original ->
      exists rest,
        performed (Deps.install_python_dependencies w sys_executable verbosity now
                     _dir runpod update repair interactive _log_dir) s
        = (pip_self_upgrade sys_executable verbosity
           :: StoreFile (tmp_name w) []
           :: repair_uninstalls sys_executable verbosity ++ rest)%list)
  /\ (repair = true ->
      (forall e, outcome w e = None) ->
      os_family w <> "macOS" -> os_family w <> "Windows" ->
      path_exists w requirements_path = true ->
      read_lines w requirements_path = Ret original ->
      Deps.install_python_dependencies w sys_executable verbosity now
        _dir runpod update repair interactive _log_dir s
      = (Ret tt,
         add_events s
           (repair_run w sys_executable verbosity now _dir runpod _log_dir original))).
Proof.
  intros flag_file requirements_path. repeat split.
  - intros He -> ->. unfold Deps.install_python_dependencies.
    fold flag_file. rewrite He. reflexivity.
  - intros ->. apply install_begins_with_pip.
    rewrite orb_true_r. apply andb_false_r.
  - intros ->. apply repair_begins.
  - intros ->. apply repair_runs.
Qed.

Lemma dependency_installer_gate_witness :
  let exe := "/opt/kohya_ss/venv/bin/python3" in
  let s := fresh_state (Some [".git"; "venv"; "requirements.txt"]) in
  let skipped :=
    Deps.install_python_dependencies provisioned_world exe
      0 "2023-05-01 10:00:00" "/opt/kohya_ss" false false false false
      "/opt/kohya_ss/logs" in
  let repaired :=
    Deps.install_python_dependencies provisioned_world exe
      0 "2023-05-01 10:00:00" "/opt/kohya_ss" false false true false
      "/opt/kohya_ss/logs" in
  path_exists provisioned_world marker_file = true
  /\ skipped s = (Ret tt, s)
  /\ (exists rest, performed repaired s = pip_self_upgrade exe 0 :: rest)
  /\ (exists rest,
        performed repaired s
        = (pip_self_upgrade exe 0 :: StoreFile "/tmp/tmpreq" []
           :: repair_uninstalls exe 0 ++ rest)%list)
  /\ repaired s
     = (Ret tt,
        add_events s
          [ Run [exe; "-m"; "pip"; "install"; "--quiet"; "--upgrade";
                 "--no-warn-script-location"; "pip"];
            StoreFile "/tmp/tmpreq" [];
            Run [exe; "-m"; "pip"; "uninstall"; "--quiet"; "-y"; "xformers"];
            Run [exe; "-m"; "pip"; "uninstall"; "--quiet"; "-y"; "torch"];
            Run [exe; "-m"; "pip"; "uninstall"; "--quiet"; "-y"; "torchvision"];
            Run [exe; "-m"; "pip"; "uninstall"; "--quiet"; "-y"; "triton"];
            Run [exe; "-m"; "pip"; "install"; "--upgrade"; "--quiet"; "--use-pep517";
                 "--no-warn-script-location"; "gradio==3.23.0"];
            Run [exe; "-m"; "pip"; "install"; "--upgrade"; "--quiet"; "--use-pep517";
                 "--no-warn-script-location"; "tqdm"];
            Remove "/tmp/tmpreq";
            Makedirs "/opt/kohya_ss/logs/status";
            StoreFile marker_file ["Pip operations done on: 2023-05-01 10:00:00"] ]).
Proof.
  intros exe s skipped repaired.
  split; [reflexivity|]. split; [|split; [|split]].
  - apply (dependency_installer_gate provisioned_world exe
             0 "2023-05-01 10:00:00" "/opt/kohya_ss" false false false false
             "/opt/kohya_ss/logs" sample_requirements s); reflexivity.
  - apply (dependency_installer_gate provisioned_world exe
             0 "2023-05-01 10:00:00" "/opt/kohya_ss" false false true false
             "/opt/kohya_ss/logs" sample_requirements s). reflexivity.
  - apply (dependency_installer_gate provisioned_world exe
             0 "2023-05-01 10:00:00" "/opt/kohya_ss" false false true false
             "/opt/kohya_ss/logs" sample_requirements s);
      solve [reflexivity | intros; left; reflexivity].
  - apply (dependency_installer_gate provisioned_world exe
             0 "2023-05-01 10:00:00" "/opt/kohya_ss" false false true false
             "/opt/kohya_ss/logs" sample_requirements s);
      solve [reflexivity | intros; reflexivity | discriminate].
Defined.

(** The repair run of the example in full: the marker file is there, the
    four packages are removed, the requirements are installed one by one
    and the marker is written again. *)
Lemma repair_run_example :
  let exe := "/opt/kohya_ss/venv/bin/python3" in
  path_exists provisioned_world marker_file = true
  /\ performed (Deps.install_python_dependencies provisioned_world exe
                  0 "2023-05-01 10:00:00" "/opt/kohya_ss" false false true false
                  "/opt/kohya_ss/logs")
               (fresh_state (Some [".git"; "venv"; "requirements.txt"]))
     = [ Run [exe; "-m"; "pip"; "install"; "--quiet"; "--upgrade";
              "--no-warn-script-location"; "pip"];
         StoreFile "/tmp/tmpreq" [];
         Run [exe; "-m"; "pip"; "uninstall"; "--quiet"; "-y"; "xformers"];
         Run [exe; "-m"; "pip"; "uninstall"; "--quiet"; "-y"; "torch"];
         Run [exe; "-m"; "pip"; "uninstall"; "--quiet"; "-y"; "torchvision"];
         Run [exe; "-m"; "pip"; "uninstall"; "--quiet"; "-y"; "triton"];
         Run [exe; "-m"; "pip"; "install"; "--upgrade"; "--quiet"; "--use-pep517";
              "--no-warn-script-location"; "gradio==3.23.0"];
         Run [exe; "-m"; "pip"; "install"; "--upgrade"; "--quiet"; "--use-pep517";
              "--no-warn-script-location"; "tqdm"];
         Remove "/tmp/tmpreq";
         Makedirs "/opt/kohya_ss/logs/status";
         StoreFile marker_file ["Pip operations done on: 2023-05-01 10:00:00"] ].
Proof. cbv zeta. split; vm_compute; reflexivity. Qed.

(** ** The exit status *)

(** C8, as stated, fails: an interrupt during the clone ends the process
    with status 1. *)
Lemma interrupted_clone_exits_with_one :
  let w := linux_world nothing nothing nothing (Ret EmptyString) interrupted_clone in
  let run := Launch.script w (sample_steps w) "/usr/bin/python3" in
  performed run (fresh_state (Some [])) =
    [ Run ["python3"; "-m"; "venv"; "/opt/kohya_ss/venv"];
      Run ["git"; "--version"];
      Move "/opt/kohya_ss/venv" "/tmp/unzip/venv";
      GitClone default_git_repo "/opt/kohya_ss" "master" (CredHttps None None) ]
  /\ outcome w (GitClone default_git_repo "/opt/kohya_ss" "master" (CredHttps None None))
     = Some KeyboardInterrupt
  /\ Launch.exit_status (result run (fresh_state (Some []))) = 1.
Proof. cbv zeta. repeat split. Qed.

Lemma launch_interrupted w venv_python_bin _args s contained :
  Links.in_container w = Ret contained ->
  (contained = false ->
   path_exists w (Py.path_join (osp w) (Launch.dir _args) "venv") = true
   /\ path_exists w
        (if negb (String.eqb (sys_platform w) "win32")
         then Py.join_all (osp w) (Py.path_join (osp w) (Launch.dir _args) "venv")
                ["bin"; "python"]
         else Py.join_all (osp w) (Py.path_join (osp w) (Launch.dir _args) "venv")
                ["Scripts"; "python.exe"]) = true) ->
  path_exists w (Py.path_join (osp w) (Launch.dir _args) "kohya_gui.py") = true ->
  outcome w (Run (Launch.gui_command w venv_python_bin _args)) = Some KeyboardInterrupt ->
  Launch.launch_kohya_gui w venv_python_bin _args s
  = (Raise (SystemExit 0),
     add_event s (Run (Launch.gui_command w venv_python_bin _args))).
Proof.
  intros Hc Hvenv Hgui Hint. unfold Launch.launch_kohya_gui.
  rewrite Hc. unfold bind at 1. unfold lift at 1.
  assert (G : forall s0,
    (if path_exists w (Py.path_join (osp w) (Launch.dir _args) "kohya_gui.py")
     then try_except (act w (Run (Launch.gui_command w venv_python_bin _args)))
            (fun e => match e with
                      | KeyboardInterrupt => Some (lift (py_exit 0))
                      | _ => None
                      end)
     else lift (py_exit 1)) s0
    = (Raise (SystemExit 0),
       add_event s0 (Run (Launch.gui_command w venv_python_bin _args)))).
  { intros s0. rewrite Hgui. unfold try_except, act, bind, emit. rewrite Hint.
    reflexivity. }
  destruct contained; cbn [negb when].
  - unfold bind, ret. apply G.
  - destruct (Hvenv eq_refl) as [Hv Hp]. rewrite Hv. cbn [negb].
    rewrite Hp. cbn [negb]. unfold bind, ret. apply G.
Qed.

(** The script up to its branch on [--no-setup] *)
Lemma script_body_starts w st exe s _args python_bin contained s' :
  starts_up w st s _args python_bin contained s' ->
  Launch.script_body w st exe s
  = (if Launch.no_setup _args && negb (Launch.setup_only _args)
     then Launch.launch_kohya_gui w (venv_python_bin_of w _args python_bin contained)
            _args ;;
          lift (py_exit 0)
     else Launch.main w st (sys_executable_of w exe _args python_bin contained)
            (venv_python_bin_of w _args python_bin contained)
            (site_packages_dir_of w _args python_bin contained) _args) s'.
Proof.
  intros (parsed & l & s1 & s2 & s3 & s4 & Hp & Hl & -> & Hx & Ho & Hf & Ht & Hv & Hc
          & Hvenv).
  unfold Launch.script_body.
  unfold bind at 1. rewrite Hp.
  unfold bind at 1. rewrite Hl.
  rewrite Hx.
  unfold bind at 1. rewrite Ho.
  unfold bind at 1. rewrite Hf.
  rewrite Ht, Hv. cbn [negb].
  unfold bind at 1. rewrite Hc. unfold lift at 1.
  destruct contained; cbn [negb].
  - subst s'. unfold bind at 1. unfold ret at 1. reflexivity.
  - destruct Hvenv as (s5 & ok & Hcreate & Hcheck).
    unfold bind at 1. unfold bind at 1. rewrite Hcreate.
    unfold bind at 1. rewrite Hcheck. unfold ret at 1. reflexivity.
Qed.

(** [main] up to the acquisition, the installation and the GUI *)
Lemma main_acquires w st sys_executable venv_python_bin site_packages_dir _args s s' :
  acquisition_starts w st _args s s' ->
  Launch.main w st sys_executable venv_python_bin site_packages_dir _args s
  = (do updated <- Acquire.update_kohya_ss w (Launch.dir _args) (Launch.git_repo _args)
                     (Launch.branch _args) (Launch.update _args) ;
     when updated
       (do brewed <- Launch.brew_install_tensorflow_deps st (Launch.verbosity _args) ;
        when brewed
          (Deps.install_python_dependencies w sys_executable (Launch.verbosity _args)
             (Launch.now st) (Launch.dir _args) (Launch.runpod _args)
             (Launch.update _args) (Launch.repair _args) (Launch.interactive _args)
             (Launch.log_dir _args) ;;
           Links.setup_file_links w site_packages_dir (Launch.runpod _args) ;;
           Launch.configure_accelerate st (Launch.interactive _args) ;;
           if negb (Launch.setup_only _args)
           then Launch.launch_kohya_gui w venv_python_bin _args
           else lift (py_exit 0)))) s'.
Proof.
  intros (Hg & Hd & Hb & s1 & Hfolder & Hspace).
  unfold Launch.main. rewrite Hg, Hd, Hb. cbn [negb orb].
  unfold bind at 1. rewrite Hfolder.
  unfold bind at 1. rewrite Hspace. reflexivity.
Qed.

Lemma main_installs w st sys_executable venv_python_bin site_packages_dir _args s s' :
  installation_starts w st _args s s' ->
  Launch.main w st sys_executable venv_python_bin site_packages_dir _args s
  = (Deps.install_python_dependencies w sys_executable (Launch.verbosity _args)
       (Launch.now st) (Launch.dir _args) (Launch.runpod _args)
       (Launch.update _args) (Launch.repair _args) (Launch.interactive _args)
       (Launch.log_dir _args) ;;
     Links.setup_file_links w site_packages_dir (Launch.runpod _args) ;;
     Launch.configure_accelerate st (Launch.interactive _args) ;;
     if negb (Launch.setup_only _args)
     then Launch.launch_kohya_gui w venv_python_bin _args
     else lift (py_exit 0)) s'.
Proof.
  intros (s1 & s2 & Ha & Hu & Hbrew).
  rewrite (main_acquires _ _ _ _ _ _ _ _ Ha).
  unfold bind at 1. rewrite Hu. cbn [when].
  unfold bind at 1. rewrite Hbrew. reflexivity.
Qed.

Lemma main_launches w st exe _args python_bin contained s s' :
  sets_up w st exe _args python_bin contained s s' ->
  Launch.setup_only _args = false ->
  Launch.main w st (sys_executable_of w exe _args python_bin contained)
    (venv_python_bin_of w _args python_bin contained)
    (site_packages_dir_of w _args python_bin contained) _args s
  = Launch.launch_kohya_gui w (venv_python_bin_of w _args python_bin contained) _args s'.
Proof.
  intros (s1 & s2 & s3 & Hi & Hdeps & Hlinks & Hacc) Hso.
  rewrite (main_installs _ _ _ _ _ _ _ _ Hi).
  unfold bind at 1. rewrite Hdeps.
  unfold bind at 1. rewrite Hlinks.
  unfold bind at 1. rewrite Hacc.
  rewrite Hso. reflexivity.
Qed.

Lemma script_of_body w st exe s r s' :
  Launch.script_body w st exe s = (Raise r, s') ->
  Launch.script w st exe s
  = match r with
    | KeyboardInterrupt => (Raise (SystemExit 1), s')
    | _ => (Raise r, s')
    end.
Proof.
  intros H. unfold Launch.script, try_except. rewrite H. destruct r; reflexivity.
Qed.

(** C8, as amended.  (1) An interrupt that arrives while the GUI runs
    makes [launch_kohya_gui] leave with [sys.exit(0)].  (2), (3) The
    process ends with the status of the [SystemExit] that leaves the
    script's body, and with status 1 when a [KeyboardInterrupt] leaves it.
    (4) A run with set-up whose steps come through and which is
    interrupted while the GUI runs ends with status 0, the start of the
    GUI being its last action; (5) so does a run with [--no-setup].
    (6) A run that is interrupted while [update_kohya_ss] acquires the
    code ends with status 1, and (7) so does a run that is interrupted
    while the requirements are installed. *)
Theorem interrupt_exit_status :
  (forall w venv_python_bin _args s contained,
     Links.in_container w = Ret contained ->
     (contained = false ->
      path_exists w (Py.path_join (osp w) (Launch.dir _args) "venv") = true
      /\ path_exists w
           (if negb (String.eqb (sys_platform w) "win32")
            then Py.join_all (osp w) (Py.path_join (osp w) (Launch.dir _args) "venv")
                   ["bin"; "python"]
            else Py.join_all (osp w) (Py.path_join (osp w) (Launch.dir _args) "venv")
                   ["Scripts"; "python.exe"]) = true) ->
     path_exists w (Py.path_join (osp w) (Launch.dir _args) "kohya_gui.py") = true ->
     outcome w (Run (Launch.gui_command w venv_python_bin _args))
       = Some KeyboardInterrupt ->
     Launch.launch_kohya_gui w venv_python_bin _args s
     = (Raise (SystemExit 0),
        add_event s (Run (Launch.gui_command w venv_python_bin _args))))
  /\ (forall w st exe s code,
     result (Launch.script_body w st exe) s = Raise (SystemExit code) ->
     Launch.exit_status (result (Launch.script w st exe) s) = code)
  /\ (forall w st exe s,
     result (Launch.script_body w st exe) s = Raise KeyboardInterrupt ->
     Launch.exit_status (result (Launch.script w st exe) s) = 1)
  /\ (forall w st exe s _args python_bin contained s1 s2,
     let gui := Run (Launch.gui_command w
                       (venv_python_bin_of w _args python_bin contained) _args) in
     starts_up w st s _args python_bin contained s1 ->
     Launch.no_setup _args = false ->
     Launch.setup_only _args = false ->
     sets_up w st exe _args python_bin contained s1 s2 ->
     gui_can_start w _args contained ->
     outcome w gui = Some KeyboardInterrupt ->
     Launch.script w st exe s = (Raise (SystemExit 0), add_event s2 gui)
     /\ Launch.exit_status (result (Launch.script w st exe) s) = 0)
  /\ (forall w st exe s _args python_bin contained s1,
     let gui := Run (Launch.gui_command w
                       (venv_python_bin_of w _args python_bin contained) _args) in
     starts_up w st s _args python_bin contained s1 ->
     Launch.no_setup _args = true ->
     gui_can_start w _args contained ->
     outcome w gui = Some KeyboardInterrupt ->
     Launch.script w st exe s = (Raise (SystemExit 0), add_event s1 gui)
     /\ Launch.exit_status (result (Launch.script w st exe) s) = 0)
  /\ (forall w st exe s _args python_bin contained s1 s2 s3,
     starts_up w st s _args python_bin contained s1 ->
     Launch.no_setup _args = false ->
     acquisition_starts w st _args s1 s2 ->
     Acquire.update_kohya_ss w (Launch.dir _args) (Launch.git_repo _args)
       (Launch.branch _args) (Launch.update _args) s2 = (Raise KeyboardInterrupt, s3) ->
     Launch.script w st exe s = (Raise (SystemExit 1), s3)
     /\ Launch.exit_status (result (Launch.script w st exe) s) = 1)
  /\ (forall w st exe s _args python_bin contained s1 s2 s3,
     starts_up w st s _args python_bin contained s1 ->
     Launch.no_setup _args = false ->
     installation_starts w st _args s1 s2 ->
     Deps.install_python_dependencies w
       (sys_executable_of w exe _args python_bin contained)
       (Launch.verbosity _args) (Launch.now st) (Launch.dir _args)
       (Launch.runpod _args) (Launch.update _args) (Launch.repair _args)
       (Launch.interactive _args) (Launch.log_dir _args) s2
     = (Raise KeyboardInterrupt, s3) ->
     Launch.script w st exe s = (Raise (SystemExit 1), s3)
     /\ Launch.exit_status (result (Launch.script w st exe) s) = 1).
Proof.
  split; [|split; [|split; [|split; [|split; [|split]]]]].
  - intros. apply (launch_interrupted w venv_python_bin _args s contained); assumption.
  - intros w st exe s code H. unfold Launch.script, result, try_except in *.
    destruct (Launch.script_body w st exe s) as [r s']. cbn in H. subst r. reflexivity.
  - intros w st exe s H. unfold Launch.script, result, try_except in *.
    destruct (Launch.script_body w st exe s) as [r s']. cbn in H. subst r. reflexivity.
  - intros w st exe s _args python_bin contained s1 s2 gui Hstart Hns Hso Hsetup
           [Hvenv Hgui] Hint.
    assert (E : Launch.script w st exe s = (Raise (SystemExit 0), add_event s2 gui)).
    { rewrite (script_of_body w st exe s (SystemExit 0) (add_event s2 gui));
        [reflexivity|].
      rewrite (script_body_starts _ _ _ _ _ _ _ _ Hstart). rewrite Hns. cbn [andb].
      rewrite (main_launches _ _ _ _ _ _ _ _ Hsetup Hso).
      destruct (Links.in_container w) as [c|x] eqn:Hc.
      - apply (launch_interrupted w _ _args s2 c Hc); [|exact Hgui|exact Hint].
        intros ->. apply Hvenv.
        destruct Hstart as (? & ? & ? & ? & ? & ? & _ & _ & _ & _ & _ & _ & _ & _ & Hc' & _).
        congruence.
      - destruct Hstart as (? & ? & ? & ? & ? & ? & _ & _ & _ & _ & _ & _ & _ & _ & Hc' & _).
        congruence. }
    split; [exact E|]. unfold result. rewrite E. reflexivity.
  - intros w st exe s _args python_bin contained s1 gui Hstart Hns [Hvenv Hgui] Hint.
    assert (Hso : Launch.setup_only _args = false).
    { destruct Hstart as (? & ? & ? & ? & ? & ? & _ & _ & _ & Hx & _).
      rewrite Hns in Hx. exact Hx. }
    assert (Hc : Links.in_container w = Ret contained).
    { destruct Hstart as (? & ? & ? & ? & ? & ? & _ & _ & _ & _ & _ & _ & _ & _ & Hc & _).
      exact Hc. }
    assert (E : Launch.script w st exe s = (Raise (SystemExit 0), add_event s1 gui)).
    { rewrite (script_of_body w st exe s (SystemExit 0) (add_event s1 gui));
        [reflexivity|].
      rewrite (script_body_starts _ _ _ _ _ _ _ _ Hstart). rewrite Hns, Hso.
      cbn [andb negb]. unfold bind.
      rewrite (launch_interrupted w _ _args s1 contained Hc Hvenv Hgui Hint).
      reflexivity. }
    split; [exact E|]. unfold result. rewrite E. reflexivity.
  - intros w st exe s _args python_bin contained s1 s2 s3 Hstart Hns Ha Hu.
    assert (E : Launch.script w st exe s = (Raise (SystemExit 1), s3)).
    { rewrite (script_of_body w st exe s KeyboardInterrupt s3); [reflexivity|].
      rewrite (script_body_starts _ _ _ _ _ _ _ _ Hstart). rewrite Hns. cbn [andb].
      rewrite (main_acquires _ _ _ _ _ _ _ _ Ha).
      unfold bind. rewrite Hu. reflexivity. }
    split; [exact E|]. unfold result. rewrite E. reflexivity.
  - intros w st exe s _args python_bin contained s1 s2 s3 Hstart Hns Hi Hd.
    assert (E : Launch.script w st exe s = (Raise (SystemExit 1), s3)).
    { rewrite (script_of_body w st exe s KeyboardInterrupt s3); [reflexivity|].
      rewrite (script_body_starts _ _ _ _ _ _ _ _ Hstart). rewrite Hns. cbn [andb].
      rewrite (main_installs _ _ _ _ _ _ _ _ Hi).
      unfold bind. rewrite Hd. reflexivity. }
    split; [exact E|]. unfold result. rewrite E. reflexivity.
Qed.

Ltac holds_then := split; [reflexivity|].
Ltac computed := vm_compute; reflexivity.

Lemma interrupt_exit_status_witness :
  let w := linux_world everything nothing nothing (Ret EmptyString) interrupted_gui in
  let w' := linux_world nothing nothing nothing (Ret EmptyString) interrupted_clone in
  let w'' := linux_world unprovisioned nothing nothing (Ret EmptyString) interrupted_pip in
  let s := fresh_state (Some [".git"; "venv"; "kohya_gui.py"]) in
  let gui := Run ["/opt/kohya_ss/venv/bin/python3"; "/opt/kohya_ss/kohya_gui.py";
                  "--listen"; "127.0.0.1"; "--server-port"; "0"] in
  Launch.launch_kohya_gui w "/opt/kohya_ss/venv/bin/python3" sample_args s
  = (Raise (SystemExit 0), add_event s gui)
  /\ Launch.exit_status (result (Launch.script w (no_setup_steps w) "/usr/bin/python3") s) = 0
  /\ Launch.exit_status
       (result (Launch.script w' (sample_steps w') "/usr/bin/python3")
               (fresh_state (Some []))) = 1
  /\ (exists s2,
        Launch.script w (sample_steps w) "/usr/bin/python3" s
        = (Raise (SystemExit 0), add_event s2 gui)
        /\ Launch.exit_status
             (result (Launch.script w (sample_steps w) "/usr/bin/python3") s) = 0)
  /\ (exists s1,
        Launch.script w (no_setup_steps w) "/usr/bin/python3" s
        = (Raise (SystemExit 0), add_event s1 gui)
        /\ Launch.exit_status
             (result (Launch.script w (no_setup_steps w) "/usr/bin/python3") s) = 0)
  /\ (exists s3,
        Launch.script w' (sample_steps w') "/usr/bin/python3" (fresh_state (Some []))
        = (Raise (SystemExit 1), s3)
        /\ Launch.exit_status
             (result (Launch.script w' (sample_steps w') "/usr/bin/python3")
                     (fresh_state (Some []))) = 1)
  /\ (exists s3,
        Launch.script w'' (sample_steps w'') "/usr/bin/python3" s
        = (Raise (SystemExit 1), s3)
        /\ Launch.exit_status
             (result (Launch.script w'' (sample_steps w'') "/usr/bin/python3") s) = 1).
Proof.
  intros w w' w'' s gui.
  pose (a := Launch.set_log_dir sample_args "/opt/kohya_ss/logs").
  pose (a0 := Launch.set_log_dir no_setup_args "/opt/kohya_ss/logs").
  pose (exe := "/opt/kohya_ss/venv/bin/python3").
  pose (venv w0 s0 :=
          snd (Launch.create_venv (sample_steps w0) "python3" "/opt/kohya_ss/venv" s0)).
  pose (updated w0 s0 :=
          snd (Acquire.update_kohya_ss w0 "/opt/kohya_ss" default_git_repo "master"
                 false (venv w0 s0))).
  pose (installed w0 s0 :=
          snd (Deps.install_python_dependencies w0 exe 0 "2023-05-01 10:00:00"
                 "/opt/kohya_ss" false false false false "/opt/kohya_ss/logs"
                 (updated w0 s0))).
  pose (linked w0 s0 :=
          snd (Links.setup_file_links w0 "/opt/kohya_ss/venv/Lib/site-packages" false
                 (installed w0 s0))).
  destruct interrupt_exit_status as (A & B & C & D & E & F & G).
  split; [|split; [|split; [|split; [|split; [|split]]]]].
  - apply (A w "/opt/kohya_ss/venv/bin/python3" sample_args s false).
    + reflexivity.
    + intros _. split; reflexivity.
    + reflexivity.
    + reflexivity.
  - apply (B w (no_setup_steps w) "/usr/bin/python3" s 0). reflexivity.
  - apply (C w' (sample_steps w') "/usr/bin/python3" (fresh_state (Some []))). reflexivity.
  - exists (linked w s).
    apply (D w (sample_steps w) "/usr/bin/python3" s a "python3" false
             (venv w s) (linked w s)).
    + exists sample_args, "/opt/kohya_ss/logs", s, s, s, s.
      do 9 holds_then. exists (venv w s), true. split; computed.
    + reflexivity.
    + reflexivity.
    + exists (updated w s), (installed w s), (linked w s).
      split; [|split; [|split]]; [|computed..].
      exists (venv w s), (updated w s). split; [|split; computed].
      do 3 holds_then. exists (venv w s). split; computed.
    + split; [intros _; split; reflexivity | reflexivity].
    + reflexivity.
  - exists (snd (Launch.create_venv (no_setup_steps w) "python3" "/opt/kohya_ss/venv" s)).
    apply (E w (no_setup_steps w) "/usr/bin/python3" s a0 "python3" false
             (snd (Launch.create_venv (no_setup_steps w) "python3"
                     "/opt/kohya_ss/venv" s))).
    + exists no_setup_args, "/opt/kohya_ss/logs", s, s, s, s.
      do 9 holds_then.
      exists (snd (Launch.create_venv (no_setup_steps w) "python3"
                     "/opt/kohya_ss/venv" s)), true.
      split; computed.
    + reflexivity.
    + split; [intros _; split; reflexivity | reflexivity].
    + reflexivity.
  - exists (updated w' (fresh_state (Some []))).
    apply (F w' (sample_steps w') "/usr/bin/python3" (fresh_state (Some [])) a
             "python3" false (venv w' (fresh_state (Some [])))
             (venv w' (fresh_state (Some []))) (updated w' (fresh_state (Some [])))).
    + exists sample_args, "/opt/kohya_ss/logs", (fresh_state (Some [])),
        (fresh_state (Some [])), (fresh_state (Some [])), (fresh_state (Some [])).
      do 9 holds_then. exists (venv w' (fresh_state (Some []))), true. split; computed.
    + reflexivity.
    + do 3 holds_then. exists (venv w' (fresh_state (Some []))). split; computed.
    + computed.
  - exists (installed w'' s).
    apply (G w'' (sample_steps w'') "/usr/bin/python3" s a "python3" false
             (venv w'' s) (updated w'' s) (installed w'' s)).
    + exists sample_args, "/opt/kohya_ss/logs", s, s, s, s.
      do 9 holds_then. exists (venv w'' s), true. split; computed.
    + reflexivity.
    + exists (venv w'' s), (updated w'' s). split; [|split; computed].
      do 3 holds_then. exists (venv w'' s). split; computed.
    + computed.
Defined.

(** * Further properties *)

(** ** Strings *)

Lemma append_cons c s t : String c s ++ t = String c (s ++ t).
Proof. reflexivity. Qed.

Lemma append_empty_r s : s ++ EmptyString = s.
Proof.
  induction s as [|c s IH]; [reflexivity|]. rewrite append_cons, IH. reflexivity.
Qed.

Lemma append_assoc s t u : (s ++ t) ++ u = s ++ (t ++ u).
Proof.
  induction s as [|c s IH]; [reflexivity|]. rewrite !append_cons, IH. reflexivity.
Qed.

(** ** Configuration *)

Lemma find_config_file_none w locations :
  Setup.find_config_file w locations = None <->
  Forall (fun l => path_isfile w (path_abspath w l) = false) locations.
Proof.
  induction locations as [|l rest IH]; simpl.
  - split; [constructor | reflexivity].
  - destruct (path_isfile w (path_abspath w l)) eqn:E.
    + split; [discriminate|]. intros H. inversion H; congruence.
    + rewrite IH. split; [intros H; constructor; assumption|].
      intros H. inversion H; assumption.
Qed.

(** X1: [find_config_file] answers the absolute path of the first
    location that is a file: no location before it is one. *)
Theorem find_config_file_first w locations p :
  Setup.find_config_file w locations = Some p <->
  exists before location after,
    locations = (before ++ location :: after)%list
    /\ p = path_abspath w location
    /\ path_isfile w p = true
    /\ Forall (fun l => path_isfile w (path_abspath w l) = false) before.
Proof.
  induction locations as [|l rest IH]; simpl.
  - split; [discriminate|]. intros (before & location & after & E & _).
    destruct before; discriminate.
  - destruct (path_isfile w (path_abspath w l)) eqn:F.
    + split.
      * intros [= <-]. exists [], l, rest. repeat split; [exact F | constructor].
      * intros (before & location & after & E & -> & Hp & Hb).
        destruct before as [|b before]; simpl in E.
        -- injection E as -> _. reflexivity.
        -- injection E as -> _. inversion Hb; congruence.
    + rewrite IH. split.
      * intros (before & location & after & -> & -> & Hp & Hb).
        exists (l :: before), location, after.
        repeat split; [exact Hp | constructor; assumption].
      * intros (before & location & after & E & -> & Hp & Hb).
        destruct before as [|b before]; simpl in E.
        -- injection E as -> _. congruence.
        -- injection E as -> ->. exists before, location, after.
           inversion Hb; subst. repeat split; assumption.
Qed.

Lemma merge_file_finds_or_skips read_yaml location d e :
  Config.merge_file read_yaml location d = Raise e -> e <> FileNotFoundError.
Proof.
  unfold Config.merge_file. destruct (read_yaml location) as [doc|e'].
  - destruct (Config.doc_truthy doc); [|discriminate].
    destruct doc; cbn; congruence.
  - destruct e'; congruence.
Qed.

Lemma merge_files_finds_or_skips read_yaml locations d e :
  Config.merge_files read_yaml locations d = Raise e -> e <> FileNotFoundError.
Proof.
  revert d. induction locations as [|l rest IH]; intros d; simpl; [discriminate|].
  pose proof (merge_file_finds_or_skips read_yaml l d) as H.
  destruct (Config.merge_file read_yaml l d) as [d'|e']; cbn; [apply IH|].
  intros [= <-]. apply H. reflexivity.
Qed.

(** X2: a configuration file that is missing is no error, and a
    configuration without any entry is reported as none: [load_config]
    never raises [FileNotFoundError] and never returns an empty mapping. *)
Theorem load_config_missing_files platform osp script_dir environ read_yaml _config_file :
  Config.load_config platform osp script_dir environ read_yaml _config_file
    <> Raise FileNotFoundError
  /\ Config.load_config platform osp script_dir environ read_yaml _config_file
    <> Ret (Some ∅).
Proof.
  unfold Config.load_config.
  pose proof (merge_files_finds_or_skips read_yaml
                (Config.config_file_locations platform osp script_dir environ) ∅) as H1.
  destruct (Config.merge_files _ _ _) as [d1|e1]; cbn.
  2:{ split; [|discriminate]. intros [= ->]. exact (H1 _ eq_refl eq_refl). }
  assert (H2 : forall e, match _config_file with
               | Some f => Config.merge_file read_yaml f d1
               | None => Ret d1
               end = Raise e -> e <> FileNotFoundError).
  { intros e. destruct _config_file; [apply merge_file_finds_or_skips | discriminate]. }
  destruct (match _config_file with Some f => _ | None => _ end) as [d2|e2]; cbn.
  2:{ split; [|discriminate]. intros [= ->]. exact (H2 _ eq_refl eq_refl). }
  split; [discriminate|]. case_bool_decide; [discriminate | congruence].
Qed.

Lemma default_of_apply_setting arg table long_opt :
  Config.default_of long_opt (Config.apply_setting arg table)
  = (fun v0 => if names_option arg long_opt then Config.value arg else v0)
      <$> Config.default_of long_opt table.
Proof.
  unfold Config.default_of, Config.apply_setting, names_option.
  induction table as [|x table IH]; [reflexivity|].
  cbn [map find].
  destruct (String.eqb ("--" ++ Py.lower (Config.name arg)) (Config.long x)) eqn:E;
    cbn [Config.long];
    destruct (String.eqb (Config.long x) long_opt) eqn:El; try exact IH;
    apply String.eqb_eq in El; subst long_opt; rewrite E; reflexivity.
Qed.

Lemma last_setting_snoc long_opt settings arg :
  last_setting long_opt (settings ++ [arg])%list
  = if names_option arg long_opt then Some arg else last_setting long_opt settings.
Proof.
  unfold last_setting. rewrite List.filter_app. cbn [List.filter].
  destruct (names_option arg long_opt).
  - apply last_snoc.
  - rewrite app_nil_r. reflexivity.
Qed.

Lemma default_of_settings settings table long_opt :
  Config.default_of long_opt
    (fold_left (fun t arg => Config.apply_setting arg t) settings table)
  = (fun v0 => from_option Config.value v0 (last_setting long_opt settings))
      <$> Config.default_of long_opt table.
Proof.
  induction settings as [|arg settings IH] using rev_ind.
  - cbn [fold_left]. destruct (Config.default_of long_opt table); reflexivity.
  - rewrite fold_left_app. cbn [fold_left].
    rewrite default_of_apply_setting, IH, last_setting_snoc.
    destruct (Config.default_of long_opt table); cbn; [|reflexivity].
    destruct (names_option arg long_opt); reflexivity.
Qed.

Lemma default_of_section section d table long_opt :
  Config.default_of long_opt (Config.apply_section section d table)
  = (fun v0 => from_option Config.value v0
                 (last_setting long_opt (section_settings d section)))
      <$> Config.default_of long_opt table.
Proof.
  unfold Config.apply_section, section_settings.
  destruct (d !! section) as [settings|]; cbn [from_option id].
  - apply default_of_settings.
  - destruct (Config.default_of long_opt table); reflexivity.
Qed.

(** X3: the default an option of the table ends with is the value of the
    last record of [kohya_gui_arguments] whose name, in lower case and
    after two hyphens, is the option; without such a record, that of the
    last such record of [setup_arguments]; without either, the default
    it had.  An option that is not in the table stays out of it. *)
Theorem configured_default_is_last_setting d table long_opt :
  Config.default_of long_opt (Config.update_defaults (Some d) table)
  = configured_value d long_opt <$> Config.default_of long_opt table.
Proof.
  unfold Config.update_defaults, configured_value.
  rewrite !default_of_section.
  destruct (Config.default_of long_opt table); cbn; [|reflexivity].
  destruct (last_setting long_opt (section_settings d "kohya_gui_arguments"));
    reflexivity.
Qed.

Lemma apply_setting_keeps arg table :
  map Config.long (Config.apply_setting arg table) = map Config.long table
  /\ map Config.short (Config.apply_setting arg table) = map Config.short table
  /\ map Config.is_path (Config.apply_setting arg table) = map Config.is_path table.
Proof.
  unfold Config.apply_setting. rewrite !map_map.
  repeat split; apply map_ext; intros x;
    destruct (String.eqb _ _); reflexivity.
Qed.

Lemma apply_section_keeps section d table :
  map Config.long (Config.apply_section section d table) = map Config.long table
  /\ map Config.short (Config.apply_section section d table) = map Config.short table
  /\ map Config.is_path (Config.apply_section section d table)
     = map Config.is_path table.
Proof.
  unfold Config.apply_section. destruct (d !! section) as [settings|]; [|auto].
  revert table. induction settings as [|arg settings IH]; intros table; [auto|].
  cbn [fold_left]. destruct (IH (Config.apply_setting arg table)) as (A & B & C).
  destruct (apply_setting_keeps arg table) as (A' & B' & C').
  rewrite A, B, C. auto.
Qed.

(** X4: the configuration changes defaults and help texts only: the
    table keeps its options, in their order, with their short names and
    their marks as paths, whatever the records say. *)
Theorem update_defaults_keeps_options c table :
  map Config.long (Config.update_defaults c table) = map Config.long table
  /\ map Config.short (Config.update_defaults c table) = map Config.short table
  /\ map Config.is_path (Config.update_defaults c table) = map Config.is_path table.
Proof.
  destruct c as [d|]; cbn [Config.update_defaults]; [|auto].
  destruct (apply_section_keeps "kohya_gui_arguments" d
              (Config.apply_section "setup_arguments" d table)) as (A & B & C).
  destruct (apply_section_keeps "setup_arguments" d table) as (A' & B' & C').
  rewrite A, B, C. auto.
Qed.

(** ** Requirements *)

(** X5: when every line that carries the marker comment of the local
    library is a comment line (or blank), the marker is never seen: the
    lines written are the lines of the file that are neither comments nor
    blank, unchanged, and no dot is replaced by the install directory. *)
Theorem marker_on_a_comment_line_is_ignored _dir lines :
  marker_lines_are_comments lines = true ->
  Deps.copy_requirements _dir false lines = requirement_lines lines.
Proof.
  unfold marker_lines_are_comments, requirement_lines.
  induction lines as [|line rest IH]; [reflexivity|].
  cbn [forallb Deps.copy_requirements List.filter].
  intros [H1 H2]%andb_prop.
  destruct (Deps.comment_or_blank line); cbn [negb].
  - apply IH, H2.
  - destruct (Deps.library_comment line); [discriminate|].
    f_equal. apply IH, H2.
Qed.

Lemma marker_on_a_comment_line_is_ignored_witness :
  Deps.copy_requirements "/opt/kohya_ss" false marked_requirements
  = requirement_lines marked_requirements
  /\ requirement_lines marked_requirements
     = ["gradio==3.23.0" ++ Deps.newline; "." ++ Deps.newline].
Proof.
  split.
  - apply (marker_on_a_comment_line_is_ignored "/opt/kohya_ss" marked_requirements).
    reflexivity.
  - reflexivity.
Defined.

Section deps_traces.
Variable w : world.
Variable sys_executable : string.
Variable verbosity : Z.
Variable now : string.
Variable P : event -> Prop.
Hypothesis P_run : forall argv, P (Run argv).
Hypothesis P_prompt : forall text, P (Prompt text).
Hypothesis P_store : P (StoreFile (tmp_name w) []).
Hypothesis P_remove : P (Remove (tmp_name w)).

Lemma choose_torch_emits rounds : emits P (Deps.choose_torch rounds).
Proof.
  induction rounds as [|n IH]; cbn [Deps.choose_torch]; [apply emits_raise|].
  apply emits_bind; [apply emits_input, P_prompt | intros choice].
  destruct (String.eqb choice "1"); [apply emits_ret|].
  destruct (String.eqb choice "2"); [apply emits_ret | exact IH].
Qed.

Lemma install_requirements_emits _dir runpod update repair interactive :
  emits P (Deps.install_requirements w sys_executable verbosity _dir runpod update
             repair interactive).
Proof.
  unfold Deps.install_requirements, Deps.fill_requirements, Deps.install_torch,
    Deps.pip.
  repeat first [ apply choose_torch_emits | emits_step | apply P_run
               | exact P_store | exact P_remove ].
Qed.
End deps_traces.

Section last_only_rules.
Variable e : event.

Lemma last_only_bind {A B} (m : Prog A) (k : A -> Prog B) :
  emits (fun x => x <> e) m -> (forall a, last_only e (k a)) ->
  last_only e (bind m k).
Proof.
  intros Hm Hk s. unfold bind. destruct (Hm s) as (evs & E & F).
  destruct (m s) as [[a|x] s1]; cbn [snd] in E.
  - destruct (Hk a s1) as (before & Fb & [T|T]);
      exists (evs ++ before)%list; (split; [apply Forall_app; auto|]);
      [left | right]; rewrite T, E, <- ?app_assoc; reflexivity.
  - exists evs. split; [exact F | left; exact E].
Qed.

Lemma last_only_act w : last_only e (act w e).
Proof.
  intros s. exists []. split; [constructor | right].
  unfold act, bind, emit. destruct (outcome w e); reflexivity.
Qed.

Lemma last_only_try_except {A} (m : Prog A) h :
  last_only e m ->
  (forall x, match h x with
             | Some k => forall s, trace (snd (k s)) = trace s
             | None => True
             end) ->
  last_only e (try_except m h).
Proof.
  intros Hm Hh s. unfold try_except. destruct (Hm s) as (before & F & T).
  destruct (m s) as [[a|x] s1]; cbn [snd] in T.
  - exists before. auto.
  - specialize (Hh x). destruct (h x) as [k|].
    + exists before. rewrite Hh. auto.
    + exists before. auto.
Qed.
End last_only_rules.

(** X6: the installer raises no [Exception], whatever pip and the files
    do: it returns, or it is ended by an interrupt or an exit.  The
    marker file is written at most once and as the last action: nothing
    is attempted after it. *)
Theorem installer_contains_errors_and_marks_last w sys_executable verbosity now
    _dir runpod update repair interactive _log_dir s :
  let install :=
    Deps.install_python_dependencies w sys_executable verbosity now _dir runpod
      update repair interactive _log_dir in
  match result install s with
  | Ret _ => True
  | Raise e => is_Exception e = false
  end
  /\ exists before,
       Forall (fun e => e <> marker_write w _log_dir now) before
       /\ (performed install s = before
           \/ performed install s = (before ++ [marker_write w _log_dir now])%list).
Proof.
  intros install. split.
  - subst install. unfold Deps.install_python_dependencies, result.
    destruct (path_exists w _ && negb (update || repair)); [exact I|].
    unfold try_except.
    match goal with |- context [bind ?a ?b s] => destruct (bind a b s) as [[[]|x] s1] end;
      [exact I|].
    destruct (is_Exception x) eqn:X; [exact I | exact X].
  - assert (L : last_only (marker_write w _log_dir now) install).
    { subst install. unfold Deps.install_python_dependencies.
      set (marker := marker_write w _log_dir now).
      assert (Hrun : forall argv, Run argv <> marker) by (intros argv; discriminate).
      destruct (path_exists w _ && negb (update || repair)).
      { intros s'. exists []. split; [constructor | left]. cbn.
        rewrite app_nil_r. reflexivity. }
      apply last_only_try_except.
      - apply last_only_bind.
        { unfold Deps.pip. destruct (2 <=? verbosity); apply emits_act, Hrun. }
        intros _. apply last_only_bind.
        { apply install_requirements_emits; try assumption; discriminate. }
        intros _. apply last_only_bind; [apply emits_act; discriminate|].
        intros _. apply last_only_act.
      - intros x. destruct (is_Exception x); [reflexivity | exact I]. }
    destruct (L s) as (before & F & [T|T]); exists before; (split; [exact F|]);
      [left | right]; apply performed_spec; rewrite T, <- ?app_assoc; reflexivity.
Qed.

Lemma install_torch_unattended w sys_executable verbosity update s :
  (forall e, outcome w e = None) ->
  negb (bool_decide ("torch" ∈ Py.lower <$> installed_modules w)
        || bool_decide ("torchvision" ∈ Py.lower <$> installed_modules w))
    || update = true ->
  Deps.install_torch w sys_executable verbosity update false false s
  = (Raise UnboundLocalError, add_event s (torch_install sys_executable verbosity)).
Proof.
  intros Hout Htorch. unfold Deps.install_torch.
  rewrite orb_false_r, Htorch. cbn [when].
  unfold bind at 1. cbn [ret].
  rewrite bool_decide_eq_false_2 by discriminate.
  unfold bind at 1. unfold Deps.pip. rewrite act_succeeds by apply Hout.
  reflexivity.
Qed.

(** X7: on Windows, a run that is not interactive and has to install
    torch (neither torch nor torchvision is installed, or an update is
    asked for) stops right after the torch command, on the variable
    [choice] that only the interactive branch assigns: the requirements
    are not installed, the temporary file is not removed and the marker
    file is not written, and the installer returns as if all were well. *)
Theorem windows_unattended_install_aborts w sys_executable verbosity now _dir
    runpod update _log_dir lines s :
  os_family w = "Windows" ->
  (forall e, outcome w e = None) ->
  path_exists w (flag_file_of w _log_dir) && negb update = false ->
  negb (bool_decide ("torch" ∈ Py.lower <$> installed_modules w)
        || bool_decide ("torchvision" ∈ Py.lower <$> installed_modules w))
    || update = true ->
  path_exists w (Py.path_join (osp w) _dir "requirements.txt") = true ->
  read_lines w (Py.path_join (osp w) _dir "requirements.txt") = Ret lines ->
  Deps.install_python_dependencies w sys_executable verbosity now _dir runpod
    update false false _log_dir s
  = (Ret tt,
     add_events s [ pip_self_upgrade sys_executable verbosity;
                    StoreFile (tmp_name w) [];
                    torch_install sys_executable verbosity ]).
Proof.
  intros Hfam Hout Hgate Htorch Hreq Hlines.
  unfold Deps.install_python_dependencies. fold (flag_file_of w _log_dir).
  rewrite orb_false_r, Hgate.
  unfold try_except, bind at 1.
  assert (E1 : (if 2 <=? verbosity
                then Deps.pip w sys_executable
                       ["install"; "--upgrade"; "--no-warn-script-location"; "pip"]
                else Deps.pip w sys_executable
                       ["install"; "--quiet"; "--upgrade";
                        "--no-warn-script-location"; "pip"]) s
               = (Ret tt, add_event s (pip_self_upgrade sys_executable verbosity))).
  { unfold pip_self_upgrade, Deps.pip. destruct (2 <=? verbosity); apply act_succeeds, Hout. }
  rewrite E1. unfold bind at 1.
  unfold Deps.install_requirements. rewrite Hreq. unfold when at 1. unfold bind at 1.
  rewrite act_succeeds by apply Hout.
  unfold bind at 1. unfold Deps.fill_requirements.
  unfold bind at 1. rewrite Hlines. unfold lift at 1.
  unfold bind at 1. unfold when at 1. unfold ret at 1.
  unfold bind at 1. rewrite Hfam.
  change (String.eqb "Windows" "macOS") with false.
  change (String.eqb "Windows" "Windows") with true. cbv iota.
  unfold bind at 1.
  rewrite install_torch_unattended by assumption.
  reflexivity.
Qed.

Lemma windows_unattended_install_aborts_witness :
  Deps.install_python_dependencies windows_world "C:/Python310/python.exe" 0
    "2023-05-01 10:00:00" "/opt/kohya_ss" false false false false
    "/opt/kohya_ss/logs" (fresh_state (Some ["requirements.txt"]))
  = (Ret tt,
     add_events (fresh_state (Some ["requirements.txt"]))
       [ pip_self_upgrade "C:/Python310/python.exe" 0;
         StoreFile "/tmp/tmpreq" [];
         torch_install "C:/Python310/python.exe" 0 ]).
Proof.
  apply (windows_unattended_install_aborts windows_world "C:/Python310/python.exe" 0
           "2023-05-01 10:00:00" "/opt/kohya_ss" false false "/opt/kohya_ss/logs"
           sample_requirements (fresh_state (Some ["requirements.txt"])));
    reflexivity.
Defined.

(** ** Acquisition, further *)

Section at_most_rules.
Context (P : event -> bool).

Lemma at_most_emits {A} (m : Prog A) n :
  emits (fun e => P e = false) m -> at_most P n m.
Proof.
  intros H s. destruct (H s) as (evs & E & F). exists evs. split; [exact E|].
  assert (Z : List.filter P evs = []).
  { clear E. induction F as [|x l Hx F IH]; [reflexivity|].
    cbn [List.filter]. rewrite Hx. exact IH. }
  rewrite Z. cbn. lia.
Qed.

Lemma at_most_mono {A} (m : Prog A) n n' :
  (n <= n')%nat -> at_most P n m -> at_most P n' m.
Proof.
  intros Hn H s. destruct (H s) as (evs & E & L). exists evs. split; [exact E | lia].
Qed.

Lemma at_most_bind {A B} (m : Prog A) (k : A -> Prog B) n1 n2 :
  at_most P n1 m -> (forall a, at_most P n2 (k a)) ->
  at_most P (n1 + n2) (bind m k).
Proof.
  intros Hm Hk s. unfold bind. destruct (Hm s) as (evs & E & L).
  destruct (m s) as [[a|x] s1]; cbn [snd] in E.
  - destruct (Hk a s1) as (evs' & E' & L'). exists (evs ++ evs')%list.
    rewrite E', E, app_assoc. split; [reflexivity|].
    rewrite List.filter_app, length_app. lia.
  - exists evs. split; [exact E | lia].
Qed.

Lemma at_most_bind_l {A B} (m : Prog A) (k : A -> Prog B) n :
  emits (fun e => P e = false) m -> (forall a, at_most P n (k a)) ->
  at_most P n (bind m k).
Proof.
  intros Hm Hk. apply (at_most_bind m k 0 n); [apply at_most_emits, Hm | exact Hk].
Qed.

Lemma at_most_bind_r {A B} (m : Prog A) (k : A -> Prog B) n :
  at_most P n m -> (forall a, emits (fun e => P e = false) (k a)) ->
  at_most P n (bind m k).
Proof.
  intros Hm Hk. apply (at_most_mono _ (n + 0)); [lia|].
  apply at_most_bind; [exact Hm | intros a; apply at_most_emits, Hk].
Qed.

Lemma at_most_try_except {A} (m : Prog A) h n :
  at_most P n m ->
  (forall e, match h e with
             | Some k => emits (fun e => P e = false) k
             | None => True
             end) ->
  at_most P n (try_except m h).
Proof.
  intros Hm Hh s. unfold try_except. destruct (Hm s) as (evs & E & L).
  destruct (m s) as [[a|x] s1]; cbn [snd] in E.
  - exists evs. auto.
  - specialize (Hh x). destruct (h x) as [k|].
    + destruct (Hh s1) as (evs' & E' & F'). exists (evs ++ evs')%list.
      rewrite E', E, app_assoc. split; [reflexivity|].
      rewrite List.filter_app, length_app.
      assert (Z : List.filter P evs' = []).
      { clear E'. induction F' as [|y l Hy F' IH]; [reflexivity|].
        cbn [List.filter]. rewrite Hy. exact IH. }
      rewrite Z. cbn. lia.
    + exists evs. auto.
Qed.

Lemma at_most_one e {A} (m : Prog A) :
  (forall s, trace (snd (m s)) = (trace s ++ [e])%list) -> at_most P 1 m.
Proof.
  intros H s. exists [e]. split; [apply H|]. cbn. destruct (P e); cbn; lia.
Qed.

Lemma at_most_act w e : at_most P 1 (act w e).
Proof.
  apply (at_most_one e). intros s. unfold act, bind, emit.
  destruct (outcome w e); reflexivity.
Qed.

Lemma at_most_emit e : at_most P 1 (emit e).
Proof. apply (at_most_one e). reflexivity. Qed.
End at_most_rules.

Section acquire_counts.
Import Acquire.
Variable w : world.
Variables _dir git_repo branch : string.
Variable update : bool.

(** A program in which no action satisfies [P] *)
Ltac quiet :=
  unfold git_credentials_for, find_ssh_private_key_path, has_uncommitted_changes,
    remove_entry, add_entry, install_has, install_isdir, is_git_installed;
  repeat first [ emits_step | reflexivity | apply emits_listdir_install
               | apply emits_state_reader ].

Lemma git_operations_transfer_once username password :
  at_most is_git_transfer 1
    (git_operations_with_credentials w _dir git_repo branch update username password).
Proof.
  unfold git_operations_with_credentials.
  apply at_most_bind_l; [quiet | intros git_folder_present].
  apply at_most_bind_l; [quiet | intros venv_folder_present].
  apply at_most_bind_l; [quiet | intros git_credentials].
  apply at_most_try_except.
  2:{ intros e. destruct e; try exact I; [destruct (Py.contains _ _)|..]; apply emits_ret. }
  destruct (git_folder_present && negb update); [apply at_most_emits, emits_raise|].
  destruct (git_folder_present && update).
  { destruct (git_repo_open w _dir); [apply at_most_emits, emits_raise|].
    apply at_most_bind_l; [quiet | intros dirty].
    destruct dirty; [apply at_most_emits, emits_raise|].
    apply at_most_bind_r; [apply at_most_act | intros; apply emits_ret]. }
  destruct (negb git_folder_present); [|apply at_most_emits, emits_ret].
  apply at_most_bind_l; [quiet | intros entries].
  destruct (bool_decide _ && _).
  2:{ apply at_most_emits. quiet. }
  apply at_most_bind_l; [quiet | intros _].
  destruct (if path_isdir w git_repo then _ else _) as [repo creds].
  apply at_most_bind_r; [apply at_most_emit | intros _; quiet].
Qed.

Lemma git_operations_do_not_prompt username password :
  emits (fun e => is_prompt e = false)
    (git_operations_with_credentials w _dir git_repo branch update username password).
Proof.
  unfold git_operations_with_credentials. quiet.
  all: try (destruct (Py.contains _ _); apply emits_ret).
  destruct c; reflexivity.
Qed.

Lemma attempts_transfers n username password :
  at_most is_git_transfer n (attempts w _dir git_repo branch update n username password).
Proof.
  revert username password. induction n as [|n IH]; intros username password;
    cbn [attempts]; [apply at_most_emits, emits_ret|].
  apply (at_most_bind is_git_transfer _ _ 1%nat n).
  { unfold catching. apply at_most_try_except.
    - apply at_most_bind_r; [apply git_operations_transfer_once | intros; apply emits_ret].
    - intros e. destruct (is_Exception e); [apply emits_ret | exact I]. }
  intros r. destruct r as [[[success error_type]|]|x]; try (apply at_most_emits, emits_ret).
  destruct success; [apply at_most_emits, emits_ret|].
  destruct (bool_decide (error_type = Some "uncommitted_changes"));
    [apply at_most_emits, emits_ret|].
  destruct (bool_decide (error_type = Some "authentication_error")).
  2:{ destruct (bool_decide _); apply at_most_emits, emits_ret. }
  apply at_most_bind_l; [unfold catching; quiet; destruct (is_Exception _); cbn; quiet|].
  intros u. destruct u as [u|x]; [|apply at_most_emits, emits_ret].
  apply at_most_bind_l; [unfold catching; quiet; destruct (is_Exception _); cbn; quiet|].
  intros p. destruct p as [p|x]; [apply IH | apply at_most_emits, emits_ret].
Qed.

Lemma attempts_prompts n username password :
  at_most is_prompt (2 * n) (attempts w _dir git_repo branch update n username password).
Proof.
  revert username password. induction n as [|n IH]; intros username password;
    cbn [attempts]; [apply at_most_emits, emits_ret|].
  apply at_most_bind_l.
  { unfold catching. apply emits_try_except.
    - apply emits_bind; [apply git_operations_do_not_prompt | intros; apply emits_ret].
    - intros e. destruct (is_Exception e); [apply emits_ret | exact I]. }
  intros r. destruct r as [[[success error_type]|]|x]; try (apply at_most_emits, emits_ret).
  destruct success; [apply at_most_emits, emits_ret|].
  destruct (bool_decide (error_type = Some "uncommitted_changes"));
    [apply at_most_emits, emits_ret|].
  destruct (bool_decide (error_type = Some "authentication_error")).
  2:{ destruct (bool_decide _); apply at_most_emits, emits_ret. }
  assert (One : forall text, at_most is_prompt 1 (catching (input text))).
  { intros text s. unfold catching, try_except, bind, input, bind, emit.
    exists [Prompt text]. split; [|cbn; lia]. cbn.
    destruct (stdin s) as [|[a|x] rest]; cbn; try reflexivity.
    destruct (is_Exception x); reflexivity. }
  apply (at_most_mono _ _ (1 + (1 + 2 * n))); [lia|].
  apply at_most_bind; [apply One | intros u].
  destruct u as [u|x]; [|apply at_most_emits, emits_ret].
  apply at_most_bind; [apply One | intros p].
  destruct p as [p|x]; [apply IH | apply at_most_emits, emits_ret].
Qed.

Lemma archive_fallback_emits (P : event -> Prop) username password :
  (forall e, is_git_transfer e = false -> is_prompt e = false -> P e) ->
  emits P (archive_fallback w _dir git_repo branch update username password).
Proof.
  intros HP.
  unfold archive_fallback, directory_allows, download_release, unpack_release,
    get_latest_tag, install_has.
  repeat first [ emits_step | apply emits_listdir_install | apply emits_state_reader
               | apply HP; reflexivity ].
Qed.

Lemma update_transfers_and_prompts :
  at_most is_git_transfer max_attempts (update_kohya_ss w _dir git_repo branch update)
  /\ at_most is_prompt (2 * max_attempts) (update_kohya_ss w _dir git_repo branch update).
Proof.
  split; unfold update_kohya_ss, git_phase.
  - apply at_most_bind_l; [quiet | intros _].
    apply at_most_bind_l; [quiet | intros _].
    apply at_most_bind_r.
    + apply at_most_bind_l; [quiet | intros git_installed].
      destruct git_installed; [|apply at_most_emits, emits_ret].
      apply at_most_bind_l; [quiet | intros isdir].
      destruct isdir; [apply attempts_transfers | apply at_most_emits, emits_ret].
    + intros g. destruct g as [success|success username password]; [apply emits_ret|].
      destruct (negb success); [|apply emits_ret].
      apply archive_fallback_emits. auto.
  - apply at_most_bind_l; [quiet | intros _].
    apply at_most_bind_l; [quiet | intros _].
    apply at_most_bind_r.
    + apply at_most_bind_l; [quiet | intros git_installed].
      destruct git_installed; [|apply at_most_emits, emits_ret].
      apply at_most_bind_l; [quiet | intros isdir].
      destruct isdir; [apply attempts_prompts | apply at_most_emits, emits_ret].
    + intros g. destruct g as [success|success username password]; [apply emits_ret|].
      destruct (negb success); [|apply emits_ret].
      apply archive_fallback_emits. auto.
Qed.
End acquire_counts.

(** X8: one run of [update_kohya_ss] attempts at most four transfers by
    git (pulls and clones together) and asks the operator at most eight
    questions (a user name and a password after each of the four
    attempts), whatever git, the network and the operator answer. *)
Theorem update_retries_are_bounded w _dir git_repo branch update s :
  let run := Acquire.update_kohya_ss w _dir git_repo branch update in
  (length (List.filter is_git_transfer (performed run s)) <= 4)%nat
  /\ (length (List.filter is_prompt (performed run s)) <= 8)%nat.
Proof.
  intros run. destruct (update_transfers_and_prompts w _dir git_repo branch update)
    as [T Q].
  destruct (T s) as (evs & E & L). destruct (Q s) as (evs' & E' & L').
  subst run. rewrite (performed_spec _ s evs E) at 1.
  rewrite (performed_spec _ s evs' E'). split; [exact L | exact L'].
Qed.

Section acquire_runs.
Import Acquire.
Variable w : world.
Variables _dir git_repo branch : string.

Lemma git_found s :
  outcome w (Run ["git"; "--version"]) = None ->
  is_git_installed w s = (Ret true, add_event s (Run ["git"; "--version"])).
Proof.
  intros Hv. unfold is_git_installed.
  destruct (String.eqb (os_family w) "Windows");
    cbn; unfold try_except, bind, act, bind, emit; cbn; rewrite Hv; reflexivity.
Qed.

Lemma install_has_entry name l s :
  listing s = Some l -> In name l -> install_has name s = (Ret true, s).
Proof.
  intros E Hin. unfold install_has. rewrite E. f_equal. f_equal.
  apply bool_decide_eq_true. apply list_elem_of_In. exact Hin.
Qed.

(** The run up to the first call of [git_operations_with_credentials] *)
Lemma update_first_attempt update s l r s' :
  listing s = Some l ->
  outcome w (Run ["git"; "--version"]) = None ->
  git_operations_with_credentials w _dir git_repo branch update None None
    (add_event s (Run ["git"; "--version"])) = (Ret (Some (true, r)), s') ->
  update_kohya_ss w _dir git_repo branch update s = (Ret true, s').
Proof.
  intros Hl Hv O. unfold update_kohya_ss.
  unfold bind at 1. unfold listdir_install at 1. rewrite Hl.
  unfold bind at 1. unfold listdir_install at 1. rewrite Hl.
  unfold bind at 1. unfold git_phase. unfold bind at 1.
  rewrite (git_found s Hv). unfold bind at 1. unfold install_isdir at 1.
  cbn [listing add_event]. rewrite Hl.
  unfold max_attempts. cbn [attempts]. unfold bind at 1.
  unfold catching, try_except. unfold bind at 1. rewrite O. reflexivity.
Qed.

Lemma credentials_only_run username password :
  emits (fun e => is_run e = true) (git_credentials_for w git_repo username password).
Proof.
  unfold git_credentials_for, find_ssh_private_key_path.
  repeat first [emits_step | reflexivity].
Qed.
End acquire_runs.

(** X9: without the update flag, a directory that has a [.git] entry is
    left as it is: when git is installed and the credentials for the
    source are found, [update_kohya_ss] returns True after asking git for
    its version (and, for an ssh address, for the key of the host), and
    starts nothing but these child processes: no status query, no pull,
    no clone, no download. *)
Theorem checkout_is_kept_without_update w _dir git_repo branch s l creds s2 :
  listing s = Some l ->
  In ".git" l ->
  outcome w (Run ["git"; "--version"]) = None ->
  Acquire.git_credentials_for w git_repo None None
    (add_event s (Run ["git"; "--version"])) = (Ret creds, s2) ->
  Acquire.update_kohya_ss w _dir git_repo branch false s = (Ret true, s2)
  /\ Forall (fun e => is_run e = true)
       (performed (Acquire.update_kohya_ss w _dir git_repo branch false) s).
Proof.
  intros Hl Hgit Hv Hc.
  assert (Main : Acquire.update_kohya_ss w _dir git_repo branch false s = (Ret true, s2)).
  { apply (update_first_attempt w _dir git_repo branch false s l (Some "update_skipped"));
      try assumption.
    unfold Acquire.git_operations_with_credentials.
    unfold bind at 1.
    rewrite (install_has_entry ".git" l (add_event s (Run ["git"; "--version"])) Hl Hgit).
    unfold bind at 1. unfold Acquire.install_has at 1.
    unfold bind at 1. rewrite Hc. reflexivity. }
  split; [exact Main|].
  destruct (credentials_only_run w git_repo None None
              (add_event s (Run ["git"; "--version"]))) as (evs & E & F).
  rewrite Hc in E. cbn [snd add_event trace] in E.
  rewrite (performed_spec _ s (Run ["git"; "--version"] :: evs)%list).
  - constructor; [reflexivity | exact F].
  - rewrite Main. cbn [snd]. rewrite E, <- app_assoc. reflexivity.
Qed.

Lemma checkout_is_kept_without_update_witness :
  let w := linux_world nothing nothing nothing (Ret " M kohya_gui.py") all_succeed in
  let s := fresh_state (Some [".git"; "kohya_gui.py"]) in
  Acquire.update_kohya_ss w "/opt/kohya_ss" default_git_repo "master" false s
  = (Ret true, add_event s (Run ["git"; "--version"]))
  /\ Forall (fun e => is_run e = true)
       (performed (Acquire.update_kohya_ss w "/opt/kohya_ss" default_git_repo
                     "master" false) s).
Proof.
  intros w s.
  apply (checkout_is_kept_without_update w "/opt/kohya_ss" default_git_repo "master" s
           [".git"; "kohya_gui.py"] (CredHttps None None)).
  - reflexivity.
  - simpl. auto.
  - reflexivity.
  - reflexivity.
Defined.

(** X10: a status query that fails does not stop an update: when
    [git status] ends with a git error, the working tree counts as clean
    and the pull is made. *)
Theorem failed_status_query_lets_the_pull_go_on w _dir git_repo branch s l creds s2 msg :
  listing s = Some l ->
  In ".git" l ->
  outcome w (Run ["git"; "--version"]) = None ->
  Acquire.git_credentials_for w git_repo None None
    (add_event s (Run ["git"; "--version"])) = (Ret creds, s2) ->
  git_repo_open w _dir = None ->
  git_status w _dir = Raise (GitCommandError msg) ->
  outcome w (GitPull _dir creds) = None ->
  Acquire.update_kohya_ss w _dir git_repo branch true s
  = (Ret true, add_event (add_event s2 (GitStatus _dir)) (GitPull _dir creds)).
Proof.
  intros Hl Hgit Hv Hc Ho Hs Hp.
  apply (update_first_attempt w _dir git_repo branch true s l None); try assumption.
  unfold Acquire.git_operations_with_credentials.
  unfold bind at 1.
  rewrite (install_has_entry ".git" l (add_event s (Run ["git"; "--version"])) Hl Hgit).
  unfold bind at 1. unfold Acquire.install_has at 1.
  unfold bind at 1. rewrite Hc.
  unfold try_except. cbn [andb negb]. rewrite Ho.
  unfold bind at 1. unfold Acquire.has_uncommitted_changes.
  unfold bind at 1. cbn [emit]. rewrite Hs. cbn [ret].
  unfold bind at 1. unfold act, bind, emit. cbn. rewrite Hp. reflexivity.
Qed.

Lemma failed_status_query_lets_the_pull_go_on_witness :
  let w := linux_world nothing nothing nothing
             (Raise (GitCommandError "fatal: not a git repository")) all_succeed in
  let s := fresh_state (Some [".git"; "kohya_gui.py"]) in
  Acquire.update_kohya_ss w "/opt/kohya_ss" default_git_repo "master" true s
  = (Ret true,
     add_event (add_event (add_event s (Run ["git"; "--version"]))
                  (GitStatus "/opt/kohya_ss"))
       (GitPull "/opt/kohya_ss" (CredHttps None None))).
Proof.
  intros w s.
  apply (failed_status_query_lets_the_pull_go_on w "/opt/kohya_ss" default_git_repo
           "master" s [".git"; "kohya_gui.py"] (CredHttps None None)
           (add_event s (Run ["git"; "--version"])) "fatal: not a git repository").
  - reflexivity.
  - simpl. auto.
  - reflexivity.
  - reflexivity.
  - reflexivity.
  - reflexivity.
  - reflexivity.
Defined.
Lemma bind_returns {A B} (m : Prog A) (k : A -> Prog B) s b s' :
  bind m k s = (Ret b, s') ->
  exists a s1, m s = (Ret a, s1) /\ k a s1 = (Ret b, s').
Proof.
  unfold bind. destruct (m s) as [[a|x] s1]; [|discriminate].
  intros H. exists a, s1. auto.
Qed.

Lemma act_returns w e s u s' : act w e s = (Ret u, s') -> s' = add_event s e.
Proof.
  unfold act, bind, emit. destruct (outcome w e); cbn; [discriminate|].
  intros [= _ <-]. reflexivity.
Qed.

Lemma lift_returns {A} (r : res A) s a s' :
  lift r s = (Ret a, s') -> r = Ret a /\ s' = s.
Proof. unfold lift. intros [= -> ->]. auto. Qed.

Lemma emit_returns e s u s' : emit e s = (Ret u, s') -> s' = add_event s e.
Proof. unfold emit. intros [= _ <-]. reflexivity. Qed.

Lemma trace_grows {A} (m : Prog A) s r s' :
  emits anything m -> m s = (r, s') -> exists evs, trace s' = (trace s ++ evs)%list.
Proof.
  intros H E. destruct (H s) as (evs & T & _). rewrite E in T. eauto.
Qed.

Section fallback_end.
Import Acquire.
Variable w : world.
Variables _dir git_repo branch : string.
Variable update : bool.

Lemma get_latest_tag_returns repo s tag s' :
  get_latest_tag w repo s = (Ret tag, s') ->
  exists api_url api,
    api_url_of repo = Ret api_url
    /\ http_response w api_url = Ret api
    /\ status_code api = 200
    /\ tag_name api = Ret tag
    /\ s' = add_event s (HttpGet api_url None).
Proof.
  unfold get_latest_tag. intros H.
  apply bind_returns in H. destruct H as (api_url & s1 & U & H).
  apply lift_returns in U as [U ->].
  apply bind_returns in H. destruct H as (? & s2 & E & H).
  apply emit_returns in E. subst s2.
  apply bind_returns in H. destruct H as (api & s3 & R & H).
  apply lift_returns in R as [R ->].
  destruct (status_code api =? 200) eqn:C; cbn [negb] in H; [|discriminate].
  apply lift_returns in H as [T ->]. apply Z.eqb_eq in C.
  exists api_url, api. auto.
Qed.

Lemma unpack_release_returns response s u s' :
  unpack_release w _dir response s = (Ret u, s') ->
  exists folder triples moves,
    status_code response = 200
    /\ extracted response = Ret (folder, triples)
    /\ trace s'
       = (trace s ++ [StoreFile (tmp_name w) []; Unzip (tmp_name w) (tmp_dir w)]
          ++ moves ++ [Rmtree folder; Remove (tmp_name w)])%list.
Proof.
  unfold unpack_release.
  destruct (status_code response =? 200) eqn:C; cbn [negb]; [|discriminate].
  intros H.
  apply bind_returns in H. destruct H as (file_size & s1 & L & H).
  apply lift_returns in L as [_ ->].
  apply bind_returns in H. destruct H as (? & s2 & A2 & H). apply act_returns in A2.
  apply bind_returns in H. destruct H as (? & s3 & A3 & H). apply act_returns in A3.
  apply bind_returns in H. destruct H as ([folder triples] & s4 & X & H).
  apply lift_returns in X as [X ->].
  apply bind_returns in H. destruct H as (? & s5 & F & H).
  apply bind_returns in H. destruct H as (? & s6 & A6 & H).
  apply act_returns in A6. apply act_returns in H.
  assert (G : exists moves, trace s5 = (trace s3 ++ moves)%list).
  { eapply trace_grows; [|exact F].
    apply emits_for_each. intros [[root rel_path] files].
    repeat first [emits_step | exact I]. }
  destruct G as (moves & G). apply Z.eqb_eq in C.
  exists folder, triples, moves. split; [exact C|]. split; [exact X|].
  subst s' s6 s3 s2. cbn [add_event trace] in *. rewrite G.
  rewrite <- !app_assoc. reflexivity.
Qed.

Lemma download_release_returns username password s u s' :
  download_release w _dir git_repo username password s = (Ret u, s') ->
  exists api_url api tag archive folder triples auth moves,
    api_url_of (Py.rstrip ".git" git_repo) = Ret api_url
    /\ http_response w api_url = Ret api
    /\ status_code api = 200
    /\ tag_name api = Ret tag
    /\ http_response w (download_url_of (Py.rstrip ".git" git_repo) tag) = Ret archive
    /\ status_code archive = 200
    /\ extracted archive = Ret (folder, triples)
    /\ trace s'
       = (trace s
          ++ [HttpGet api_url None;
              HttpGet (download_url_of (Py.rstrip ".git" git_repo) tag) auth;
              StoreFile (tmp_name w) []; Unzip (tmp_name w) (tmp_dir w)]
          ++ moves ++ [Rmtree folder; Remove (tmp_name w)])%list.
Proof.
  unfold download_release. intros H.
  apply bind_returns in H. destruct H as (tag & s1 & T & H).
  apply get_latest_tag_returns in T.
  destruct T as (api_url & api & U & R & C & Tg & ->).
  apply bind_returns in H. destruct H as (? & s2 & E & H).
  apply emit_returns in E. subst s2.
  apply bind_returns in H. destruct H as (archive & s3 & A & H).
  apply lift_returns in A as [A ->].
  apply unpack_release_returns in H.
  destruct H as (folder & triples & moves & C2 & X & Tr).
  exists api_url, api, tag, archive, folder, triples. eexists. exists moves.
  repeat (split; [eassumption|]).
  rewrite Tr. cbn [add_event trace]. rewrite <- !app_assoc. reflexivity.
Qed.
End fallback_end.

(** X11: the archive fallback answers True only after a whole download:
    the release API has answered with status 200 and a tag, the archive
    of that tag has been asked for at the address made of the stripped
    source address and has come with status 200, it has been stored and
    unpacked, the folder it unpacked to has been removed, and the removal
    of the temporary zip file is the last action.  The temporary
    directory, which its [with] block removes between these two removals,
    has no action of its own in the model, so nothing is said of the
    actions being adjacent. *)
Theorem fallback_succeeds_only_after_download w _dir git_repo branch update
    username password s s' :
  Acquire.archive_fallback w _dir git_repo branch update username password s
    = (Ret true, s') ->
  exists api_url api tag archive folder triples auth before,
    Acquire.api_url_of (Py.rstrip ".git" git_repo) = Ret api_url
    /\ http_response w api_url = Ret api
    /\ status_code api = 200
    /\ tag_name api = Ret tag
    /\ http_response w (Acquire.download_url_of (Py.rstrip ".git" git_repo) tag)
       = Ret archive
    /\ status_code archive = 200
    /\ extracted archive = Ret (folder, triples)
    /\ performed (Acquire.archive_fallback w _dir git_repo branch update
                    username password) s
       = (before ++ [Remove (tmp_name w)])%list
    /\ In (HttpGet api_url None) before
    /\ In (HttpGet (Acquire.download_url_of (Py.rstrip ".git" git_repo) tag) auth) before
    /\ In (StoreFile (tmp_name w) []) before
    /\ In (Unzip (tmp_name w) (tmp_dir w)) before
    /\ In (Rmtree folder) before.
Proof.
  intros E. pose proof E as H. unfold Acquire.archive_fallback in H.
  apply bind_returns in H. destruct H as (dir_ok & s1 & D & H).
  rewrite directory_allows_run in D.
  assert (s1 = s) as -> by (injection D as _ <-; reflexivity). clear D.
  destruct (dir_ok && _ && _).
  - unfold try_except in H.
    destruct (bind _ _ s) as [[b|x] s2] eqn:B.
    + injection H as -> ->.
      apply bind_returns in B. destruct B as (u & s3 & B & R).
      injection R as ->.
      apply download_release_returns in B.
      destruct B as (api_url & api & tag & archive & folder & triples & auth & moves
                     & U & R1 & C1 & T & R2 & C2 & X & Tr).
      exists api_url, api, tag, archive, folder, triples, auth.
      exists ([HttpGet api_url None;
               HttpGet (Acquire.download_url_of (Py.rstrip ".git" git_repo) tag) auth;
               StoreFile (tmp_name w) []; Unzip (tmp_name w) (tmp_dir w)]
              ++ moves ++ [Rmtree folder])%list.
      repeat (split; [assumption|]).
      split.
      { apply performed_spec. rewrite E. cbn [snd]. rewrite Tr.
        rewrite <- !app_assoc. reflexivity. }
      repeat split; try (cbn; tauto).
      apply in_or_app. right. apply in_or_app. right. left. reflexivity.
    + destruct (is_Exception x); discriminate.
  - destruct (update && _); [discriminate|].
    apply bind_returns in H. destruct H as (entries & s2 & _ & H).
    destruct (1 <? length entries)%nat; discriminate.
Qed.

Lemma fallback_succeeds_only_after_download_witness :
  let w := linux_world nothing nothing nothing (Ret EmptyString) without_git in
  let s := fresh_state (Some []) in
  exists api_url api tag archive folder triples auth before,
    Acquire.api_url_of (Py.rstrip ".git" default_git_repo) = Ret api_url
    /\ http_response w api_url = Ret api
    /\ status_code api = 200
    /\ tag_name api = Ret tag
    /\ http_response w (Acquire.download_url_of (Py.rstrip ".git" default_git_repo) tag)
       = Ret archive
    /\ status_code archive = 200
    /\ extracted archive = Ret (folder, triples)
    /\ performed (Acquire.archive_fallback w "/opt/kohya_ss" default_git_repo "master"
                    false None None) s
       = (before ++ [Remove (tmp_name w)])%list
    /\ In (HttpGet api_url None) before
    /\ In (HttpGet (Acquire.download_url_of (Py.rstrip ".git" default_git_repo) tag)
              auth) before
    /\ In (StoreFile (tmp_name w) []) before
    /\ In (Unzip (tmp_name w) (tmp_dir w)) before
    /\ In (Rmtree folder) before.
Proof.
  intros w s.
  apply (fallback_succeeds_only_after_download w "/opt/kohya_ss" default_git_repo
           "master" false None None s
           (snd (Acquire.archive_fallback w "/opt/kohya_ss" default_git_repo "master"
                   false None None s))).
  reflexivity.
Defined.
(** ** Library links, further *)

Section keeps_rules.
Variable R : state -> state -> Prop.
Hypothesis R_refl : forall s, R s s.
Hypothesis R_trans : forall s1 s2 s3, R s1 s2 -> R s2 s3 -> R s1 s3.
Hypothesis R_event : forall s e, R s (add_event s e).

Lemma keeps_ret {A} (a : A) : keeps R (ret a).
Proof. intros s. apply R_refl. Qed.

Lemma keeps_raise {A} e : keeps R (@raise A e).
Proof. intros s. apply R_refl. Qed.

Lemma keeps_lift {A} (r : res A) : keeps R (lift r).
Proof. intros s. apply R_refl. Qed.

Lemma keeps_get_state : keeps R get_state.
Proof. intros s. apply R_refl. Qed.

Lemma keeps_bind {A B} (m : Prog A) (k : A -> Prog B) :
  keeps R m -> (forall a, keeps R (k a)) -> keeps R (bind m k).
Proof.
  intros Hm Hk s. unfold bind. specialize (Hm s).
  destruct (m s) as [[a|x] s1]; cbn [snd] in *; [|exact Hm].
  eapply R_trans; [exact Hm | apply Hk].
Qed.

Lemma keeps_act w e : keeps R (act w e).
Proof.
  intros s. unfold act, bind, emit. destruct (outcome w e); apply R_event.
Qed.

Lemma keeps_when b m : keeps R m -> keeps R (when b m).
Proof. intros H. destruct b; [exact H | apply keeps_ret]. Qed.

Lemma keeps_for_each {A} (l : list A) body :
  (forall x, keeps R (body x)) -> keeps R (for_each l body).
Proof.
  intros H. induction l as [|x l IH]; cbn [for_each]; [apply keeps_ret|].
  apply keeps_bind; [apply H | intros _; exact IH].
Qed.
End keeps_rules.

Lemma library_path_extended_refl s : library_path_extended s s.
Proof.
  split; [reflexivity|]. exists EmptyString. symmetry. apply append_empty_r.
Qed.

Lemma library_path_extended_trans s1 s2 s3 :
  library_path_extended s1 s2 -> library_path_extended s2 s3 ->
  library_path_extended s1 s3.
Proof.
  intros [K1 [x1 E1]] [K2 [x2 E2]]. split.
  - intros key Hk. rewrite K2, K1 by assumption. reflexivity.
  - exists (x1 ++ x2). rewrite E2, E1. apply append_assoc.
Qed.

Lemma library_path_appended dir :
  keeps library_path_extended
    (do s <- get_state ;
     set_environ "LD_LIBRARY_PATH"
       (from_option id EmptyString (environ s !! "LD_LIBRARY_PATH") ++ ":" ++ dir)).
Proof.
  intros s. cbn. split.
  - intros key Hk. cbn. apply lookup_insert_ne. congruence.
  - exists (":" ++ dir). unfold library_path. cbn. rewrite lookup_insert_eq.
    reflexivity.
Qed.

(** X12: [setup_file_links] changes one variable of the environment
    only, [LD_LIBRARY_PATH], and only by adding to its end: what the
    variable held stays in front, and every other variable keeps its
    value. *)
Theorem library_path_is_only_extended w _site_packages_dir runpod s :
  library_path_extended s (snd (Links.setup_file_links w _site_packages_dir runpod s)).
Proof.
  revert s. change (keeps library_path_extended
                      (Links.setup_file_links w _site_packages_dir runpod)).
  pose proof library_path_extended_refl as Hr.
  pose proof library_path_extended_trans as Ht.
  assert (He : forall s e, library_path_extended s (add_event s e)).
  { intros s e. split; [reflexivity|]. exists EmptyString. symmetry.
    apply append_empty_r. }
  unfold Links.setup_file_links, Links.create_symlinks.
  repeat first
    [ apply library_path_appended
    | apply (keeps_act _ He)
    | apply (keeps_when _ Hr)
    | apply (keeps_for_each _ Hr Ht); intros
    | apply (keeps_bind _ Ht); [|intros]
    | apply (keeps_ret _ Hr)
    | apply (keeps_lift _ Hr)
    | match goal with |- keeps _ (if ?b then _ else _) => destruct b end ].
Qed.

(** X13: [setup_file_links] takes nothing away but a library link it is
    about to replace: every removal is that of one of its three links,
    which is a link at that moment and whose new target is a file.  Its
    other actions are the making of these links and, on Windows only, the
    making of the two [bitsandbytes] directories and the copies into
    them, which go over [cextension.py] and [cuda_setup/main.py] when
    these are there. *)
Theorem links_replaced_only_for_targets w _site_packages_dir runpod s :
  Forall (link_action w _site_packages_dir)
    (performed (Links.setup_file_links w _site_packages_dir runpod) s).
Proof.
  apply emits_performed.
  assert (C : forall link target,
            In (link, target) (library_links w _site_packages_dir) ->
            emits (link_action w _site_packages_dir)
                  (Links.create_symlinks w link target)).
  { intros link target Hin. unfold Links.create_symlinks.
    destruct (path_islink w link) eqn:L; [|apply emits_act; exact Hin].
    destruct (path_exists w link && _); [apply emits_ret|].
    destruct (path_isfile w target) eqn:F; [|apply emits_ret].
    apply emits_bind; [|intros _; apply emits_act; exact Hin].
    apply emits_act. exists target. auto. }
  unfold Links.setup_file_links.
  apply emits_bind.
  { destruct (String.eqb_spec (os_family w) "Windows") as [W|_]; [|apply emits_ret].
    cbn [when]. apply emits_when.
    apply emits_bind; [apply emits_act; cbn; auto | intros _].
    apply emits_bind; [apply emits_act; cbn; auto | intros _].
    apply emits_bind; [apply emits_lift | intros files].
    apply emits_bind.
    { apply emits_for_each. intros file.
      destruct (Py.endswith file ".dll") eqn:D; [|apply emits_ret].
      cbn [when]. apply emits_act. split; [exact W|]. left. exists file. auto. }
    intros _. apply emits_bind; [|intros _]; apply emits_act; (split; [exact W|]).
    - right. left. auto.
    - right. right. auto. }
  intros _. apply emits_when.
  apply emits_bind; [apply C; cbn; auto | intros _].
  apply emits_bind; [apply C; cbn; auto | intros _].
  apply emits_bind; [apply C; cbn; auto | intros _].
  repeat first [emits_step | exact I].
Qed.
(** ** The GUI and the top level, further *)

(** X14: when the GUI can be started (its file is there and, outside a
    container, the virtual environment with its interpreter), the way the
    GUI process ends decides how [launch_kohya_gui] ends: it returns when
    the GUI ends well, leaves with [sys.exit(0)] on an interrupt, and lets
    every other exception of the child through, so that a GUI that ends
    with an error status ends the launcher with status 1.  The GUI is the
    only process started. *)
Theorem gui_decides_how_launch_ends w venv_python_bin _args s contained :
  Links.in_container w = Ret contained ->
  (contained = false ->
   path_exists w (Py.path_join (osp w) (Launch.dir _args) "venv") = true
   /\ path_exists w
        (if negb (String.eqb (sys_platform w) "win32")
         then Py.join_all (osp w) (Py.path_join (osp w) (Launch.dir _args) "venv")
                ["bin"; "python"]
         else Py.join_all (osp w) (Py.path_join (osp w) (Launch.dir _args) "venv")
                ["Scripts"; "python.exe"]) = true) ->
  path_exists w (Py.path_join (osp w) (Launch.dir _args) "kohya_gui.py") = true ->
  Launch.launch_kohya_gui w venv_python_bin _args s
  = (launch_result (outcome w (Run (Launch.gui_command w venv_python_bin _args))),
     add_event s (Run (Launch.gui_command w venv_python_bin _args)))
  /\ (outcome w (Run (Launch.gui_command w venv_python_bin _args))
      = Some CalledProcessError ->
      Launch.exit_status (result (Launch.launch_kohya_gui w venv_python_bin _args) s) = 1).
Proof.
  intros Hc Hvenv Hgui.
  assert (Main : Launch.launch_kohya_gui w venv_python_bin _args s
    = (launch_result (outcome w (Run (Launch.gui_command w venv_python_bin _args))),
       add_event s (Run (Launch.gui_command w venv_python_bin _args)))).
  { unfold Launch.launch_kohya_gui.
    rewrite Hc. unfold bind at 1. unfold lift at 1.
    assert (G : forall s0,
      (if path_exists w (Py.path_join (osp w) (Launch.dir _args) "kohya_gui.py")
       then try_except (act w (Run (Launch.gui_command w venv_python_bin _args)))
              (fun e => match e with
                        | KeyboardInterrupt => Some (lift (py_exit 0))
                        | _ => None
                        end)
       else lift (py_exit 1)) s0
      = (launch_result (outcome w (Run (Launch.gui_command w venv_python_bin _args))),
         add_event s0 (Run (Launch.gui_command w venv_python_bin _args)))).
    { intros s0. rewrite Hgui. unfold try_except, act, bind, emit.
      destruct (outcome w _) as [x|]; [destruct x|]; reflexivity. }
    destruct contained; cbn [negb when].
    - unfold bind, ret. apply G.
    - destruct (Hvenv eq_refl) as [Hv Hp]. rewrite Hv. cbn [negb].
      rewrite Hp. cbn [negb]. unfold bind, ret. apply G. }
  split; [exact Main|]. intros Hx. unfold result. rewrite Main, Hx. reflexivity.
Qed.

Lemma gui_decides_how_launch_ends_witness :
  let w := linux_world everything nothing nothing (Ret EmptyString) crashed_gui in
  let s := fresh_state (Some [".git"; "venv"; "kohya_gui.py"]) in
  Launch.launch_kohya_gui w "/opt/kohya_ss/venv/bin/python3" sample_args s
  = (Raise CalledProcessError,
     add_event s (Run ["/opt/kohya_ss/venv/bin/python3"; "/opt/kohya_ss/kohya_gui.py";
                       "--listen"; "127.0.0.1"; "--server-port"; "0"]))
  /\ Launch.exit_status
       (result (Launch.launch_kohya_gui w "/opt/kohya_ss/venv/bin/python3" sample_args) s)
     = 1.
Proof.
  intros w s.
  destruct (gui_decides_how_launch_ends w "/opt/kohya_ss/venv/bin/python3" sample_args
              s false) as [A B].
  - reflexivity.
  - intros _. split; reflexivity.
  - reflexivity.
  - split; [exact A | apply B; reflexivity].
Defined.

(** X15: when [update_kohya_ss] answers False, [main] stops there
    without an error: nothing is installed, no link is made, the GUI is
    not started, and the script ends with status 0.  The same holds when
    the Homebrew step answers False. *)
Theorem failed_acquisition_ends_main_quietly w st sys_executable venv_python_bin
    site_packages_dir _args s s1 s2 s3 :
  Py.truthy (Launch.git_repo _args) && Py.truthy (Launch.dir _args)
    && Py.truthy (Launch.branch _args) = true ->
  Launch.check_and_create_install_folder st (Launch.dirname w (Launch.dir _args))
    (Launch.dir _args) s = (Ret tt, s1) ->
  Launch.check_storage_space st (Launch.skip_space_check _args) (Launch.dir _args)
    (Launch.dirname w (Launch.dir _args)) s1 = (Ret tt, s2) ->
  (Acquire.update_kohya_ss w (Launch.dir _args) (Launch.git_repo _args)
     (Launch.branch _args) (Launch.update _args) s2 = (Ret false, s3)
   \/ exists s2',
        Acquire.update_kohya_ss w (Launch.dir _args) (Launch.git_repo _args)
          (Launch.branch _args) (Launch.update _args) s2 = (Ret true, s2')
        /\ Launch.brew_install_tensorflow_deps st (Launch.verbosity _args) s2'
           = (Ret false, s3)) ->
  Launch.main w st sys_executable venv_python_bin site_packages_dir _args s
    = (Ret tt, s3)
  /\ Launch.exit_status
       (result (Launch.main w st sys_executable venv_python_bin site_packages_dir _args) s)
     = 0.
Proof.
  intros Hv H1 H2 H3.
  assert (Main : Launch.main w st sys_executable venv_python_bin site_packages_dir _args s
                 = (Ret tt, s3)).
  { unfold Launch.main.
    apply andb_prop in Hv as [[Hg Hd]%andb_prop Hb]. rewrite Hg, Hd, Hb. cbn [negb orb].
    unfold bind at 1. rewrite H1. unfold bind at 1. rewrite H2. unfold bind at 1.
    destruct H3 as [H3 | (s2' & H3 & H4)]; rewrite H3; cbn [when]; [reflexivity|].
    unfold bind at 1. rewrite H4. reflexivity. }
  split; [exact Main|]. unfold result. rewrite Main. reflexivity.
Qed.

Lemma failed_acquisition_ends_main_quietly_witness :
  let w := linux_world nothing nothing nothing (Ret " M kohya_gui.py") all_succeed in
  let s := fresh_state (Some [".git"; "kohya_gui.py"]) in
  let s3 := add_event (add_event s (Run ["git"; "--version"]))
              (GitStatus "/opt/kohya_ss") in
  Launch.main w (sample_steps w) "/opt/kohya_ss/venv/bin/python3"
    "/opt/kohya_ss/venv/bin/python3" "/opt/kohya_ss/venv/Lib/site-packages"
    update_args s = (Ret tt, s3)
  /\ Launch.exit_status
       (result (Launch.main w (sample_steps w) "/opt/kohya_ss/venv/bin/python3"
                  "/opt/kohya_ss/venv/bin/python3"
                  "/opt/kohya_ss/venv/Lib/site-packages" update_args) s)
     = 0.
Proof.
  intros w s s3.
  apply (failed_acquisition_ends_main_quietly w (sample_steps w)
           "/opt/kohya_ss/venv/bin/python3" "/opt/kohya_ss/venv/bin/python3"
           "/opt/kohya_ss/venv/Lib/site-packages" update_args s s s s3).
  - reflexivity.
  - reflexivity.
  - reflexivity.
  - left. reflexivity.
Defined.
(** ** The smaller routines of the set-up *)

Section python_facts.
Variable w : world.
Variable which : string -> option string.

Lemma probe_fits binary s s' :
  Setup.probe w binary s = (Ret true, s') ->
  exists version_output minor,
    check_output w [binary; "--version"] = Ret version_output
    /\ Setup.python_version version_output = Ret (3, minor)
    /\ 10 <= minor.
Proof.
  unfold Setup.probe, try_except.
  destruct (bind _ _ s) as [[found|x] s1] eqn:B.
  - intros [= -> ->].
    apply bind_returns in B. destruct B as (? & s2 & _ & B).
    apply bind_returns in B. destruct B as (version_output & s3 & O & B).
    apply bind_returns in B. destruct B as ([major minor] & s4 & V & B).
    injection B as B _. apply andb_prop in B as [M N].
    unfold lift in O, V. injection O as O _. injection V as V _.
    exists version_output, minor. apply Z.eqb_eq in M. subst major.
    repeat split; [exact O | exact V | lia].
  - destruct x; cbn; discriminate.
Qed.

Lemma probe_emits binary :
  In binary (Setup.possible_binaries w) -> on_path which binary = true ->
  emits (asks_version w which) (Setup.probe w binary).
Proof.
  intros Hin Hp. unfold Setup.probe.
  repeat first [emits_step | exists binary; auto].
Qed.

Lemma search_binaries_fits binaries s b s' :
  Setup.search_binaries w which binaries s = (Ret (Some b), s') ->
  In b binaries
  /\ on_path which b = true
  /\ exists version_output minor,
       check_output w [b; "--version"] = Ret version_output
       /\ Setup.python_version version_output = Ret (3, minor)
       /\ 10 <= minor.
Proof.
  revert s. induction binaries as [|binary rest IH]; intros s; cbn [Setup.search_binaries].
  - discriminate.
  - fold (on_path which binary). destruct (on_path which binary) eqn:Hp.
    + intros H. apply bind_returns in H. destruct H as (found & s1 & Pr & H).
      destruct found.
      * injection H as <- _. split; [left; reflexivity | split; [exact Hp|]].
        eapply probe_fits, Pr.
      * destruct (IH _ H) as (A & B & C). split; [right; exact A | auto].
    + intros H. destruct (IH _ H) as (A & B & C). split; [right; exact A | auto].
Qed.

Lemma search_binaries_emits binaries :
  (forall b, In b binaries -> In b (Setup.possible_binaries w)) ->
  emits (asks_version w which) (Setup.search_binaries w which binaries).
Proof.
  induction binaries as [|binary rest IH]; intros Hsub; cbn [Setup.search_binaries].
  - apply emits_ret.
  - assert (Hrest : emits (asks_version w which)
                      (Setup.search_binaries w which rest)).
    { apply IH. intros b Hb. apply Hsub. right. exact Hb. }
    fold (on_path which binary). destruct (on_path which binary) eqn:Hp; [|exact Hrest].
    apply emits_bind.
    + apply probe_emits; [apply Hsub; left; reflexivity | exact Hp].
    + intros found. destruct found; [apply emits_ret | exact Hrest].
Qed.
End python_facts.

(** X16: the binary [find_python_binary] answers is one of its
    candidates, is on the search path, and has reported a version 3.x
    with x at least 10 (a Python 3.12 passes); the routine starts nothing
    but candidates found on the search path, each to ask for its version. *)
Theorem python_binary_found_fits w which s b s' :
  Setup.find_python_binary w which s = (Ret (Some b), s') ->
  (In b (Setup.possible_binaries w)
   /\ on_path which b = true
   /\ exists version_output minor,
        check_output w [b; "--version"] = Ret version_output
        /\ Setup.python_version version_output = Ret (3, minor)
        /\ 10 <= minor)
  /\ Forall (asks_version w which) (performed (Setup.find_python_binary w which) s).
Proof.
  intros H. split.
  - exact (search_binaries_fits w which _ s b s' H).
  - apply emits_performed. apply search_binaries_emits. auto.
Qed.

Lemma python_binary_found_fits_witness :
  let s := fresh_state None in
  Setup.find_python_binary python_3_12_world python3_only s
    = (Ret (Some "python3"), add_event s (Run ["python3"; "--version"]))
  /\ Setup.python_version ("Python 3.12.1" ++ Deps.newline) = Ret (3, 12)
  /\ Forall (asks_version python_3_12_world python3_only)
       (performed (Setup.find_python_binary python_3_12_world python3_only) s).
Proof.
  intros s.
  assert (E : Setup.find_python_binary python_3_12_world python3_only s
              = (Ret (Some "python3"), add_event s (Run ["python3"; "--version"])))
    by reflexivity.
  split; [exact E | split; [reflexivity|]].
  apply (python_binary_found_fits python_3_12_world python3_only s "python3" _ E).
Defined.

(** X17: on a Mac, Homebrew packages are installed only after
    [brew -v] has succeeded, and a [brew] program that is missing is not
    reported as such: the [FileNotFoundError] of starting it is no
    [CalledProcessError], passes the handler and ends the routine. *)
Theorem missing_brew_is_an_error w verbosity s :
  os_family w = "macOS" ->
  (outcome w (Run ["brew"; "-v"]) = Some FileNotFoundError ->
   Setup.brew_install_tensorflow_deps w verbosity s
   = (Raise FileNotFoundError, add_event s (Run ["brew"; "-v"])))
  /\ (In (Run ["brew"; "install"; "llvm"; "cctools"; "ld64"])
         (performed (Setup.brew_install_tensorflow_deps w verbosity) s) ->
      outcome w (Run ["brew"; "-v"]) = None).
Proof.
  intros Hfam. unfold Setup.brew_install_tensorflow_deps, Setup.brew_installed.
  rewrite Hfam. change (String.eqb "macOS" "macOS") with true. cbn [negb].
  split.
  - intros Hb. unfold bind at 1. unfold try_except, bind at 1.
    unfold act, bind, emit. cbn. rewrite Hb. reflexivity.
  - destruct (outcome w (Run ["brew"; "-v"])) as [x|] eqn:Hb; [|reflexivity].
    intros Hin. exfalso.
    assert (E : performed
                  (do installed <-
                     try_except (act w (Run ["brew"; "-v"]) ;; ret (Some true))
                       (fun e => match e with
                                 | CalledProcessError => Some (ret (Some false))
                                 | _ => None
                                 end) ;
                   if negb (from_option id false installed) then ret false
                   else try_except
                          (act w (Run ["brew"; "install"; "llvm"; "cctools"; "ld64"]) ;;
                           ret true)
                          (fun e => match e with
                                    | CalledProcessError => Some (ret false)
                                    | _ => None
                                    end)) s
                = [Run ["brew"; "-v"]]).
    { apply performed_spec. unfold bind at 1. unfold try_except, bind at 1.
      unfold act, bind, emit. cbn. rewrite Hb. destruct x; reflexivity. }
    rewrite E in Hin. destruct Hin as [Hin|[]]. discriminate.
Qed.

Lemma missing_brew_is_an_error_witness :
  let s := fresh_state (Some []) in
  Setup.brew_install_tensorflow_deps (mac_world without_brew) 0 s
  = (Raise FileNotFoundError, add_event s (Run ["brew"; "-v"])).
Proof.
  intros s.
  destruct (missing_brew_is_an_error (mac_world without_brew) 0 s) as [A _].
  - reflexivity.
  - apply A. reflexivity.
Defined.

Section accelerate_facts.
Variable w : world.
Variable sys_executable : string.
Variable file_dir : string.
Variable Path : list string -> string.
Variable parent : string -> string.

Lemma run_accelerate_config_emits :
  emits (accelerate_action w (Setup.source_accelerate_config_file w file_dir))
        (Setup.run_accelerate_config w sys_executable Path parent).
Proof.
  unfold Setup.run_accelerate_config. apply emits_try_except.
  - destruct (path_exists w _) eqn:E; [|apply emits_ret].
    apply emits_act. eexists. split; [reflexivity | exact E].
  - intros e. destruct e; try exact I. apply emits_ret.
Qed.

Lemma configure_accelerate_emits interactive :
  emits (accelerate_action w (Setup.source_accelerate_config_file w file_dir))
        (Setup.configure_accelerate w sys_executable file_dir Path parent interactive).
Proof.
  unfold Setup.configure_accelerate.
  destruct interactive; [apply run_accelerate_config_emits|].
  apply emits_bind; [apply emits_get_state | intros s].
  destruct (Setup.target_config_location w Path (environ s)) as [target|];
    [|apply run_accelerate_config_emits].
  destruct (path_isfile w target) eqn:F; cbn [negb when]; [apply emits_ret|].
  apply emits_bind; [apply emits_act; exact I | intros _].
  apply emits_act. split; [reflexivity | exact F].
Qed.
End accelerate_facts.

(** X18: [configure_accelerate] never writes over a configuration that
    is there: it copies its source file only to a target that is no file
    yet, makes directories, and starts at most the [accelerate] program
    next to the interpreter, when that exists.  Without a home for the
    configuration in the environment, a run that is not interactive does
    what an interactive one does; and an interactive run is not ended by
    an error status of [accelerate config]. *)
Theorem accelerate_config_is_not_overwritten w sys_executable file_dir Path parent
    interactive s :
  Forall (accelerate_action w (Setup.source_accelerate_config_file w file_dir))
    (performed (Setup.configure_accelerate w sys_executable file_dir Path parent
                  interactive) s)
  /\ (Setup.target_config_location w Path (environ s) = None ->
      Setup.configure_accelerate w sys_executable file_dir Path parent false s
      = Setup.configure_accelerate w sys_executable file_dir Path parent true s)
  /\ result (Setup.configure_accelerate w sys_executable file_dir Path parent true) s
     <> Raise CalledProcessError.
Proof.
  split; [|split].
  - apply emits_performed, configure_accelerate_emits.
  - intros H. unfold Setup.configure_accelerate, bind, get_state. rewrite H.
    reflexivity.
  - unfold result, Setup.configure_accelerate, Setup.run_accelerate_config, try_except.
    destruct (path_exists w _); [|discriminate].
    unfold act, bind, emit. destruct (outcome w _) as [x|]; [|discriminate].
    cbn. destruct x; discriminate.
Qed.

Lemma accelerate_config_is_not_overwritten_witness :
  let s := fresh_state (Some []) in
  let run := Setup.configure_accelerate (mac_world all_succeed)
               "/opt/kohya_ss/venv/bin/python3" "/opt/kohya_ss" slash_path
               (fun _ => "/opt/kohya_ss/venv/bin") in
  Forall (accelerate_action (mac_world all_succeed)
            (Setup.source_accelerate_config_file (mac_world all_succeed) "/opt/kohya_ss"))
         (performed (run false) s)
  /\ run false s = run true s
  /\ result (run true) s <> Raise CalledProcessError.
Proof.
  intros s run.
  destruct (accelerate_config_is_not_overwritten (mac_world all_succeed)
              "/opt/kohya_ss/venv/bin/python3" "/opt/kohya_ss" slash_path
              (fun _ => "/opt/kohya_ss/venv/bin") false s) as (A & B & C).
  split; [exact A | split; [apply B; reflexivity | exact C]].
Defined.

Lemma free_log_filepath_from w current_time_str log_level date_subdir n :
  forall fuel counter,
  (forall i, (i < n)%nat ->
     path_exists w (log_path w current_time_str log_level date_subdir
                      (counter + Z.of_nat i)) = true) ->
  path_exists w (log_path w current_time_str log_level date_subdir
                   (counter + Z.of_nat n)) = false ->
  (n < fuel)%nat ->
  Setup.free_log_filepath w current_time_str log_level fuel date_subdir counter
  = Some (log_path w current_time_str log_level date_subdir (counter + Z.of_nat n)).
Proof.
  induction n as [|n IH]; intros fuel counter Htaken Hfree Hfuel;
    (destruct fuel as [|fuel]; [lia|]); cbn [Setup.free_log_filepath];
    fold (log_path w current_time_str log_level date_subdir counter).
  - rewrite Z.add_0_r in Hfree. rewrite Hfree. cbn [negb]. rewrite Z.add_0_r. reflexivity.
  - pose proof (Htaken 0%nat ltac:(lia)) as H0. rewrite Z.add_0_r in H0. rewrite H0.
    cbn [negb].
    replace (counter + Z.of_nat (S n)) with ((counter + 1) + Z.of_nat n) in * by lia.
    apply IH; [|exact Hfree | lia].
    intros i Hi. specialize (Htaken (S i) ltac:(lia)).
    replace (counter + 1 + Z.of_nat i) with (counter + Z.of_nat (S i)) by lia.
    exact Htaken.
Qed.

(** X19: the log file gets the first name that is free: when the names
    with the counters 0 to n - 1 are taken and the one with counter n is
    not, the loop of [generate_log_filename] ends after n + 1 rounds with
    the name of counter n, which does not exist yet; the name of counter
    0 carries no counter.  The directory of the day is made first. *)
Theorem log_file_is_the_first_free_name w current_date_str current_time_str log_level
    _logs_dir fuel n s :
  let date_subdir := Py.path_join (osp w) _logs_dir current_date_str in
  (forall i, (i < n)%nat ->
     path_exists w (log_path w current_time_str log_level date_subdir (Z.of_nat i))
     = true) ->
  path_exists w (log_path w current_time_str log_level date_subdir (Z.of_nat n)) = false ->
  (n < fuel)%nat ->
  outcome w (Makedirs date_subdir) = None ->
  Setup.generate_log_filename w current_date_str current_time_str log_level fuel
    _logs_dir s
  = (Ret (Some (log_path w current_time_str log_level date_subdir (Z.of_nat n))),
     add_event s (Makedirs date_subdir)).
Proof.
  intros date_subdir Htaken Hfree Hfuel Hmk.
  unfold Setup.generate_log_filename. fold date_subdir.
  unfold bind. rewrite act_succeeds by exact Hmk. unfold ret. do 2 f_equal.
  apply (free_log_filepath_from w current_time_str log_level date_subdir n fuel 0);
    assumption.
Qed.

Lemma log_file_is_the_first_free_name_witness :
  let w := linux_world two_logs_taken nothing nothing (Ret EmptyString) all_succeed in
  let s := fresh_state (Some []) in
  Setup.generate_log_filename w "2023-05-01" "101500" (Setup.log_level_of 0) 5
    "/opt/kohya_ss/logs" s
  = (Ret (Some "/opt/kohya_ss/logs/2023-05-01/launcher_101500_2_error.log"),
     add_event s (Makedirs "/opt/kohya_ss/logs/2023-05-01")).
Proof.
  intros w s.
  apply (log_file_is_the_first_free_name w "2023-05-01" "101500" (Setup.log_level_of 0)
           "/opt/kohya_ss/logs" 5 2 s).
  - intros i Hi. destruct i as [|[|i]]; [reflexivity | reflexivity | lia].
  - reflexivity.
  - lia.
  - reflexivity.
Defined.

Lemma update_received p cur_count max_count :
  Progress.received_objects (fst (Progress.update p cur_count max_count))
  = Z.max (Progress.received_objects p) cur_count.
Proof.
  unfold Progress.update.
  set (p' := match Progress.total p, max_count with
             | None, Some m => if negb (m =? 0) then Progress.set_total p max_count else p
             | _, _ => p
             end).
  assert (R : Progress.received_objects p' = Progress.received_objects p).
  { unfold p'. destruct (Progress.total p); [reflexivity|].
    destruct max_count as [m|]; [|reflexivity].
    destruct (negb (m =? 0)); reflexivity. }
  rewrite R. destruct (Progress.received_objects p <? cur_count) eqn:C; cbn; lia.
Qed.

Lemma update_total p cur_count max_count :
  Progress.total (fst (Progress.update p cur_count max_count))
  = match Progress.total p with
    | Some t => Some t
    | None => match max_count with
              | Some m => if negb (m =? 0) then Some m else None
              | None => None
              end
    end.
Proof.
  unfold Progress.update.
  destruct (Progress.total p) as [t|] eqn:T.
  - destruct (Progress.received_objects p <? cur_count); cbn; exact T.
  - destruct max_count as [m|].
    + destruct (negb (m =? 0)); cbn;
        match goal with |- context [?a <? ?b] => destruct (a <? b) end; cbn;
        try reflexivity; exact T.
    + destruct (Progress.received_objects p <? cur_count); cbn; exact T.
Qed.

(** X20: after any sequence of calls of [update], the objects received
    are the largest count seen, never less than before, and the total is
    the one the printer had, or else the first maximum that is a number
    other than zero: later maxima do not change it. *)
Theorem progress_keeps_the_largest_count p calls :
  Progress.received_objects (after_updates p calls)
  = fold_left Z.max (map fst calls) (Progress.received_objects p)
  /\ Progress.received_objects p <= Progress.received_objects (after_updates p calls)
  /\ Progress.total (after_updates p calls)
     = match Progress.total p with
       | Some t => Some t
       | None => first_total calls
       end.
Proof.
  revert p. induction calls as [|[cur_count max_count] calls IH]; intros p.
  - cbn. split; [reflexivity | split; [lia|]]. destruct (Progress.total p); reflexivity.
  - cbn [after_updates fold_left map fst snd].
    destruct (IH (fst (Progress.update p cur_count max_count))) as (A & B & C).
    fold (after_updates (fst (Progress.update p cur_count max_count)) calls).
    rewrite update_received in A, B. rewrite update_total in C.
    split; [exact A | split; [lia|]].
    rewrite C. unfold first_total. destruct (Progress.total p); [reflexivity|].
    destruct max_count as [m|]; cbn; [|reflexivity].
    destruct (negb (m =? 0)); reflexivity.
Qed.
(** ** The operating system *)

Lemma search_value_contains key s v :
  OS.search_value key s = Some v -> Py.contains key s = true.
Proof.
  induction s as [|c s IH]; cbn [OS.search_value Py.contains].
  - unfold OS.value_here. destruct (Py.startswith EmptyString key); [|discriminate].
    reflexivity.
  - unfold OS.value_here at 1.
    destruct (Py.startswith (String c s) key); [reflexivity|].
    intros H. rewrite (IH H). reflexivity.
Qed.

Section detect_facts.
Variable w : world.
Variable platform_version : string.
Variable platform_release : res string.
Variable getoutput : string -> res string.

Lemma uname_fallback_names self :
  match OS.uname_fallback getoutput self with
  | Ret info => OS.name info <> "Unknown"
  | Raise e => is_Exception e = false
  end.
Proof.
  unfold OS.uname_fallback, OS.unless_exception.
  destruct (getoutput "uname -a") as [uname|e].
  - repeat match goal with
           | |- context [if ?b then _ else _] => destruct b
           end; cbn; discriminate.
  - destruct (is_Exception e) eqn:E; [cbn; discriminate | exact E].
Qed.

End detect_facts.

(** X21: on Linux the name of the system never stays unknown: whatever
    the release files hold, and whether they can be read or not,
    [detect_os] ends with a name other than "Unknown" (at worst "Generic
    Linux"), and no [Exception] leaves it. *)
Theorem linux_always_gets_a_name w platform_version platform_release getoutput :
  match OS.detect_os w "Linux" platform_version platform_release getoutput with
  | Ret info => OS.name info <> "Unknown"
  | Raise e => is_Exception e = false
  end.
Proof.
  unfold OS.detect_os.
  change (String.eqb "Linux" "Windows") with false.
  change (String.eqb "Linux" "Darwin") with false.
  change (String.eqb "Linux" "Linux") with true. cbv iota.
  set (self0 := {| OS.name := "Unknown"; OS.family := "Unknown"; OS.version := "Unknown" |}).
  assert (K : forall r : res OS.os_info,
            match r with Ret _ => True | Raise e => is_Exception e = false end ->
            match (self ← r;
                   if String.eqb (OS.name self) "Unknown"
                   then OS.uname_fallback getoutput self else Ret self) with
            | Ret info => OS.name info <> "Unknown"
            | Raise e => is_Exception e = false
            end).
  { intros [self|e] H; cbn; [|exact H].
    destruct (String.eqb (OS.name self) "Unknown") eqn:E.
    - apply uname_fallback_names.
    - apply String.eqb_neq. exact E. }
  apply K.
  assert (U : forall (r : res string) k,
            (forall a, match k a with Ret _ => True | Raise _ => False end) ->
            match OS.unless_exception r self0 k with
            | Ret _ => True
            | Raise e => is_Exception e = false
            end).
  { intros r k Hk. unfold OS.unless_exception. destruct r as [a|x].
    - specialize (Hk a). destruct (k a); [exact I | destruct Hk].
    - destruct (is_Exception x) eqn:E; [exact I | exact E]. }
  destruct (path_exists w "/etc/os-release").
  - unfold OS.read_os_release. apply U. intros content.
    repeat match goal with
           | |- context [match ?x with Some _ => _ | None => _ end] => destruct x
           end; exact I.
  - destruct (path_exists w "/etc/redhat-release"); [|exact I].
    unfold OS.read_redhat_release. apply U. intros content.
    destruct (OS.search_release content) as [[g1 g2]|]; exact I.
Qed.

(** X22: a release file without [ID_LIKE=] leaves the family unknown,
    and the version too, even when the file gives one: the three fields
    are read in one block, which ends at the first pattern that is not
    found. *)
Theorem family_needs_id_like w platform_version platform_release getoutput lines x :
  path_exists w "/etc/os-release" = true ->
  read_lines w "/etc/os-release" = Ret lines ->
  Py.contains "ID_LIKE=" (String.concat EmptyString lines) = false ->
  OS.search_value "ID=" (String.concat EmptyString lines) = Some x ->
  x <> "Unknown" ->
  OS.detect_os w "Linux" platform_version platform_release getoutput
  = Ret {| OS.name := x; OS.family := "Unknown"; OS.version := "Unknown" |}.
Proof.
  intros He Hr Hc Hid Hx. unfold OS.detect_os.
  change (String.eqb "Linux" "Windows") with false.
  change (String.eqb "Linux" "Darwin") with false.
  change (String.eqb "Linux" "Linux") with true. cbv iota.
  rewrite He. unfold OS.read_os_release, OS.read_text. rewrite Hr. cbn.
  rewrite Hid.
  destruct (OS.search_value "ID_LIKE=" _) as [f|] eqn:F.
  { apply search_value_contains in F. congruence. }
  cbn. apply String.eqb_neq in Hx. rewrite Hx. reflexivity.
Qed.

Lemma family_needs_id_like_witness :
  OS.detect_os (os_release_world debian_os_release) "Linux" "#1 SMP" (Ret "6.1.0")
    sample_getoutput
  = Ret {| OS.name := "debian"; OS.family := "Unknown"; OS.version := "Unknown" |}.
Proof.
  apply (family_needs_id_like (os_release_world debian_os_release) "#1 SMP"
           (Ret "6.1.0") sample_getoutput debian_os_release "debian").
  - reflexivity.
  - reflexivity.
  - reflexivity.
  - reflexivity.
  - discriminate.
Defined.

Lemma take_while_value v rest :
  is_value v = true -> ends_value rest = true ->
  OS.take_while OS.value_char (v ++ rest) = v.
Proof.
  intros Hv Hr. induction v as [|c v IH].
  - change (EmptyString ++ rest) with rest. destruct rest as [|d rest]; [reflexivity|].
    cbn in Hr |- *. destruct (OS.value_char d); [discriminate | reflexivity].
  - rewrite append_cons. cbn [is_value] in Hv. apply andb_prop in Hv as [Hc Hv].
    cbn [OS.take_while]. rewrite Hc, (IH Hv). reflexivity.
Qed.

Lemma startswith_empty s : Py.startswith s EmptyString = true.
Proof. destruct s; reflexivity. Qed.

Lemma value_here_id q v rest :
  q = EmptyString \/ q = double_quote ->
  is_value v = true -> v <> EmptyString -> ends_value rest = true ->
  OS.value_here "ID=" ("ID=" ++ q ++ v ++ rest) = Some v.
Proof.
  intros Hq Hv Hne Hr. unfold OS.value_here.
  assert (S : Py.startswith ("ID=" ++ q ++ v ++ rest) "ID=" = true).
  { change ("ID=" ++ q ++ v ++ rest)
      with (String "I" (String "D" (String "=" (q ++ v ++ rest)))).
    destruct (q ++ v ++ rest); reflexivity. }
  rewrite S.
  change (Py.skip (String.length "ID=") ("ID=" ++ q ++ v ++ rest)) with (q ++ v ++ rest).
  assert (T : match q ++ v ++ rest with
              | String c rest' => if Py.code c =? 34 then rest' else q ++ v ++ rest
              | EmptyString => q ++ v ++ rest
              end = v ++ rest).
  { destruct Hq as [-> | ->].
    - change (EmptyString ++ v ++ rest) with (v ++ rest).
      destruct v as [|c v]; [congruence|]. rewrite append_cons.
      cbn [is_value] in Hv. apply andb_prop in Hv as [Hc _].
      unfold OS.value_char in Hc. apply andb_prop in Hc as [Hc _].
      destruct (Py.code c =? 34); [discriminate | reflexivity].
    - reflexivity. }
  rewrite T, take_while_value by assumption.
  destruct v; [congruence | reflexivity].
Qed.

Lemma startswith_id_across p t :
  p <> EmptyString -> Py.startswith p "ID=" = false ->
  Py.startswith (p ++ "ID=" ++ t) "ID=" = false.
Proof.
  intros Hne Hp. destruct p as [|c1 [|c2 [|c3 p]]]; [congruence|..];
    rewrite ?append_cons; cbn [Py.startswith] in *.
  - change (EmptyString ++ "ID=" ++ t) with (String "I" (String "D" (String "=" t))).
    cbn [Py.startswith]. destruct (Py.ascii_eqb c1 "I"); reflexivity.
  - change (EmptyString ++ "ID=" ++ t) with (String "I" (String "D" (String "=" t))).
    cbn [Py.startswith]. destruct (Py.ascii_eqb c1 "I"), (Py.ascii_eqb c2 "D"); reflexivity.
  - rewrite startswith_empty in *. exact Hp.
Qed.

Lemma search_value_first_id before q v rest :
  Py.contains "ID=" before = false ->
  q = EmptyString \/ q = double_quote ->
  is_value v = true -> v <> EmptyString -> ends_value rest = true ->
  OS.search_value "ID=" (before ++ "ID=" ++ q ++ v ++ rest) = Some v.
Proof.
  intros Hb Hq Hv Hne Hr. induction before as [|c before IH].
  - change (EmptyString ++ "ID=" ++ q ++ v ++ rest) with ("ID=" ++ q ++ v ++ rest).
    pose proof (value_here_id q v rest Hq Hv Hne Hr) as V.
    change ("ID=" ++ q ++ v ++ rest)
      with (String "I" (String "D" (String "=" (q ++ v ++ rest)))) in *.
    cbn [OS.search_value]. rewrite V. reflexivity.
  - cbn [Py.contains] in Hb. apply orb_false_elim in Hb as [Hs Hb].
    pose proof (startswith_id_across (String c before) (q ++ v ++ rest)
                  ltac:(discriminate) Hs) as S.
    rewrite append_cons in *. cbn [OS.search_value].
    unfold OS.value_here at 1. rewrite S. apply IH, Hb.
Qed.

(** X23: the name of a Linux system is what follows the first [ID=] of
    the release file, wherever that is: when a line such as
    [VERSION_ID="22.04"] comes before the line [ID=ubuntu], the name is
    the version number. *)
Theorem name_is_read_at_the_first_id w platform_version platform_release getoutput
    lines before q v rest :
  path_exists w "/etc/os-release" = true ->
  read_lines w "/etc/os-release" = Ret lines ->
  String.concat EmptyString lines = before ++ "ID=" ++ q ++ v ++ rest ->
  Py.contains "ID=" before = false ->
  q = EmptyString \/ q = double_quote ->
  is_value v = true -> v <> EmptyString -> ends_value rest = true ->
  v <> "Unknown" ->
  exists info,
    OS.detect_os w "Linux" platform_version platform_release getoutput = Ret info
    /\ OS.name info = v.
Proof.
  intros He Hr Hc Hb Hq Hv Hne Hrest Hu. unfold OS.detect_os.
  change (String.eqb "Linux" "Windows") with false.
  change (String.eqb "Linux" "Darwin") with false.
  change (String.eqb "Linux" "Linux") with true. cbv iota.
  rewrite He. unfold OS.read_os_release, OS.read_text. rewrite Hr. cbn.
  rewrite Hc, (search_value_first_id before q v rest) by assumption.
  apply String.eqb_neq in Hu.
  destruct (OS.search_value "ID_LIKE=" _) as [f|]; cbn.
  - destruct (OS.search_value "VERSION=" _) as [x|]; cbn; rewrite Hu; eexists;
      split; reflexivity.
  - rewrite Hu. eexists. split; reflexivity.
Qed.

Lemma name_is_read_at_the_first_id_witness :
  exists info,
    OS.detect_os (os_release_world ubuntu_os_release) "Linux" "#1 SMP" (Ret "5.15.0")
      sample_getoutput = Ret info
    /\ OS.name info = "22.04".
Proof.
  apply (name_is_read_at_the_first_id (os_release_world ubuntu_os_release) "#1 SMP"
           (Ret "5.15.0") sample_getoutput ubuntu_os_release
           ("PRETTY_NAME=" ++ quoted "Ubuntu 22.04.3 LTS" ++ Deps.newline
            ++ "NAME=" ++ quoted "Ubuntu" ++ Deps.newline ++ "VERSION_")
           double_quote "22.04"
           (double_quote ++ Deps.newline
            ++ "VERSION=" ++ quoted "22.04.3 LTS (Jammy Jellyfish)" ++ Deps.newline
            ++ "VERSION_CODENAME=jammy" ++ Deps.newline
            ++ "ID=ubuntu" ++ Deps.newline
            ++ "ID_LIKE=debian" ++ Deps.newline)).
  - reflexivity.
  - reflexivity.
  - reflexivity.
  - reflexivity.
  - right. reflexivity.
  - reflexivity.
  - discriminate.
  - reflexivity.
  - discriminate.
Defined.
(** ** Paths of the command line *)

Lemma replace_has_no_hyphen s : Py.contains "-" (Py.replace "-" "_" s) = false.
Proof.
  induction s as [|c s IH]; [reflexivity|].
  cbn [Py.replace]. destruct (Py.ascii_eqb c "-") eqn:E.
  - change ("_" ++ Py.replace "-" "_" s) with (String "_" (Py.replace "-" "_" s)).
    cbn [Py.contains Py.startswith]. rewrite IH. reflexivity.
  - cbn [Py.contains Py.startswith]. rewrite E, IH. reflexivity.
Qed.

Lemma normalize_arg_elsewhere expanduser isabs abspath _args arg key :
  key <> Setup.arg_name arg ->
  Setup.normalize_arg expanduser isabs abspath _args arg !! key = _args !! key.
Proof.
  intros Hk. unfold Setup.normalize_arg.
  destruct (Config.is_path arg); [|reflexivity].
  destruct (Config.default arg); try reflexivity.
  destruct (_args !! Setup.arg_name arg) as [[| | |path_value]|]; try reflexivity.
  destruct (Py.truthy path_value); [|reflexivity].
  apply lookup_insert_ne. congruence.
Qed.

Lemma normalize_paths_hyphen expanduser isabs abspath default_args :
  forall _args key,
  Py.contains "-" key = true ->
  Setup.normalize_paths expanduser isabs abspath _args default_args !! key
  = _args !! key.
Proof.
  unfold Setup.normalize_paths.
  induction default_args as [|arg rest IH]; intros _args key Hk; [reflexivity|].
  cbn [fold_left]. rewrite IH by exact Hk.
  apply normalize_arg_elsewhere. intros ->.
  unfold Setup.arg_name in Hk. rewrite replace_has_no_hyphen in Hk. discriminate.
Qed.

(** X24: [normalize_paths] looks for every path option under its long
    name with the hyphens replaced by underscores, while an option that
    has a short name is stored under its long name as it is; so the value
    of a path option with a short name and a hyphen in its long name, as
    [--log-dir], is never made absolute here, whatever the table and the
    namespace hold. *)
Theorem hyphenated_path_options_are_not_normalized expanduser isabs abspath
    _args default_args arg :
  has_short arg = true ->
  Py.contains "-" (Py.skip 2 (Config.long arg)) = true ->
  Setup.normalize_paths expanduser isabs abspath _args default_args
    !! Setup.dest_of arg
  = _args !! Setup.dest_of arg.
Proof.
  intros Hs Hh. apply normalize_paths_hyphen.
  unfold Setup.dest_of. unfold has_short in Hs. rewrite Hs. exact Hh.
Qed.

Lemma hyphenated_path_options_are_not_normalized_witness :
  let _args : gmap string Config.scalar :=
    {[ "log-dir" := Config.VStr "logs"; "dir" := Config.VStr "kohya" ]} in
  let table := log_dir_option :: Config.default_args "/opt/kohya_ss" in
  Setup.normalize_paths sample_expanduser sample_isabs sample_abspath _args table
    !! "log-dir" = Some (Config.VStr "logs")
  /\ Setup.normalize_paths sample_expanduser sample_isabs sample_abspath _args table
       !! "dir" = Some (Config.VStr "/cwd/kohya").
Proof.
  intros _args table. split.
  - change "log-dir" with (Setup.dest_of log_dir_option).
    rewrite (hyphenated_path_options_are_not_normalized sample_expanduser sample_isabs
               sample_abspath _args table log_dir_option); reflexivity.
  - reflexivity.
Defined.
(** ** Permissions, further *)

Section perms_again.
Variable osp : Py.os_path.
Variable guess_type : string -> option string.
Variable chmod_denied : string -> bool.
Variable os_walk : string -> list (string * list string * list string).

Local Abbreviation visit_file := (Perms.visit_file osp guess_type chmod_denied).
Local Abbreviation visit_files := (Perms.visit_files osp guess_type chmod_denied).
Local Abbreviation visit_roots := (Perms.visit_roots osp guess_type chmod_denied).
Local Abbreviation settled := (settled osp guess_type chmod_denied).

Lemma required_within_mask file_path file :
  subset_bits (Perms.required_permissions guess_type file_path file) Perms.S_IMODE_MASK.
Proof.
  rewrite required_permissions_values.
  destruct (Perms.is_executable _ _ _); reflexivity.
Qed.

Lemma chmod_gives_required req current mask :
  subset_bits req mask ->
  subset_bits req
    (Z.lor (Z.land current (Z.lnot mask))
           (Z.land (Z.lor current (Z.land req (Z.lnot current))) mask)).
Proof. intros H. bitwise. Qed.

Lemma visit_file_settles root file fs fs' :
  visit_file root file fs = (Ret Perms.Next, fs') ->
  settled fs' (Py.path_join osp root file, file).
Proof.
  unfold visit_file, Perms.visit_file, Perms.os_stat, Perms.os_chmod, settled.
  cbn [fst snd].
  set (file_path := Py.path_join osp root file).
  destruct (fs !! file_path) as [current|] eqn:E; [|discriminate].
  destruct (Z.land _ (Z.lnot current) =? 0) eqn:M; cbn [negb].
  - intros [= <-]. exists current. split; [exact E|]. left.
    apply Z.eqb_eq in M. exact M.
  - destruct (chmod_denied file_path) eqn:D.
    + destruct (Perms.outside_interpreter osp file_path) eqn:O; [discriminate|].
      intros [= <-]. exists current. split; [exact E|]. right. auto.
    + intros [= <-]. eexists. split; [apply lookup_insert_eq|]. left.
      apply chmod_gives_required, required_within_mask.
Qed.

Lemma visit_file_returns_false root file fs b fs' :
  visit_file root file fs = (Ret (Perms.Return b), fs') -> b = false.
Proof.
  unfold visit_file, Perms.visit_file, Perms.os_stat, Perms.os_chmod.
  destruct (fs !! _) as [current|]; [|discriminate].
  destruct (negb _); [|discriminate].
  destruct (chmod_denied _); [|discriminate].
  destruct (Perms.outside_interpreter osp _); [|discriminate].
  intros [= <- _]. reflexivity.
Qed.

Lemma settled_widened req fs fs' entry :
  settled fs entry -> widened req fs fs' -> settled fs' entry.
Proof.
  intros (mode & E & H) W. destruct (W _ _ E) as (post & E' & S & _).
  exists post. split; [exact E'|]. destruct H as [H|H]; [left | right; exact H].
  eapply subset_bits_trans; eassumption.
Qed.

Lemma visit_file_settled root file fs :
  settled fs (Py.path_join osp root file, file) ->
  visit_file root file fs = (Ret Perms.Next, fs).
Proof.
  unfold visit_file, Perms.visit_file, Perms.os_stat, Perms.os_chmod, settled.
  cbn [fst snd].
  set (file_path := Py.path_join osp root file).
  intros (mode & E & H). rewrite E.
  destruct (Z.land _ (Z.lnot mode) =? 0) eqn:M; cbn [negb]; [reflexivity|].
  destruct H as [H | [D O]].
  - unfold subset_bits in H. rewrite H in M. discriminate.
  - rewrite D, O. reflexivity.
Qed.

Lemma visit_files_settle root files fs fs' :
  visit_files root files fs = (Ret Perms.Next, fs') ->
  Forall (settled fs') ((fun file => (Py.path_join osp root file, file)) <$> files).
Proof.
  revert fs. induction files as [|file rest IH]; intros fs; cbn.
  - intros _. constructor.
  - destruct (Perms.visit_file osp guess_type chmod_denied root file fs)
      as [r1 fs1] eqn:V.
    destruct r1 as [[|b]|e]; try discriminate.
    intros H. constructor; [|exact (IH _ H)].
    eapply settled_widened; [exact (visit_file_settles _ _ _ _ V)|].
    exact (visit_files_widened _ _ _ _ _ _ _ _ H).
Qed.

Lemma visit_files_returns_false root files fs b fs' :
  visit_files root files fs = (Ret (Perms.Return b), fs') -> b = false.
Proof.
  revert fs. induction files as [|file rest IH]; intros fs; cbn; [discriminate|].
  destruct (Perms.visit_file osp guess_type chmod_denied root file fs)
    as [r1 fs1] eqn:V.
  destruct r1 as [[|b1]|e]; try discriminate.
  - apply IH.
  - intros [= -> ->]. exact (visit_file_returns_false _ _ _ _ _ V).
Qed.

Lemma visit_files_settled root files fs :
  Forall (settled fs) ((fun file => (Py.path_join osp root file, file)) <$> files) ->
  visit_files root files fs = (Ret Perms.Next, fs).
Proof.
  induction files as [|file rest IH]; cbn; [reflexivity|].
  intros H. inversion H as [|x l Hx Hl]; subst.
  rewrite (visit_file_settled _ _ _ Hx). exact (IH Hl).
Qed.

Lemma visit_roots_settle venv triples fs fs' :
  visit_roots venv triples fs = (Ret Perms.Next, fs') ->
  Forall (settled fs') (entries_of osp venv triples).
Proof.
  unfold entries_of.
  revert fs. induction triples as [|[[root dirs] files] rest IH]; intros fs; cbn.
  - intros _. constructor.
  - destruct (Perms.skipped_root osp venv root); [cbn; apply IH|].
    destruct (Perms.visit_files osp guess_type chmod_denied root files fs)
      as [r1 fs1] eqn:V.
    destruct r1 as [[|b]|e]; try discriminate.
    intros H. apply Forall_app. split; [|exact (IH _ H)].
    pose proof (visit_files_settle _ _ _ _ V) as S1.
    pose proof (visit_roots_widened _ _ _ _ _ _ _ _ H) as W.
    eapply Forall_impl; [exact S1|]. intros entry Hs.
    eapply settled_widened; eassumption.
Qed.

Lemma visit_roots_returns_false venv triples fs b fs' :
  visit_roots venv triples fs = (Ret (Perms.Return b), fs') -> b = false.
Proof.
  revert fs. induction triples as [|[[root dirs] files] rest IH]; intros fs; cbn;
    [discriminate|].
  destruct (Perms.skipped_root osp venv root); [apply IH|].
  destruct (Perms.visit_files osp guess_type chmod_denied root files fs)
    as [r1 fs1] eqn:V.
  destruct r1 as [[|b1]|e]; try discriminate.
  - apply IH.
  - intros [= -> ->]. exact (visit_files_returns_false _ _ _ _ _ V).
Qed.

Lemma visit_roots_settled venv triples fs :
  Forall (settled fs) (entries_of osp venv triples) ->
  visit_roots venv triples fs = (Ret Perms.Next, fs).
Proof.
  unfold entries_of.
  induction triples as [|[[root dirs] files] rest IH]; cbn; [reflexivity|].
  destruct (Perms.skipped_root osp venv root); [cbn; exact IH|].
  intros [H1 H2]%Forall_app.
  rewrite (visit_files_settled _ _ _ H1). exact (IH H2).
Qed.
End perms_again.

(** X25: [check_permissions] is idempotent: after a run that answered
    True, a second run over the same walk answers True again and changes
    no permission. *)
Theorem check_permissions_is_idempotent osp guess_type chmod_denied os_walk _dir fs fs' :
  Perms.check_permissions osp guess_type chmod_denied os_walk _dir fs = (Ret true, fs') ->
  Perms.check_permissions osp guess_type chmod_denied os_walk _dir fs' = (Ret true, fs').
Proof.
  unfold Perms.check_permissions.
  destruct (Perms.visit_roots osp guess_type chmod_denied _ _ fs) as [r1 fs1] eqn:V.
  destruct r1 as [[|b]|e]; try discriminate.
  - intros [= <-].
    rewrite (visit_roots_settled _ _ _ _ _ _ (visit_roots_settle _ _ _ _ _ _ _ V)).
    reflexivity.
  - intros [= -> <-]. apply visit_roots_returns_false in V. discriminate.
Qed.

Lemma check_permissions_is_idempotent_witness :
  let fs' : gmap string Z :=
    {[ "/opt/kohya_ss/venv/pyvenv.cfg" := 33206;
       "/opt/kohya_ss/venv/bin/activate_this.py" := 33279 ]} in
  Perms.check_permissions Py.posixpath no_mime (fun _ => false)
    venv_walk "/opt/kohya_ss" fs' = (Ret true, fs').
Proof.
  intros fs'.
  apply (check_permissions_is_idempotent Py.posixpath no_mime (fun _ => false)
           venv_walk "/opt/kohya_ss" venv_files fs').
  vm_compute. reflexivity.
Defined.
(** ** Verbosity and git, further *)

Lemma int_raises_value_error s e :
  Py.int s = Raise e -> exists msg, e = ValueError msg.
Proof.
  unfold Py.int. destruct (Py.to_ascii s) as [l|].
  - destruct (Py.long_from_string l); [discriminate|]. intros [= <-]. eauto.
  - intros [= <-]. eauto.
Qed.

Lemma count_is_not_negative c s : 0 <= Py.count c s.
Proof.
  induction s as [|d s IH]; cbn [Py.count]; [lia|].
  destruct (Py.ascii_eqb d c); lia.
Qed.

(** X26: whatever its argument, the verbosity action stores a count that
    is not negative, or leaves with exit status 1; only the option given
    without a value makes it fail otherwise, with the [TypeError] of
    [int(None)], which the action does not catch. *)
Theorem verbosity_is_never_negative values :
  match Verbosity.CountOccurrencesAction_call values with
  | Ret count => 0 <= count
  | Raise e => e = SystemExit 1 \/ (values = None /\ e = TypeError)
  end.
Proof.
  unfold Verbosity.CountOccurrencesAction_call, Verbosity.parse_count.
  destruct values as [values|]; [|cbn; auto].
  destruct (Py.int values) as [count|e] eqn:E.
  - cbn. destruct (count <? 0) eqn:C; [left; reflexivity | lia].
  - destruct (int_raises_value_error _ _ E) as [msg ->].
    destruct (negb (Verbosity.re_search_not_v values)); [|left; reflexivity].
    cbn. pose proof (count_is_not_negative "v" (values ++ "v")) as N.
    destruct (Py.count "v" (values ++ "v") <? 0) eqn:C; [lia | exact N].
Qed.

(** X27: [is_git_installed] asks for the version of [git] and of nothing
    else, on Windows too: the loop over the candidate names returns in its
    first round, so that [git.exe] is never tried; a program that cannot
    be started means False, every other failure of the command is
    raised. *)
Theorem git_exe_is_never_tried w s :
  Acquire.is_git_installed w s
  = (match outcome w (Run ["git"; "--version"]) with
     | None => Ret true
     | Some FileNotFoundError => Ret false
     | Some x => Raise x
     end,
     add_event s (Run ["git"; "--version"])).
Proof.
  unfold Acquire.is_git_installed.
  destruct (String.eqb (os_family w) "Windows"); cbn;
    unfold try_except, bind, act, bind, emit; cbn;
    destruct (outcome w (Run ["git"; "--version"])) as [x|]; try reflexivity;
    destruct x; reflexivity.
Qed.
